(** * SuperOps -> Syncro ticket import: a shallow embedding of
      [main_SuperOpsTickets_import.py] and the properties of its
      reconciliation, timeline-merge and orchestration code.

    The program is dynamically typed Python working on decoded JSON.  The
    embedding keeps that shape: JSON values are an inductive type, dicts are
    association lists in insertion order (iteration order matters for
    [dict.items()]), exceptions are an explicit [result] type, and the
    orchestrator's logging and outbound calls are events of a trace. *)

From Stdlib Require Import ZArith List String Ascii Bool Lia.
From Stdlib Require Import Sorting.Sorted Sorting.Permutation.
From Stdlib Require Import DecimalString.
Import ListNotations.

Set Warnings "-register-all".

Local Open Scope string_scope.
Local Open Scope list_scope.

(** ** Python values and the operations the program applies to them *)

Module Py.

(** Exceptions the modelled code can raise. *)
Inductive exn : Type :=
| KeyError
| TypeError
| AttributeError
| ValueError
| UnboundLocalError
| ExternalError.

Inductive result (A : Type) : Type :=
| Ok (a : A)
| Raise (e : exn).

Arguments Ok {A} a.
Arguments Raise {A} e.

Definition bind {A B : Type} (r : result A) (k : A -> result B) : result B :=
  match r with
  | Ok a => k a
  | Raise e => Raise e
  end.

Declare Scope py_scope.
Delimit Scope py_scope with py.

Notation "x <- e ;; k" := (bind e (fun x => k))
  (at level 61, e at next level, right associativity) : py_scope.

(** Code that also updates a state of type [S] (a list being appended to, the
    trace of a run): the state reached before an exception is kept, as a
    mutated Python object is. *)
Definition prog (S A : Type) : Type := S -> S * result A.

Definition ret {S A : Type} (a : A) : prog S A := fun s => (s, Ok a).

Definition raise {S A : Type} (e : exn) : prog S A := fun s => (s, Raise e).

Definition lift {S A : Type} (r : result A) : prog S A := fun s => (s, r).

Definition pbind {S A B : Type} (m : prog S A) (k : A -> prog S B) : prog S B :=
  fun s =>
    match m s with
    | (s', Ok a) => k a s'
    | (s', Raise e) => (s', Raise e)
    end.

Definition modify {S : Type} (f : S -> S) : prog S unit := fun s => (f s, Ok tt).

(** [try: m  except Exception as e: h e]. *)
Definition try_except {S A : Type} (m : prog S A) (h : exn -> prog S A) : prog S A :=
  fun s =>
    match m s with
    | (s', Ok a) => (s', Ok a)
    | (s', Raise e) => h e s'
    end.

(** [for x in l: body x]. *)
Fixpoint for_each {S A : Type} (l : list A) (body : A -> prog S unit) : prog S unit :=
  match l with
  | [] => ret tt
  | x :: l' => pbind (body x) (fun _ => for_each l' body)
  end.

Notation "x <-- e ;; k" := (pbind e (fun x => k))
  (at level 61, e at next level, right associativity) : py_scope.
Notation "e ;;; k" := (pbind e (fun _ => k))
  (at level 61, right associativity) : py_scope.

(** Decoded JSON.  Numbers are integers (floating point values are outside the
    model); a dict keeps its items in insertion order and a well-formed dict
    has no repeated key. *)
Inductive pyval : Type :=
| PNone
| PBool (b : bool)
| PInt (z : Z)
| PStr (s : string)
| PList (l : list pyval)
| PDict (d : list (string * pyval)).

Definition dict : Type := list (string * pyval).

(** [d.get(k)] on the items of a dict, [None] when the key is missing. *)
Fixpoint lookup (k : string) (d : dict) : option pyval :=
  match d with
  | [] => None
  | (k', v) :: d' => if String.eqb k k' then Some v else lookup k d'
  end.

(** [d.get(k, default)]. *)
Definition get (d : dict) (k : string) (default : pyval) : pyval :=
  match lookup k d with
  | Some v => v
  | None => default
  end.

(** [d[k]]. *)
Definition subscript (d : dict) (k : string) : result pyval :=
  match lookup k d with
  | Some v => Ok v
  | None => Raise KeyError
  end.

(** [d[k] = v]: an existing key keeps its position. *)
Fixpoint set_item (d : dict) (k : string) (v : pyval) : dict :=
  match d with
  | [] => [(k, v)]
  | (k', v') :: d' =>
      if String.eqb k k' then (k, v) :: d' else (k', v') :: set_item d' k v
  end.

(** [bool(v)]. *)
Definition truthy (v : pyval) : bool :=
  match v with
  | PNone => false
  | PBool b => b
  | PInt z => negb (Z.eqb z 0)
  | PStr s => negb (String.eqb s "")
  | PList l => match l with [] => false | _ => true end
  | PDict d => match d with [] => false | _ => true end
  end.

(** [a == b]; [bool] is a subclass of [int], so both compare by their integer
    value. *)
Fixpoint py_eq (a b : pyval) {struct a} : bool :=
  match a, b with
  | PNone, PNone => true
  | PBool x, PBool y => Bool.eqb x y
  | PBool x, PInt y => Z.eqb (Z.b2z x) y
  | PInt x, PBool y => Z.eqb x (Z.b2z y)
  | PInt x, PInt y => Z.eqb x y
  | PStr x, PStr y => String.eqb x y
  | PList xs, PList ys =>
      (fix eq_items (xs ys : list pyval) {struct xs} : bool :=
         match xs, ys with
         | [], [] => true
         | x :: xs', y :: ys' => py_eq x y && eq_items xs' ys'
         | _, _ => false
         end) xs ys
  | PDict d1, PDict d2 =>
      Nat.eqb (List.length d1) (List.length d2) &&
      (fix eq_values (d : dict) {struct d} : bool :=
         match d with
         | [] => true
         | (k, v) :: d' =>
             match lookup k d2 with
             | Some w => py_eq v w && eq_values d'
             | None => false
             end
         end) d1
  | _, _ => false
  end.

(** [a < b]; [TypeError] where Python has no ordering between the operands.
    Lists compare lexicographically: the first pair of unequal items decides. *)
Fixpoint py_lt (a b : pyval) {struct a} : result bool :=
  match a, b with
  | PBool x, PBool y => Ok (Z.ltb (Z.b2z x) (Z.b2z y))
  | PBool x, PInt y => Ok (Z.ltb (Z.b2z x) y)
  | PInt x, PBool y => Ok (Z.ltb x (Z.b2z y))
  | PInt x, PInt y => Ok (Z.ltb x y)
  | PStr x, PStr y => Ok (String.ltb x y)
  | PList xs, PList ys =>
      (fix lt_items (xs ys : list pyval) {struct xs} : result bool :=
         match xs, ys with
         | [], [] => Ok false
         | [], _ :: _ => Ok true
         | _ :: _, [] => Ok false
         | x :: xs', y :: ys' =>
             if py_eq x y then lt_items xs' ys' else py_lt x y
         end) xs ys
  | _, _ => Raise TypeError
  end.

(** [a > b] on the built-in types is [b < a]. *)
Definition py_gt (a b : pyval) : result bool := py_lt b a.

(** [x in l] for a list [l]. *)
Definition list_contains (x : pyval) (l : list pyval) : bool :=
  existsb (fun y => py_eq x y) l.

(** [needle in hay] for two strings: [needle] occurs at some position. *)
Fixpoint str_contains (needle hay : string) : bool :=
  String.prefix needle hay ||
  match hay with
  | EmptyString => false
  | String _ hay' => str_contains needle hay'
  end.

(** [s in c] for a string [s] as the left operand. *)
Definition contains (s : string) (c : pyval) : result bool :=
  match c with
  | PStr hay => Ok (str_contains s hay)
  | PList l => Ok (list_contains (PStr s) l)
  | PDict d => Ok (existsb (fun kv => String.eqb s (fst kv)) d)
  | PNone | PBool _ | PInt _ => Raise TypeError
  end.

(** [isinstance(v, dict)]. *)
Definition is_dict (v : pyval) : bool :=
  match v with PDict _ => true | _ => false end.

(** [str(z)] for an integer. *)
Definition str_of_Z (z : Z) : string := NilZero.string_of_int (Z.to_int z).

Section Str.
(** [repr] of a list or a dict; the program only reaches it when a ticket's
    display id is itself a container. *)
Variable repr_container : pyval -> string.

(** [str(v)], also what an f-string field [{v}] prints. *)
Definition py_str (v : pyval) : string :=
  match v with
  | PNone => "None"
  | PBool true => "True"
  | PBool false => "False"
  | PInt z => str_of_Z z
  | PStr s => s
  | PList _ | PDict _ => repr_container v
  end.
End Str.

(** [v.get(k, default)] on an arbitrary value: only a dict has [get]. *)
Definition get_attr (v : pyval) (k : string) (default : pyval) : result pyval :=
  match v with
  | PDict d => Ok (get d k default)
  | _ => Raise AttributeError
  end.

(** [v[k]] with a string key on an arbitrary value. *)
Definition item (v : pyval) (k : string) : result pyval :=
  match v with
  | PDict d => subscript d k
  | _ => Raise TypeError
  end.

(** The items a [for] loop over [v] visits: the elements of a list, the keys
    of a dict, the characters of a string. *)
Definition iterate (v : pyval) : result (list pyval) :=
  match v with
  | PList l => Ok l
  | PDict d => Ok (map (fun kv => PStr (fst kv)) d)
  | PStr s => Ok (map (fun c => PStr (String c EmptyString)) (list_ascii_of_string s))
  | PNone | PBool _ | PInt _ => Raise TypeError
  end.

(** A dict keyed by arbitrary hashable values, as its items in insertion
    order; [d[k] = v] raises on a key that is a list or a dict. *)
Fixpoint update_item {V : Type} (d : list (pyval * V)) (k : pyval) (v : V)
  : list (pyval * V) :=
  match d with
  | [] => [(k, v)]
  | (k', v') :: d' =>
      if py_eq k k' then (k', v) :: d' else (k', v') :: update_item d' k v
  end.

Definition store {V : Type} (d : list (pyval * V)) (k : pyval) (v : V)
  : result (list (pyval * V)) :=
  match k with
  | PList _ | PDict _ => Raise TypeError
  | _ => Ok (update_item d k v)
  end.

(** A list comprehension [[x for x in l if p x]] whose test may raise. *)
Fixpoint filter_r {A : Type} (p : A -> result bool) (l : list A) : result (list A) :=
  match l with
  | [] => Ok []
  | x :: l' =>
      bind (p x) (fun keep =>
      bind (filter_r p l') (fun r => Ok (if keep then x :: r else r)))
  end.

(** A loop that appends one computed item per element. *)
Fixpoint map_r {A B : Type} (f : A -> result B) (l : list A) : result (list B) :=
  match l with
  | [] => Ok []
  | x :: l' => bind (f x) (fun y => bind (map_r f l') (fun r => Ok (y :: r)))
  end.

(** [list.sort(key=...)]: a stable sort.  The model inserts the items one by
    one, each behind every item that is not greater; a comparison that raises
    aborts the sort.  On keys of one orderable kind this is the order Python
    produces; with keys of mixed kinds both raise [TypeError]. *)
Fixpoint insert_by_key {A : Type} (kx : pyval) (x : A) (l : list (pyval * A))
  : result (list (pyval * A)) :=
  match l with
  | [] => Ok [(kx, x)]
  | (ky, y) :: l' =>
      bind (py_lt kx ky) (fun lt =>
        if lt then Ok ((kx, x) :: (ky, y) :: l')
        else bind (insert_by_key kx x l') (fun r => Ok ((ky, y) :: r)))
  end.

Fixpoint sort_keyed {A : Type} (todo : list (pyval * A)) (done : list (pyval * A))
  : result (list (pyval * A)) :=
  match todo with
  | [] => Ok done
  | (kx, x) :: todo' => bind (insert_by_key kx x done) (sort_keyed todo')
  end.

(** The keys are computed first, in list order; a key function that raises
    aborts before any comparison. *)
Fixpoint keyed {A : Type} (key : A -> result pyval) (l : list A)
  : result (list (pyval * A)) :=
  match l with
  | [] => Ok []
  | x :: l' =>
      bind (key x) (fun kx => bind (keyed key l') (fun r => Ok ((kx, x) :: r)))
  end.

Definition sort_by {A : Type} (key : A -> result pyval) (l : list A)
  : result (list A) :=
  bind (keyed key l) (fun kl =>
  bind (sort_keyed kl []) (fun sorted => Ok (map snd sorted))).

(** [max(l, key=...)] on a non-empty list: the first item whose key no later
    key exceeds.  Each key is computed when its item is reached. *)
Fixpoint max_scan {A : Type} (key : A -> result pyval) (l : list A)
  (best : A) (kbest : pyval) : result A :=
  match l with
  | [] => Ok best
  | x :: l' =>
      bind (key x) (fun kx =>
      bind (py_gt kx kbest) (fun gt =>
        if gt then max_scan key l' x kx else max_scan key l' best kbest))
  end.

Definition max_by {A : Type} (key : A -> result pyval) (l : list A) : result A :=
  match l with
  | [] => Raise ValueError
  | x :: l' => bind (key x) (fun kx => max_scan key l' x kx)
  end.

End Py.

Import Py.
Local Open Scope py_scope.

(** ** The extraction helpers of the ticket aggregator *)

(** [extract_ticket_details]. *)
Definition extract_ticket_details (ticket_info : pyval) : result dict :=
  ticket_data <- get_attr ticket_info "ticketData" (PDict []) ;;
  displayId <- get_attr ticket_data "displayId" PNone ;;
  ticketId <- get_attr ticket_data "ticketId" PNone ;;
  subject <- get_attr ticket_data "subject" PNone ;;
  status <- get_attr ticket_data "status" PNone ;;
  priority <- get_attr ticket_data "priority" PNone ;;
  created_time <- get_attr ticket_data "createdTime" PNone ;;
  notes <- get_attr ticket_data "notes" (PList []) ;;
  conversations <- get_attr ticket_data "conversations" (PList []) ;;
  Ok [("displayId", displayId); ("ticketId", ticketId);
      ("subject", subject); ("status", status);
      ("priority", priority); ("created_time", created_time);
      ("notes", notes); ("conversations", conversations)].

(** The [conv.get('type') == 'TECH_REPLY'] test of the comprehension. *)
Definition is_tech_reply (conv : pyval) : result bool :=
  ty <- get_attr conv "type" PNone ;;
  Ok (py_eq ty (PStr "TECH_REPLY")).

(** The body of the [try] block of [get_assigned_tech_and_user]. *)
Definition assigned_tech_and_user_body (conversations : pyval)
  : result (pyval * pyval) :=
  convs <- iterate conversations ;;
  tech_replies <- filter_r is_tech_reply convs ;;
  match tech_replies with
  | _ :: _ =>
      oldest_tech_reply <- max_by (fun x => item x "time") tech_replies ;;
      tech <- get_attr oldest_tech_reply "user" PNone ;;
      to_users <- get_attr oldest_tech_reply "toUsers" (PList []) ;;
      Ok (tech, to_users)
  | [] => Ok (PNone, PList [])
  end.

(** [get_assigned_tech_and_user]: any exception is logged and turned into
    [(None, [])]. *)
Definition get_assigned_tech_and_user (conversations : pyval) : pyval * pyval :=
  match assigned_tech_and_user_body conversations with
  | Ok r => r
  | Raise _ => (PNone, PList [])
  end.

(** The loop of [get_description_content]: the content of the first
    DESCRIPTION entry. *)
Fixpoint first_description (conversations : list pyval) : result pyval :=
  match conversations with
  | [] => Ok PNone
  | conv :: rest =>
      ty <- get_attr conv "type" PNone ;;
      if py_eq ty (PStr "DESCRIPTION") then get_attr conv "content" PNone
      else first_description rest
  end.

(** [get_description_content]. *)
Definition get_description_content (conversations : pyval) : result pyval :=
  convs <- iterate conversations ;;
  first_description convs.

(** ** The timeline merger *)

(** The dict appended for one note. *)
Definition note_entry (note : pyval) : result pyval :=
  content <- get_attr note "content" (PStr "No Content") ;;
  added_by <- get_attr note "addedBy" (PDict []) ;;
  user <- get_attr added_by "name" (PStr "Unknown") ;;
  time <- get_attr note "addedOn" (PStr "Unknown Time") ;;
  Ok (PDict [("type", PStr "NOTE"); ("content", content);
             ("user", user); ("time", time)]).

(** The dict appended for one conversation: a [user] that is not a dict is
    replaced by the empty dict before its name is read. *)
Definition conversation_entry (conv : pyval) : result pyval :=
  user_info <- get_attr conv "user" PNone ;;
  let user_info := if is_dict user_info then user_info else PDict [] in
  ty <- get_attr conv "type" (PStr "Unknown") ;;
  content <- get_attr conv "content" (PStr "No Content") ;;
  user <- get_attr user_info "name" (PStr "Unknown") ;;
  time <- get_attr conv "time" (PStr "Unknown Time") ;;
  Ok (PDict [("type", ty); ("content", content);
             ("user", user); ("time", time)]).

Definition no_history : pyval := PStr "No notes or conversations found.".

(** [combine_notes_and_conversations]. *)
Definition combine_notes_and_conversations (notes conversations : list pyval)
  : result (list pyval) :=
  from_notes <- map_r note_entry notes ;;
  from_conversations <- map_r conversation_entry conversations ;;
  merged_items <- sort_by (fun x => item x "time") (from_notes ++ from_conversations) ;;
  Ok (match merged_items with
      | _ :: _ => merged_items
      | [] => [no_history]
      end).

(** ** The identity reconciler

    [superops_tickets] is the per-client dict built by the aggregator, as its
    items in insertion order: ticket id and ticket record.  [syncro_tickets]
    is the list of dicts describing the destination tickets.  Both functions
    grow the list [matched_tickets], which is the state of the loops; the
    log lines they write are not part of the model. *)

(** [if x not in matched_tickets: matched_tickets.append(x)]. *)
Definition append_if_new (x : pyval) : prog (list pyval) unit :=
  modify (fun matched_tickets =>
            if list_contains x matched_tickets then matched_tickets
            else matched_tickets ++ [x]).

(** Strategy A, the [try] block run for one source ticket. *)
Definition match_by_subject_and_date (syncro_tickets : list dict)
  (ticket_id : pyval) (ticket_info : dict) : prog (list pyval) unit :=
  let subject := get ticket_info "subject" PNone in
  let created_time := get ticket_info "created_time" PNone in
  if negb (truthy subject) || negb (truthy created_time) then ret tt
  else
    for_each syncro_tickets (fun syncro_ticket =>
      let syncro_subject := get syncro_ticket "subject" PNone in
      let syncro_created_at := get syncro_ticket "created_at" PNone in
      if negb (truthy syncro_subject) || negb (truthy syncro_created_at) then ret tt
      else if py_eq subject syncro_subject && py_eq created_time syncro_created_at then
        append_if_new ticket_id ;;;
        (* the log line of a match reads syncro_ticket['ticket_id'] *)
        _ <-- lift (subscript syncro_ticket "ticket_id") ;;
        ret tt
      else ret tt).

(** [compare_tickets_by_subject_and_date]. *)
Definition compare_tickets_by_subject_and_date
  (superops_tickets : list (pyval * dict)) (syncro_tickets : list dict) : list pyval :=
  fst (try_except
         (for_each superops_tickets (fun '(ticket_id, ticket_info) =>
            try_except (match_by_subject_and_date syncro_tickets ticket_id ticket_info)
                       (fun _ => ret tt)))
         (fun _ => ret tt)
         []).

Section StrategyB.
Variable repr_container : pyval -> string.

(** Strategy B, the [try] block run for one source ticket. *)
Definition match_by_subject (syncro_tickets : list dict)
  (ticket_info : dict) : prog (list pyval) unit :=
  let subject := get ticket_info "subject" PNone in
  let displayId := get ticket_info "displayId" PNone in
  if negb (truthy subject) then ret tt
  else if negb (truthy displayId) then ret tt
  else
    for_each syncro_tickets (fun syncro_ticket =>
      let syncro_subject := get syncro_ticket "subject" PNone in
      if negb (truthy syncro_subject) then ret tt
      else
        found <-- lift (contains (py_str repr_container displayId) syncro_subject) ;;
        if found then append_if_new displayId else ret tt).

(** [compare_tickets_by_subject]. *)
Definition compare_tickets_by_subject
  (superops_tickets : list (pyval * dict)) (syncro_tickets : list dict) : list pyval :=
  fst (try_except
         (for_each superops_tickets (fun '(_, ticket_info) =>
            try_except (match_by_subject syncro_tickets ticket_info)
                       (fun _ => ret tt)))
         (fun _ => ret tt)
         []).
End StrategyB.

(** ** Dates: what the cutoff test needs of [datetime] *)

Record datetime : Type := mk_datetime {
  year : Z; month : Z; day : Z;
  hour : Z; minute : Z; second : Z; microsecond : Z;
  (** [None] for a naive value, otherwise the UTC offset in seconds. *)
  tzinfo : option Z
}.

(** [cutoff_date = datetime(2024, 4, 1)]. *)
Definition cutoff_date : datetime := mk_datetime 2024 4 1 0 0 0 0 None.

(** [d.replace(tzinfo=tz)]. *)
Definition replace_tzinfo (d : datetime) (tz : option Z) : datetime :=
  mk_datetime (year d) (month d) (day d) (hour d) (minute d) (second d)
              (microsecond d) tz.

Definition is_leap (y : Z) : bool :=
  (y mod 4 =? 0)%Z && (negb (y mod 100 =? 0)%Z || (y mod 400 =? 0)%Z).

Definition days_before_year (y : Z) : Z :=
  let p := (y - 1)%Z in (p * 365 + p / 4 - p / 100 + p / 400)%Z.

Definition days_before_month (y m : Z) : Z :=
  (nth (Z.to_nat (m - 1)) [0; 31; 59; 90; 120; 151; 181; 212; 243; 273; 304; 334] 0
   + (if (2 <? m)%Z && is_leap y then 1 else 0))%Z.

(** Seconds since the start of year 1 of the wall-clock fields. *)
Definition wall_seconds (d : datetime) : Z :=
  ((days_before_year (year d) + days_before_month (year d) (month d) + day d) * 86400
   + hour d * 3600 + minute d * 60 + second d)%Z.

(** Lexicographic [<] on lists of integers. *)
Fixpoint lex_ltb (a b : list Z) : bool :=
  match a, b with
  | x :: a', y :: b' => (x <? y)%Z || ((x =? y)%Z && lex_ltb a' b')
  | [], _ :: _ => true
  | _, [] => false
  end.

Definition fields (d : datetime) : list Z :=
  [year d; month d; day d; hour d; minute d; second d; microsecond d].

(** [a < b] on datetimes: operands with the same [tzinfo] compare by their
    fields, two aware operands with different offsets by their UTC instants,
    and a naive operand does not compare with an aware one. *)
Definition datetime_lt (a b : datetime) : result bool :=
  match tzinfo a, tzinfo b with
  | None, None => Ok (lex_ltb (fields a) (fields b))
  | Some oa, Some ob =>
      if (oa =? ob)%Z then Ok (lex_ltb (fields a) (fields b))
      else Ok (lex_ltb [wall_seconds a - oa; microsecond a]
                       [wall_seconds b - ob; microsecond b])%Z
  | _, _ => Raise TypeError
  end.

(** The test of line 508:
    [ticket_created_time < cutoff_date.replace(tzinfo=ticket_created_time.tzinfo)]. *)
Definition older_than_cutoff (ticket_created_time : datetime) : result bool :=
  datetime_lt ticket_created_time
              (replace_tzinfo cutoff_date (tzinfo ticket_created_time)).

(** ** The migration orchestrator *)

Inductive level : Type := DEBUG | INFO | WARNING | ERROR | CRITICAL.

(** The log lines of the orchestrator, one constructor per call site. *)
Inductive log_msg : Type :=
| ProcessingCustomers (n : nat)
| CriticalFailure (e : exn)
| FetchingSyncroTickets (client : pyval)
| CustomerNotFound (client : pyval)
| MatchedTicketIds (ids : list pyval)
| TotalTickets (n : nat)
| FirstTicket (ticket_id : pyval)
| NoTicketsFound
| CustomerFailure (e : exn)
| ProcessingTicket (displayId : pyval)
| SkippingMissingFields (ticket_id : pyval)
| AssignedTechInvalid (ticket_id : pyval)
| NotesInvalid (ticket_id : pyval)
| ConversationsInvalid (ticket_id : pyval)
| CombinedTimeline (n : nat)
| NoNotesOrConversations (displayId : pyval)
| LookingForTicket (displayId : pyval) (ids : list pyval)
| AlreadyExists (displayId : pyval)
| NotFoundInSyncro (ticket_id : pyval)
| AttemptingToCreate (payload : pyval)
| TooOld (ticket_id : pyval)
| TicketCreated (number id : pyval)
| NoPause
| SkippingDescription (entry : pyval)
| FormingComment (entry : pyval)
| CreatingComment
| CommentEntry (entry : pyval)
| PassingComment (formatted : pyval)
| CommentFailure (e : exn)
| NoPauseForComments
| TicketFailure (ticket_id : pyval) (e : exn).

(** What a run does that the outside can see. *)
Inductive event : Type :=
| Log (lvl : level) (msg : log_msg)
| Stdout (v : pyval)
| Input
| CallCreateTicket (payload : pyval)
| CallCreateComment (comment ticket_id : pyval).

Definition trace : Type := list event.

Definition emit (e : event) : prog trace unit := modify (fun tr => tr ++ [e]).

Definition log (lvl : level) (msg : log_msg) : prog trace unit := emit (Log lvl msg).

(** [pauser_on = None]. *)
Definition pauser_on : pyval := PNone.

(** The functions imported from [syncro_utils], [syncro_read] and
    [syncro_write], [datetime.strptime] at the format
    ["%Y-%m-%dT%H:%M:%S%z"], and [repr] of containers.  Each may raise. *)
Record externals : Type := {
  repr_container : pyval -> string;
  get_customer_id_by_name : pyval -> result pyval;
  get_all_tickets_for_customer : pyval -> result pyval;
  extract_ticket_subjects_and_dates : pyval -> result (list dict);
  get_syncro_created_date : pyval -> result pyval;
  (** arguments: client, contact, ticket_id, subject, converted_created_time,
      status, priority, assigned_tech, description, timeline *)
  syncro_prepare_ticket_json_superops :
    pyval -> pyval -> pyval -> pyval -> pyval -> pyval -> pyval -> pyval ->
    pyval -> list pyval -> result pyval;
  strptime : pyval -> result datetime;
  syncro_create_ticket : pyval -> result pyval;
  build_syncro_comment : pyval -> result pyval;
  syncro_create_comment : pyval -> pyval -> result pyval
}.

(** [a + s] for a string [s]. *)
Definition add_str (a : pyval) (s : string) : result pyval :=
  match a with
  | PStr x => Ok (PStr (x ++ s))
  | _ => Raise TypeError
  end.

Section Orchestrator.
Variable E : externals.

(** [extract_assigned_tech]. *)
Definition extract_assigned_tech (ticket_id : pyval) (ticket_info : dict)
  : prog trace pyval :=
  match get ticket_info "assigned_tech" PNone with
  | PDict assigned_tech_info => ret (get assigned_tech_info "name" (PStr "Unassigned"))
  | _ => log WARNING (AssignedTechInvalid ticket_id) ;;; ret (PStr "Unassigned")
  end.

(** [extract_notes_and_conversations]: a field that is not a list becomes
    the empty list. *)
Definition extract_notes_and_conversations (ticket_id : pyval) (ticket_info : dict)
  : prog trace (list pyval * list pyval) :=
  notes <-- match get ticket_info "notes" PNone with
            | PList notes => ret notes
            | _ => log WARNING (NotesInvalid ticket_id) ;;; ret []
            end ;;
  conversations <-- match get ticket_info "conversations" PNone with
                    | PList conversations => ret conversations
                    | _ => log WARNING (ConversationsInvalid ticket_id) ;;; ret []
                    end ;;
  ret (notes, conversations).

(** The body of the comment loop for one timeline entry. *)
Definition replay_entry (created_ticket_id : pyval) (entry : pyval)
  : prog trace unit :=
  ty <-- lift (get_attr entry "type" PNone) ;;
  if py_eq ty (PStr "DESCRIPTION") then log INFO (SkippingDescription entry)
  else
    log INFO (FormingComment entry) ;;;
    emit (Stdout entry) ;;;
    emit (Stdout entry) ;;;
    emit (Stdout entry) ;;;
    try_except
      (log INFO CreatingComment ;;;
       log INFO (CommentEntry entry) ;;;
       formatted_comment <-- lift (build_syncro_comment E entry) ;;
       log INFO (PassingComment formatted_comment) ;;;
       emit (CallCreateComment formatted_comment created_ticket_id) ;;;
       _ <-- lift (syncro_create_comment E formatted_comment created_ticket_id) ;;
       ret tt)
      (fun comment_error => log ERROR (CommentFailure comment_error)).

(** Lines 517-547: what follows a creation response. *)
Definition after_creation (created_ticket_response : pyval) (timeline : list pyval)
  : prog trace unit :=
  has_ticket <-- (if truthy created_ticket_response
                  then lift (contains "ticket" created_ticket_response)
                  else ret false) ;;
  if has_ticket then
    ticket <-- lift (item created_ticket_response "ticket") ;;
    created_ticket_id <-- lift (get_attr ticket "id" PNone) ;;
    created_ticket_number <-- lift (get_attr ticket "number" PNone) ;;
    log INFO (TicketCreated created_ticket_number created_ticket_id) ;;;
    (if truthy pauser_on then emit Input else log INFO NoPause) ;;;
    for_each timeline (replay_entry created_ticket_id) ;;;
    (if truthy pauser_on then emit Input else log INFO NoPauseForComments)
  else ret tt.

(** Lines 504-547: the cutoff test on the payload's creation time, the
    creation call and what follows it.  [created_ticket_response] is only
    bound on the creating branch. *)
Definition create_unless_too_old (ticket_id new_syncro_ticket : pyval)
  (timeline : list pyval) : prog trace unit :=
  created_at <-- lift (item new_syncro_ticket "created_at") ;;
  ticket_created_time <-- lift (strptime E created_at) ;;
  too_old <-- lift (older_than_cutoff ticket_created_time) ;;
  created_ticket_response <--
    (if too_old then
       log INFO (TooOld ticket_id) ;;; ret None
     else
       log INFO (AttemptingToCreate new_syncro_ticket) ;;;
       emit (CallCreateTicket new_syncro_ticket) ;;;
       response <-- lift (syncro_create_ticket E new_syncro_ticket) ;;
       ret (Some response)) ;;
  match created_ticket_response with
  | None => raise UnboundLocalError
  | Some response => after_creation response timeline
  end.

(** [process_individual_ticket]. *)
Definition process_individual_ticket (client ticket_id : pyval)
  (ticket_info : dict) (matched_ticket_ids : list pyval) : prog trace unit :=
  try_except
    (let displayId := get ticket_info "displayId" PNone in
     subject <-- lift (add_str (get ticket_info "subject" (PStr ""))
                               (" " ++ py_str (repr_container E) displayId)) ;;
     let created_time := get ticket_info "created_time" PNone in
     log INFO (ProcessingTicket displayId) ;;;
     if negb (truthy subject) || negb (truthy created_time) then
       log WARNING (SkippingMissingFields ticket_id)
     else
       converted_created_time <-- lift (get_syncro_created_date E created_time) ;;
       let status := get ticket_info "status" (PStr "Unknown") in
       let priority := get ticket_info "priority" (PStr "Unknown") in
       assigned_tech <-- extract_assigned_tech ticket_id ticket_info ;;
       let description := get ticket_info "description" (PStr "No description available.") in
       let contact := get ticket_info "contact" (PStr "No contact available.") in
       nc <-- extract_notes_and_conversations ticket_id ticket_info ;;
       let '(notes, conversations) := nc in
       timeline <-- (match notes, conversations with
                     | [], [] =>
                         log INFO (NoNotesOrConversations displayId) ;;;
                         ret [no_history]
                     | _, _ =>
                         timeline <-- lift (combine_notes_and_conversations notes conversations) ;;
                         log DEBUG (CombinedTimeline (List.length timeline)) ;;;
                         ret timeline
                     end) ;;
       log INFO (LookingForTicket displayId matched_ticket_ids) ;;;
       if list_contains displayId matched_ticket_ids then
         log WARNING (AlreadyExists displayId)
       else
         log INFO (NotFoundInSyncro ticket_id) ;;;
         new_syncro_ticket <-- lift (syncro_prepare_ticket_json_superops E
                                       client contact ticket_id subject
                                       converted_created_time status priority
                                       assigned_tech description timeline) ;;
         log INFO (AttemptingToCreate new_syncro_ticket) ;;;
         create_unless_too_old ticket_id new_syncro_ticket timeline)
    (fun e => log ERROR (TicketFailure ticket_id e)).

(** [process_customer_tickets]: [tickets] is the client's dict of ticket
    records, as its items. *)
Definition process_customer_tickets (client : pyval) (tickets : list (pyval * dict))
  : prog trace unit :=
  try_except
    (log INFO (FetchingSyncroTickets client) ;;;
     syncro_customer_id <-- lift (get_customer_id_by_name E client) ;;
     if negb (truthy syncro_customer_id) then
       log WARNING (CustomerNotFound client)
     else
       syncro_tickets <-- lift (get_all_tickets_for_customer E client) ;;
       syncro_tickets_subjects_dates <--
         lift (extract_ticket_subjects_and_dates E syncro_tickets) ;;
       let matched_ticket_ids :=
         compare_tickets_by_subject (repr_container E) tickets
                                    syncro_tickets_subjects_dates in
       log INFO (MatchedTicketIds matched_ticket_ids) ;;;
       log DEBUG (TotalTickets (List.length tickets)) ;;;
       match tickets with
       | (first_ticket_id, _) :: _ => log INFO (FirstTicket first_ticket_id)
       | [] => log INFO NoTicketsFound
       end ;;;
       for_each tickets (fun '(ticket_id, ticket_info) =>
         process_individual_ticket client ticket_id ticket_info matched_ticket_ids))
    (fun e => log ERROR (CustomerFailure e)).

(** [process_tickets]. *)
Definition process_tickets (customers_tickets : list (pyval * list (pyval * dict)))
  : prog trace unit :=
  try_except
    (log INFO (ProcessingCustomers (List.length customers_tickets)) ;;;
     for_each customers_tickets (fun '(client, tickets) =>
       process_customer_tickets client tickets))
    (fun e => log CRITICAL (CriticalFailure e)).
End Orchestrator.

(** ** The ticket aggregator

    The source platform is reached through [requests.post]; [strip_html] is
    BeautifulSoup's text extraction.  The rate-limit sleep and the log lines
    of the aggregator are not part of the model.  The paging loop of
    [get_tickets_for_client] is a [while True]: the model takes the number
    of iterations it may run as [fuel] and answers [None] when that is
    exhausted. *)

Inductive query : Type :=
| QUERY_GET_CLIENT_LIST
| QUERY_GET_TICKETS
| QUERY_GET_TICKET_CONVERSATIONS
| QUERY_GET_TICKET_NOTES.

Record source : Type := {
  (** the decoded JSON body, [None] when the request fails *)
  post : query -> pyval -> option pyval;
  strip_html : pyval -> result pyval
}.

(** What one iteration of the paging loop decides. *)
Inductive page_outcome : Type :=
| ReturnEmpty
| Break (tickets : list pyval)
| NextPage (tickets : list pyval).

Definition client_list_variables : pyval :=
  PDict [("input", PDict [("page", PInt 1); ("pageSize", PInt 100)])].

Definition ticket_list_variables (account_id : pyval) (page : Z) : pyval :=
  PDict [("input",
          PDict [("page", PInt page);
                 ("pageSize", PInt 10);
                 ("condition",
                  PDict [("joinOperator", PStr "AND");
                         ("operands",
                          PList [PDict [("attribute", PStr "client.accountId");
                                        ("operator", PStr "contains");
                                        ("value", account_id)]])])])].

Definition ticket_variables (ticket_id : pyval) : pyval :=
  PDict [("input", PDict [("ticketId", ticket_id)])].

(** The guard every fetch applies to a response:
    [response is None or "data" not in response or
     response["data"].get(field) is None]; when it passes, the value of
    [response["data"][field]]. *)
Definition response_field (response : pyval) (field : string) : result (option pyval) :=
  match response with
  | PNone => Ok None
  | _ =>
      has_data <- contains "data" response ;;
      if negb has_data then Ok None
      else
        data <- item response "data" ;;
        v <- get_attr data field PNone ;;
        match v with
        | PNone => Ok None
        | _ => Ok (Some v)
        end
  end.

Section Aggregator.
Variable src : source.

(** [make_api_call]. *)
Definition make_api_call (q : query) (variables : pyval) : pyval :=
  match post src q (if truthy variables then variables else PDict []) with
  | Some json => json
  | None => PNone
  end.

(** The loop body of [get_ticket_conversations]. *)
Definition clean_conversation (conv : pyval) : result pyval :=
  user <- get_attr conv "user" (PDict []) ;;
  content <- get_attr conv "content" (PStr "") ;;
  stripped <- strip_html src content ;;
  match conv with
  | PDict d => Ok (PDict (set_item (set_item d "user" user) "content" stripped))
  | _ => Raise AttributeError
  end.

(** The loop body of [get_ticket_notes]. *)
Definition clean_note (note : pyval) : result pyval :=
  content <- get_attr note "content" (PStr "") ;;
  stripped <- strip_html src content ;;
  match note with
  | PDict d => Ok (PDict (set_item d "content" stripped))
  | _ => Raise AttributeError
  end.

(** The items are updated in place and the fetched object is returned: a
    list comes back with its items cleaned, an empty string or dict as it
    is. *)
Definition clean_all (clean : pyval -> result pyval) (fetched : pyval) : result pyval :=
  items <- iterate fetched ;;
  cleaned <- map_r clean items ;;
  match fetched with
  | PList _ => Ok (PList cleaned)
  | _ => Ok fetched
  end.

(** [get_ticket_conversations]. *)
Definition get_ticket_conversations (ticket_id : pyval) : result pyval :=
  let response := make_api_call QUERY_GET_TICKET_CONVERSATIONS (ticket_variables ticket_id) in
  field <- response_field response "getTicketConversationList" ;;
  match field with
  | None => Ok (PList [])
  | Some conversations => clean_all clean_conversation conversations
  end.

(** [get_ticket_notes]. *)
Definition get_ticket_notes (ticket_id : pyval) : result pyval :=
  let response := make_api_call QUERY_GET_TICKET_NOTES (ticket_variables ticket_id) in
  field <- response_field response "getTicketNoteList" ;;
  match field with
  | None => Ok (PList [])
  | Some notes => clean_all clean_note notes
  end.

(** The [for ticket in ticket_data["tickets"]] loop: a ticket without a
    truthy id is passed over, the others get their conversations and notes
    and are appended. *)
Fixpoint collect_tickets (page_tickets : list pyval) (tickets : list pyval)
  : result (list pyval) :=
  match page_tickets with
  | [] => Ok tickets
  | ticket :: rest =>
      ticket_id <- get_attr ticket "ticketId" PNone ;;
      if negb (truthy ticket_id) then collect_tickets rest tickets
      else
        conversations <- get_ticket_conversations ticket_id ;;
        notes <- get_ticket_notes ticket_id ;;
        match ticket with
        | PDict d =>
            collect_tickets rest
              (tickets ++ [PDict (set_item (set_item d "conversations" conversations)
                                           "notes" notes)])
        | _ => Raise AttributeError
        end
  end.

(** One iteration of the [while True] of [get_tickets_for_client]. *)
Definition fetch_page (account_id : pyval) (page : Z) (tickets : list pyval)
  : result page_outcome :=
  let response := make_api_call QUERY_GET_TICKETS (ticket_list_variables account_id page) in
  field <- response_field response "getTicketList" ;;
  match field with
  | None => Ok ReturnEmpty
  | Some ticket_data =>
      has_tickets <- contains "tickets" ticket_data ;;
      if negb has_tickets then Ok ReturnEmpty
      else
        page_value <- item ticket_data "tickets" ;;
        page_tickets <- iterate page_value ;;
        tickets' <- collect_tickets page_tickets tickets ;;
        list_info <- get_attr ticket_data "listInfo" (PDict []) ;;
        has_more <- get_attr list_info "hasMore" (PBool false) ;;
        if negb (truthy has_more) then Ok (Break tickets') else Ok (NextPage tickets')
  end.

Fixpoint tickets_from_page (fuel : nat) (account_id : pyval) (page : Z)
  (tickets : list pyval) : option (result (list pyval)) :=
  match fuel with
  | O => None
  | S fuel' =>
      match fetch_page account_id page tickets with
      | Raise e => Some (Raise e)
      | Ok ReturnEmpty => Some (Ok [])
      | Ok (Break tickets') => Some (Ok tickets')
      | Ok (NextPage tickets') => tickets_from_page fuel' account_id (page + 1) tickets'
      end
  end.

(** [get_tickets_for_client]: [page = 1], [page_size = 10], no tickets yet. *)
Definition get_tickets_for_client (fuel : nat) (account_id : pyval)
  : option (result (list pyval)) :=
  tickets_from_page fuel account_id 1 [].

(** The record stored for one ticket by [get_all_clients_with_tickets]. *)
Definition ticket_record (ticket : pyval) : result dict :=
  ticket_info <- extract_ticket_details (PDict [("ticketData", ticket)]) ;;
  conversations <- subscript ticket_info "conversations" ;;
  let '(assigned_tech, contact) := get_assigned_tech_and_user conversations in
  let ticket_info := set_item (set_item ticket_info "assigned_tech" assigned_tech)
                              "contact" contact in
  conversations <- subscript ticket_info "conversations" ;;
  description <- get_description_content conversations ;;
  Ok (set_item ticket_info "description" description).

(** The [for ticket in tickets] loop that fills [client_ticket_info]. *)
Fixpoint structure_tickets (tickets : list pyval) (client_ticket_info : list (pyval * dict))
  : result (list (pyval * dict)) :=
  match tickets with
  | [] => Ok client_ticket_info
  | ticket :: rest =>
      ticket_id <- get_attr ticket "ticketId" PNone ;;
      if truthy ticket_id then
        ticket_info <- ticket_record ticket ;;
        client_ticket_info' <- store client_ticket_info ticket_id ticket_info ;;
        structure_tickets rest client_ticket_info'
      else structure_tickets rest client_ticket_info
  end.

(** The [for client in ...["clients"]] loop that fills [client_tickets]. *)
Fixpoint collect_clients (fuel : nat) (clients : list pyval)
  (client_tickets : list (pyval * list (pyval * dict)))
  : option (result (list (pyval * list (pyval * dict)))) :=
  match clients with
  | [] => Some (Ok client_tickets)
  | client :: rest =>
      match (account_id <- item client "accountId" ;;
             client_name <- item client "name" ;;
             Ok (account_id, client_name)) with
      | Raise e => Some (Raise e)
      | Ok (account_id, client_name) =>
          match get_tickets_for_client fuel account_id with
          | None => None
          | Some (Raise e) => Some (Raise e)
          | Some (Ok tickets) =>
              match (client_ticket_info <- structure_tickets tickets [] ;;
                     store client_tickets client_name client_ticket_info) with
              | Raise e => Some (Raise e)
              | Ok client_tickets' => collect_clients fuel rest client_tickets'
              end
          end
      end
  end.

(** [get_all_clients_with_tickets]: one client-list request, page 1 with
    page size 100; [fuel] bounds the paging loop run for each client. *)
Definition get_all_clients_with_tickets (fuel : nat)
  : option (result (list (pyval * list (pyval * dict)))) :=
  let clients := make_api_call QUERY_GET_CLIENT_LIST client_list_variables in
  match (field <- response_field clients "getClientList" ;;
         match field with
         | None => Ok None
         | Some client_list =>
             clients_value <- item client_list "clients" ;;
             items <- iterate clients_value ;;
             Ok (Some items)
         end) with
  | Raise e => Some (Raise e)
  | Ok None => Some (Ok [])
  | Ok (Some items) => collect_clients fuel items []
  end.
End Aggregator.

(** ** Vocabulary of the statements *)

(** The two kinds of value Python orders and the program receives as
    timestamps: numbers and text. *)
Inductive key_kind : Type := Numeric | Text.

Definition kind_of (v : pyval) : option key_kind :=
  match v with
  | PBool _ | PInt _ => Some Numeric
  | PStr _ => Some Text
  | _ => None
  end.

(** [a <= b] as the program observes it: [b < a] is defined and false. *)
Definition key_le (a b : pyval) : Prop := py_lt b a = Ok false.

(** JSON scalars: the values that can be display ids and dict keys. *)
Definition is_scalar (v : pyval) : bool :=
  match v with
  | PList _ | PDict _ => false
  | _ => true
  end.

(** [needle] occurs somewhere in [hay]. *)
Definition occurs_in (needle hay : string) : Prop :=
  exists before after : string, hay = (before ++ needle ++ after)%string.

(** No item of the list equals ([==]) a later one. *)
Definition no_duplicates (l : list pyval) : Prop :=
  ForallOrdPairs (fun a b => py_eq a b = false) l.

(** A conversation entry is a tech reply. *)
Definition tech_reply (conv : dict) : bool :=
  py_eq (get conv "type" PNone) (PStr "TECH_REPLY").

(** Every entry of the list carries a timestamp of kind [k] under [field]. *)
Definition timestamps_of_kind (k : key_kind) (field : string) (l : list dict) : Prop :=
  Forall (fun e => exists t, lookup field e = Some t /\ kind_of t = Some k) l.

(** The timestamp of [a] is not later than that of [b]. *)
Definition time_le (a b : pyval) : Prop :=
  exists ta tb, item a "time" = Ok ta /\ item b "time" = Ok tb /\ key_le ta tb.

(** The timeline entry of a note whose author field is absent or a dict. *)
Definition note_fields (note : dict) : pyval :=
  PDict [("type", PStr "NOTE");
         ("content", get note "content" (PStr "No Content"));
         ("user", match get note "addedBy" (PDict []) with
                  | PDict added_by => get added_by "name" (PStr "Unknown")
                  | _ => PNone
                  end);
         ("time", get note "addedOn" (PStr "Unknown Time"))].

(** The timeline entry of a conversation. *)
Definition conversation_fields (conv : dict) : pyval :=
  PDict [("type", get conv "type" (PStr "Unknown"));
         ("content", get conv "content" (PStr "No Content"));
         ("user", match get conv "user" PNone with
                  | PDict user_info => get user_info "name" (PStr "Unknown")
                  | _ => PStr "Unknown"
                  end);
         ("time", get conv "time" (PStr "Unknown Time"))].

(** The author field of a note does not make [note_entry] raise. *)
Definition author_readable (note : dict) : Prop :=
  is_dict (get note "addedBy" (PDict [])) = true.

(** Notes and conversations whose timestamps, after defaulting, are all of
    kind [k]. *)
Definition timeline_keys_of_kind (k : key_kind) (notes conversations : list dict) : Prop :=
  Forall (fun note => kind_of (get note "addedOn" (PStr "Unknown Time")) = Some k) notes /\
  Forall (fun conv => kind_of (get conv "time" (PStr "Unknown Time")) = Some k) conversations.

(** A timeline entry is a description. *)
Definition is_description (entry : dict) : bool :=
  py_eq (get entry "type" PNone) (PStr "DESCRIPTION").

(** The comment-creation calls of a trace. *)
Definition comment_calls (tr : trace) : list event :=
  filter (fun ev => match ev with CallCreateComment _ _ => true | _ => false end) tr.

(** The ticket-creation calls of a trace. *)
Definition creation_calls (tr : trace) : list event :=
  filter (fun ev => match ev with CallCreateTicket _ => true | _ => false end) tr.

(** ** Sample data *)

(** The conversation list of the repository's test
    [test_earliest_tech_reply_is_chosen]. *)
Definition test_conversations : list dict :=
  [ [("type", PStr "CUSTOMER_REPLY"); ("time", PInt 0);
     ("user", PDict [("name", PStr "Customer")]);
     ("toUsers", PList [PDict [("user", PStr "Tech")]])];
    [("type", PStr "TECH_REPLY"); ("time", PInt 2);
     ("user", PDict [("name", PStr "Tech2")]);
     ("toUsers", PList [PDict [("user", PStr "User2")]])];
    [("type", PStr "TECH_REPLY"); ("time", PInt 1);
     ("user", PDict [("name", PStr "Tech1")]);
     ("toUsers", PList [PDict [("user", PStr "User1")]])] ].

(** ** Vocabulary of the reconciler statements *)

(** The list after [if x not in m: m.append(x)]. *)
Definition add_new (x : pyval) (m : list pyval) : list pyval :=
  if list_contains x m then m else m ++ [x].

(** A destination subject is text, or missing. *)
Definition subject_is_text (dst : dict) : Prop :=
  match get dst "subject" PNone with
  | PNone | PStr _ => True
  | _ => False
  end.

(** Strategy B on one pair: the destination ticket has a non-empty subject
    in which [needle] occurs. *)
Definition subject_mentions (needle : string) (dst : dict) : Prop :=
  exists s, get dst "subject" PNone = PStr s /\ s <> "" /\ occurs_in needle s.

(** Strategy A on one pair: both tickets carry subject and creation time,
    and these are equal ([==]) as given. *)
Definition same_subject_and_date (ticket_info dst : dict) : Prop :=
  truthy (get dst "subject" PNone) = true /\
  truthy (get dst "created_at" PNone) = true /\
  py_eq (get ticket_info "subject" PNone) (get dst "subject" PNone) = true /\
  py_eq (get ticket_info "created_time" PNone) (get dst "created_at" PNone) = true.

(** The matched list after a run over candidates, each an id with the
    verdict of its scan. *)
Definition record_hits (cands : list (pyval * bool)) (m : list pyval) : list pyval :=
  fold_left (fun (m : list pyval) (c : pyval * bool) =>
               if snd c then add_new (fst c) m else m) cands m.

(** The test Strategy A applies to one pair, and to one source ticket
    against the whole destination list. *)
Definition pair_matches_A (ticket_info dst : dict) : bool :=
  truthy (get dst "subject" PNone) && truthy (get dst "created_at" PNone) &&
  (py_eq (get ticket_info "subject" PNone) (get dst "subject" PNone) &&
   py_eq (get ticket_info "created_time" PNone) (get dst "created_at" PNone)).

Definition source_matches_A (syncro_tickets : list dict) (ticket_info : dict) : bool :=
  truthy (get ticket_info "subject" PNone) &&
  truthy (get ticket_info "created_time" PNone) &&
  existsb (pair_matches_A ticket_info) syncro_tickets.

(** The test Strategy B applies to one destination ticket with a text
    subject, and to one source ticket against the whole destination list. *)
Definition pair_matches_B (needle : string) (dst : dict) : bool :=
  match get dst "subject" PNone with
  | PStr s => negb (String.eqb s "") && str_contains needle s
  | _ => false
  end.

Definition source_matches_B (repr : pyval -> string) (syncro_tickets : list dict)
  (ticket_info : dict) : bool :=
  truthy (get ticket_info "subject" PNone) &&
  truthy (get ticket_info "displayId" PNone) &&
  existsb (pair_matches_B (py_str repr (get ticket_info "displayId" PNone))) syncro_tickets.

(** A note and two conversations of one ticket; the second conversation has
    no usable author. *)
Definition sample_notes : list dict :=
  [ [("noteId", PStr "n1"); ("content", PStr "Called the customer");
     ("addedBy", PDict [("name", PStr "Ann")]);
     ("addedOn", PStr "2024-05-02T09:00:00")] ].

Definition sample_conversations : list dict :=
  [ [("type", PStr "TECH_REPLY"); ("content", PStr "On it");
     ("time", PStr "2024-05-03T10:00:00"); ("user", PStr "bob")];
    [("type", PStr "DESCRIPTION"); ("content", PStr "Printer broken");
     ("time", PStr "2024-05-01T08:00:00");
     ("user", PDict [("name", PStr "Carl")])] ].

(** [repr] of containers is never reached on the sample tickets. *)
Definition sample_repr (v : pyval) : string := "".

(** Source tickets of one client and the destination tickets already there. *)
Definition sample_superops_tickets : list (pyval * dict) :=
  [ (PStr "t-1", [("displayId", PStr "45"); ("ticketId", PStr "t-1");
                  ("subject", PStr "Printer broken");
                  ("created_time", PStr "2024-05-01T10:00:00")]);
    (PStr "t-2", [("displayId", PInt 77); ("ticketId", PStr "t-2");
                  ("subject", PStr "VPN down");
                  ("created_time", PStr "2024-05-02T11:30:00")]) ].

Definition sample_syncro_tickets : list dict :=
  [ [("ticket_id", PInt 900); ("subject", PStr "Printer issue #4521");
     ("created_at", PStr "2024-04-20T08:00:00")];
    [("ticket_id", PInt 901); ("subject", PStr "VPN down");
     ("created_at", PStr "2024-05-02T11:30:00")] ].

(** ** Vocabulary of the orchestrator statements *)

(** The lists [extract_notes_and_conversations] hands on. *)
Definition notes_of (ticket_info : dict) : list pyval :=
  match get ticket_info "notes" PNone with
  | PList notes => notes
  | _ => []
  end.

Definition conversations_of (ticket_info : dict) : list pyval :=
  match get ticket_info "conversations" PNone with
  | PList conversations => conversations
  | _ => []
  end.

(** A program that leaves the ticket-creation calls of the trace as they were. *)
Definition creates_nothing {A : Type} (p : prog trace A) : Prop :=
  forall tr, creation_calls (fst (p tr)) = creation_calls tr.

Definition march_last_2024 : datetime := mk_datetime 2024 3 31 23 59 59 0 (Some 0%Z).
Definition april_first_2024 : datetime := mk_datetime 2024 4 1 0 0 0 0 (Some 0%Z).
Definition may_first_2024 : datetime := mk_datetime 2024 5 1 0 0 0 0 (Some 0%Z).

(** [datetime.strptime] at the timestamps of the sample tickets. *)
Definition sample_strptime (created_at : pyval) : result datetime :=
  if py_eq created_at (PStr "2024-03-31T23:59:59+0000") then Ok march_last_2024
  else if py_eq created_at (PStr "2024-04-01T00:00:00+0000") then Ok april_first_2024
  else if py_eq created_at (PStr "2024-05-01T00:00:00+0000") then Ok may_first_2024
  else Raise ValueError.

(** Externals for the sample runs: customer 12 exists, its destination
    tickets are [dst], creation times are already in destination format, the
    payload carries subject and converted creation time, and creation answers
    with ticket 500. *)
Definition sample_externals (dst : list dict) : externals :=
  {| repr_container := sample_repr;
     get_customer_id_by_name := fun _ => Ok (PInt 12);
     get_all_tickets_for_customer := fun _ => Ok (PList (map PDict dst));
     extract_ticket_subjects_and_dates := fun _ => Ok dst;
     get_syncro_created_date := fun created_time => Ok created_time;
     syncro_prepare_ticket_json_superops :=
       fun client contact ticket_id subject converted_created_time status priority
           assigned_tech description timeline =>
         Ok (PDict [("subject", subject); ("created_at", converted_created_time)]);
     strptime := sample_strptime;
     syncro_create_ticket :=
       fun _ => Ok (PDict [("ticket", PDict [("id", PInt 500); ("number", PInt 1001)])]);
     build_syncro_comment := fun entry => Ok entry;
     syncro_create_comment := fun _ _ => Ok PNone |}.

(** The scenario ticket of client Acme, with and without its creation time,
    and with a subject that is [None]. *)
Definition acme_ticket : dict :=
  [("displayId", PInt 77); ("ticketId", PStr "t-77");
   ("subject", PStr "Printer broken");
   ("created_time", PStr "2024-05-01T00:00:00+0000");
   ("notes", PList []); ("conversations", PList [])].

Definition acme_ticket_march : dict :=
  [("displayId", PInt 78); ("ticketId", PStr "t-78");
   ("subject", PStr "Scanner jammed");
   ("created_time", PStr "2024-03-31T23:59:59+0000");
   ("notes", PList []); ("conversations", PList [])].

Definition acme_ticket_april : dict :=
  [("displayId", PInt 79); ("ticketId", PStr "t-79");
   ("subject", PStr "Screen flickers");
   ("created_time", PStr "2024-04-01T00:00:00+0000");
   ("notes", PList []); ("conversations", PList [])].

Definition acme_ticket_untimed : dict :=
  [("displayId", PInt 77); ("ticketId", PStr "t-77");
   ("subject", PStr "Printer broken");
   ("created_time", PNone);
   ("notes", PList []); ("conversations", PList [])].

Definition acme_ticket_no_subject : dict :=
  [("displayId", PInt 77); ("ticketId", PStr "t-77");
   ("subject", PNone);
   ("created_time", PStr "2024-05-01T00:00:00+0000");
   ("notes", PList []); ("conversations", PList [])].

Definition acme_ticket_empty_subject : dict :=
  [("displayId", PInt 77); ("ticketId", PStr "t-77");
   ("subject", PStr "");
   ("created_time", PStr "2024-05-01T00:00:00+0000");
   ("notes", PList []); ("conversations", PList [])].

Definition acme_destination : list dict :=
  [ [("ticket_id", PInt 900); ("subject", PStr "Printer broken 77 (resolved)");
     ("created_at", PStr "2024-05-01T00:00:00+0000")] ].

(** The comment-creation calls the replay of a timeline of dicts makes on
    ticket [created_ticket_id]: none for a description, one for any other
    entry that [build_syncro_comment] formats. *)
Definition replayed_calls (E : externals) (created_ticket_id : pyval)
  (timeline : list dict) : list event :=
  flat_map (fun entry =>
              if is_description entry then []
              else match build_syncro_comment E (PDict entry) with
                   | Ok formatted_comment =>
                       [CallCreateComment formatted_comment created_ticket_id]
                   | Raise _ => []
                   end) timeline.

(** A timeline of one description and two notes. *)
Definition sample_timeline : list dict :=
  [ [("type", PStr "DESCRIPTION"); ("content", PStr "Printer broken");
     ("user", PStr "Carl"); ("time", PStr "2024-05-01T08:00:00")];
    [("type", PStr "NOTE"); ("content", PStr "Called the customer");
     ("user", PStr "Ann"); ("time", PStr "2024-05-02T09:00:00")];
    [("type", PStr "NOTE"); ("content", PStr "Replaced the toner");
     ("user", PStr "Ann"); ("time", PStr "2024-05-03T09:00:00")] ].

Definition sample_response : pyval :=
  PDict [("ticket", PDict [("id", PInt 500); ("number", PInt 1001)])].

(** ** Vocabulary of the aggregator statements *)

(** The response bodies of the sample sources, with the fields the queries
    ask for: [clients { accountId name }] for the client list, and
    [tickets { ... } listInfo { hasMore totalCount }] for a ticket page. *)
Definition client_page (clients : list pyval) : pyval :=
  PDict [("data", PDict [("getClientList", PDict [("clients", PList clients)])])].

Definition ticket_page (tickets : list pyval) (has_more : bool) (total_count : Z)
  : pyval :=
  PDict [("data",
          PDict [("getTicketList",
                  PDict [("tickets", PList tickets);
                         ("listInfo", PDict [("hasMore", PBool has_more);
                                             ("totalCount", PInt total_count)])])])].

(** What the program reads of a response to the client query: a JSON object
    whose [data.getClientList.clients] is the list [clients].  Any further
    field of the response is free. *)
Definition is_client_page (response : pyval) (clients : list pyval) : Prop :=
  exists r data client_list,
    response = PDict r /\
    lookup "data" r = Some (PDict data) /\
    lookup "getClientList" data = Some (PDict client_list) /\
    lookup "clients" client_list = Some (PList clients).

(** What the program reads of a response to the ticket query: a JSON object
    whose [data.getTicketList] holds the list [tickets] and a [listInfo]
    whose [hasMore] is [has_more].  Any further field, such as the
    [totalCount] the query asks for, is free. *)
Definition is_ticket_page (response : pyval) (tickets : list pyval) (has_more : bool)
  : Prop :=
  exists r data ticket_data list_info,
    response = PDict r /\
    lookup "data" r = Some (PDict data) /\
    lookup "getTicketList" data = Some (PDict ticket_data) /\
    lookup "tickets" ticket_data = Some (PList tickets) /\
    lookup "listInfo" ticket_data = Some (PDict list_info) /\
    lookup "hasMore" list_info = Some (PBool has_more).

(** The source answers the ticket requests for [account_id] with the pages
    [pages], one per page number from 1 on, and reports more pages on all
    but the last. *)
Definition serves_pages (src : source) (account_id : pyval) (pages : list (list dict))
  : Prop :=
  pages <> [] /\
  forall (i : nat) (page : list dict),
    nth_error pages i = Some page ->
    exists response,
      post src QUERY_GET_TICKETS (ticket_list_variables account_id (Z.of_nat i + 1))
      = Some response /\
      is_ticket_page response (map PDict page) (Nat.ltb (S i) (List.length pages)).

(** A ticket with an id has a hashable id, and its conversations and notes
    can be fetched. *)
Definition fetchable (src : source) (ticket : dict) : Prop :=
  truthy (get ticket "ticketId" PNone) = true ->
  is_scalar (get ticket "ticketId" PNone) = true /\
  (exists conversations,
      get_ticket_conversations src (get ticket "ticketId" PNone) = Ok conversations) /\
  (exists notes, get_ticket_notes src (get ticket "ticketId" PNone) = Ok notes).

(** A ticket carries an id. *)
Definition has_id (ticket : dict) : bool := truthy (get ticket "ticketId" PNone).

(** A ticket with its fetched conversations and notes. *)
Definition attach (src : source) (ticket : dict) : pyval :=
  match get_ticket_conversations src (get ticket "ticketId" PNone),
        get_ticket_notes src (get ticket "ticketId" PNone) with
  | Ok conversations, Ok notes =>
      PDict (set_item (set_item ticket "conversations" conversations) "notes" notes)
  | _, _ => PDict ticket
  end.

(** What the aggregator needs of a client of the client page: account id and
    hashable name, ticket pages [pages] served within [fuel] requests, and
    tickets that can be completed. *)
Definition client_served (src : source) (fuel : nat) (pages : pyval -> list (list dict))
  (client : dict) : Prop :=
  exists account_id name,
    lookup "accountId" client = Some account_id /\
    lookup "name" client = Some name /\
    is_scalar name = true /\
    serves_pages src account_id (pages account_id) /\
    (List.length (pages account_id) <= fuel)%nat /\
    Forall (fetchable src) (List.concat (pages account_id)).



(** A source platform with [clients] and no tickets that honours the page
    number and page size of a client-list request. *)
Definition numbered_client (i : nat) : pyval :=
  PDict [("accountId", PInt (Z.of_nat i));
         ("name", PStr ("client " ++ str_of_Z (Z.of_nat i)))].

Definition requested (variables : pyval) (field : string) : nat :=
  match item variables "input" with
  | Ok input => match item input field with
                | Ok (PInt z) => Z.to_nat z
                | _ => 0%nat
                end
  | Raise _ => 0%nat
  end.

Definition paged_source (clients : list pyval) : source :=
  {| post := fun q variables =>
       match q with
       | QUERY_GET_CLIENT_LIST =>
           let page := requested variables "page" in
           let page_size := requested variables "pageSize" in
           Some (client_page (firstn page_size (skipn ((page - 1) * page_size) clients)))
       | QUERY_GET_TICKETS => Some (ticket_page [] false 0)
       | QUERY_GET_TICKET_CONVERSATIONS =>
           Some (PDict [("data", PDict [("getTicketConversationList", PList [])])])
       | QUERY_GET_TICKET_NOTES =>
           Some (PDict [("data", PDict [("getTicketNoteList", PList [])])])
       end;
     strip_html := fun content => Ok content |}.

Definition many_clients : list pyval := map numbered_client (seq 1 101).

(** A source with the two clients Acme and Bolt; Acme has three pages of
    tickets, Bolt one empty page. *)
Definition acme_pages : list (list dict) :=
  [ [ [("ticketId", PStr "t-1"); ("displayId", PStr "1"); ("subject", PStr "A")];
      [("ticketId", PStr "t-2"); ("displayId", PStr "2"); ("subject", PStr "B")] ];
    [ [("ticketId", PNone); ("subject", PStr "no id")] ];
    [ [("ticketId", PStr "t-3"); ("displayId", PStr "3"); ("subject", PStr "C")] ] ].

Definition two_clients : list dict :=
  [ [("accountId", PInt 1); ("name", PStr "Acme")];
    [("accountId", PInt 2); ("name", PStr "Bolt")] ].

Definition two_client_pages (account_id : pyval) : list (list dict) :=
  if py_eq account_id (PInt 1) then acme_pages else [[]].

Definition two_client_source : source :=
  {| post := fun q variables =>
       match q with
       | QUERY_GET_CLIENT_LIST =>
           if py_eq variables client_list_variables
           then Some (client_page (map PDict two_clients)) else None
       | QUERY_GET_TICKETS =>
           if py_eq variables (ticket_list_variables (PInt 1) 1)
           then Some (ticket_page (map PDict (nth 0 acme_pages [])) true 4)
           else if py_eq variables (ticket_list_variables (PInt 1) 2)
           then Some (ticket_page (map PDict (nth 1 acme_pages [])) true 4)
           else if py_eq variables (ticket_list_variables (PInt 1) 3)
           then Some (ticket_page (map PDict (nth 2 acme_pages [])) false 4)
           else if py_eq variables (ticket_list_variables (PInt 2) 1)
           then Some (ticket_page [] false 0)
           else None
       | QUERY_GET_TICKET_CONVERSATIONS =>
           Some (PDict [("data", PDict [("getTicketConversationList",
                                         PList [PDict [("type", PStr "DESCRIPTION");
                                                       ("content", PStr "<p>help</p>");
                                                       ("time", PStr "2024-05-01T08:00:00")]])])])
       | QUERY_GET_TICKET_NOTES => None
       end;
     strip_html := fun content => Ok content |}.

(** ** Vocabulary of the further statements *)

(** Two keys are tied: neither is less than the other. *)
Definition same_key (t k : pyval) : bool :=
  match py_lt t k, py_lt k t with
  | Ok false, Ok false => true
  | _, _ => false
  end.

(** A timeline entry whose ['time'] is tied with [t]. *)
Definition same_time (t : pyval) (entry : pyval) : bool :=
  match item entry "time" with
  | Ok k => same_key t k
  | Raise _ => false
  end.

Definition key_kind_eq_dec (a b : key_kind) : {a = b} + {a <> b}.
Proof. decide equality. Defined.

(** Some note or conversation has, after defaulting, a timestamp of kind [k]. *)
Definition has_time_of_kind (k : key_kind) (notes conversations : list dict) : Prop :=
  (exists note, In note notes /\
                kind_of (get note "addedOn" (PStr "Unknown Time")) = Some k) \/
  (exists conv, In conv conversations /\
                kind_of (get conv "time" (PStr "Unknown Time")) = Some k).

(** The calls to the destination platform in a trace, of either kind. *)
Definition destination_calls (tr : trace) : list event :=
  filter (fun ev => match ev with
                    | CallCreateTicket _ | CallCreateComment _ _ => true
                    | _ => false
                    end) tr.

(** A program only adds events to the trace, and what it adds satisfies [Q]. *)
Definition appends {A : Type} (Q : list event -> Prop) (p : prog trace A) : Prop :=
  forall tr, exists new, fst (p tr) = tr ++ new /\ Q new.

(** Added events that hold no call to the destination, only comment calls,
    or at most one creation call followed by comment calls. *)
Definition no_calls (new : list event) : Prop := destination_calls new = [].

Definition is_comment_call (ev : event) : Prop :=
  exists comment ticket_id, ev = CallCreateComment comment ticket_id.

Definition only_comments (new : list event) : Prop :=
  Forall is_comment_call (destination_calls new).

Definition one_creation_then_comments (new : list event) : Prop :=
  destination_calls new = [] \/
  exists payload comments,
    destination_calls new = CallCreateTicket payload :: comments /\
    Forall is_comment_call comments.

(** A predicate on added events that holds of nothing and of two additions in
    a row. *)
Definition additive (Q : list event -> Prop) : Prop :=
  Q [] /\ forall a b, Q a -> Q b -> Q (a ++ b).

(** Added events that hold at most [n] creation calls. *)
Definition at_most_creations (n : nat) (new : list event) : Prop :=
  (List.length (creation_calls new) <= n)%nat.

(** The destination side of [client] can be read: the customer is found,
    and its tickets are listed and summarised. *)
Definition destination_listed (E : externals) (client : pyval) : bool :=
  match get_customer_id_by_name E client with
  | Ok syncro_customer_id =>
      truthy syncro_customer_id &&
      match get_all_tickets_for_customer E client with
      | Ok syncro_tickets =>
          match extract_ticket_subjects_and_dates E syncro_tickets with
          | Ok _ => true
          | Raise _ => false
          end
      | Raise _ => false
      end
  | Raise _ => false
  end.

(** The number of tickets of a batch. *)
Definition ticket_count (customers_tickets : list (pyval * list (pyval * dict))) : nat :=
  list_sum (map (fun c => List.length (snd c)) customers_tickets).

(** Externals of a destination where no customer is known. *)
Definition unknown_customer_externals : externals :=
  {| repr_container := sample_repr;
     get_customer_id_by_name := fun _ => Ok PNone;
     get_all_tickets_for_customer := fun _ => Ok (PList []);
     extract_ticket_subjects_and_dates := fun _ => Ok [];
     get_syncro_created_date := fun created_time => Ok created_time;
     syncro_prepare_ticket_json_superops :=
       fun client contact ticket_id subject converted_created_time status priority
           assigned_tech description timeline =>
         Ok (PDict [("subject", subject); ("created_at", converted_created_time)]);
     strptime := sample_strptime;
     syncro_create_ticket :=
       fun _ => Ok (PDict [("ticket", PDict [("id", PInt 500); ("number", PInt 1001)])]);
     build_syncro_comment := fun entry => Ok entry;
     syncro_create_comment := fun _ _ => Ok PNone |}.


(** The log line that shows that a ticket has been taken up: its processing
    line, or the error line of its own failure. *)
Definition ticket_taken_up (ticket : pyval * dict) (ev : event) : Prop :=
  ev = Log INFO (ProcessingTicket (get (snd ticket) "displayId" PNone)) \/
  exists e, ev = Log ERROR (TicketFailure (fst ticket) e).

(** The log line that shows that a customer has been taken up. *)
Definition customer_taken_up (customer : pyval * list (pyval * dict)) (ev : event) : Prop :=
  ev = Log INFO (FetchingSyncroTickets (fst customer)).

(** A batch of two customers; the tickets of the first cannot be processed. *)
Definition sample_batch : list (pyval * list (pyval * dict)) :=
  [ (PStr "Acme", [(PStr "t-1", [("subject", PNone)]); (PStr "t-77", acme_ticket)]);
    (PStr "Bolt", [(PStr "t-78", acme_ticket_march)]) ].


(** The log line of a ticket held back by the cutoff. *)
Definition is_too_old_line (ev : event) : bool :=
  match ev with
  | Log _ (TooOld _) => true
  | _ => false
  end.

Definition no_too_old_line (new : list event) : Prop :=
  existsb is_too_old_line new = false.

(** Added events that hold neither a call nor a too-old line. *)
Definition is_plain_line (ev : event) : bool :=
  match ev with
  | CallCreateTicket _ | CallCreateComment _ _ => false
  | _ => negb (is_too_old_line ev)
  end.

Definition plain_lines (new : list event) : Prop :=
  no_calls new /\ no_too_old_line new.

(** A program that, when it writes the too-old line of [ticket_id], has
    made no call before, writes nothing after it and raises
    [UnboundLocalError]. *)
Definition held_back_raises {A : Type} (ticket_id : pyval) (p : prog trace A) : Prop :=
  forall tr, exists new r,
    p tr = (tr ++ new, r) /\
    (no_too_old_line new \/
     exists before,
       new = before ++ [Log INFO (TooOld ticket_id)] /\
       plain_lines before /\
       r = Raise UnboundLocalError).


(** A destination subject that is a non-zero number or [True]: it passes the
    truth test, and [in] is not defined on it. *)
Definition number_subject (dst : dict) : Prop :=
  match get dst "subject" PNone with
  | PInt z => z <> 0%Z
  | PBool b => b = true
  | _ => False
  end.

(** A destination list whose first ticket has a number as subject, and the
    destination holding the scenario ticket as an earlier run created it. *)
Definition numbered_destination : list dict :=
  [("ticket_id", PInt 899); ("subject", PInt 4521)] :: sample_syncro_tickets.

Definition migrated_destination : list dict :=
  [ [("ticket_id", PInt 500); ("subject", PStr "Printer broken 77");
     ("created_at", PStr "2024-05-01T00:00:00+0000")] ].


(** A collected ticket: a dict with a truthy id that carries its
    conversations and its notes. *)
Definition complete_ticket (ticket : pyval) : Prop :=
  exists d, ticket = PDict d /\
            truthy (get d "ticketId" PNone) = true /\
            lookup "conversations" d <> None /\
            lookup "notes" d <> None.

(** The first [n] ticket pages of [account_id] are served and report more;
    the request for the page after them fails. *)
Definition fails_after (src : source) (account_id : pyval) (pages : list (list dict))
  : Prop :=
  (forall (i : nat) (page : list dict),
      nth_error pages i = Some page ->
      exists response,
        post src QUERY_GET_TICKETS (ticket_list_variables account_id (Z.of_nat i + 1))
        = Some response /\
        is_ticket_page response (map PDict page) true) /\
  post src QUERY_GET_TICKETS
       (ticket_list_variables account_id (Z.of_nat (List.length pages) + 1))
  = None.

(** A source that serves one page of tickets for every client, reports
    more, and fails on every later page. *)
Definition flaky_page : list dict :=
  [ [("ticketId", PStr "t-1"); ("displayId", PStr "1"); ("subject", PStr "A")] ].

Definition flaky_source : source :=
  {| post := fun q variables =>
       match q with
       | QUERY_GET_CLIENT_LIST => None
       | QUERY_GET_TICKETS =>
           if (requested variables "page" =? 1)%nat
           then Some (ticket_page (map PDict flaky_page) true 11) else None
       | QUERY_GET_TICKET_CONVERSATIONS =>
           Some (PDict [("data", PDict [("getTicketConversationList", PList [])])])
       | QUERY_GET_TICKET_NOTES =>
           Some (PDict [("data", PDict [("getTicketNoteList", PList [])])])
       end;
     strip_html := fun content => Ok content |}.


(** The wall-clock fields the cutoff test reads after year and month are in
    their ranges. *)
Definition fields_in_range (d : datetime) : Prop :=
  (1 <= day d /\ 0 <= hour d /\ 0 <= minute d /\ 0 <= second d /\ 0 <= microsecond d)%Z.

(** A date of a month before April 2024. *)
Definition before_april_2024 (d : datetime) : bool :=
  (year d <? 2024)%Z || ((year d =? 2024)%Z && (month d <? 4)%Z).

(** The log line of a successful ticket creation. *)
Definition is_created_line (ev : event) : bool :=
  match ev with
  | Log _ (TicketCreated _ _) => true
  | _ => false
  end.

(** Added events that hold neither a call nor a creation line; one such
    event. *)
Definition quiet_lines (new : list event) : Prop :=
  no_calls new /\ existsb is_created_line new = false.

Definition is_quiet_line (ev : event) : bool :=
  match ev with
  | CallCreateTicket _ | CallCreateComment _ _ => false
  | _ => negb (is_created_line ev)
  end.

(** Added events that hold neither a comment call nor a creation line. *)
Definition uncommented (new : list event) : Prop :=
  comment_calls new = [] /\ existsb is_created_line new = false.

(** A program that adds no comment call, and that, once it has written the
    creation line, writes the no-pause line and raises [AttributeError]. *)
Definition fails_once_created {A : Type} (p : prog trace A) : Prop :=
  forall tr, exists new r,
    p tr = (tr ++ new, r) /\
    (uncommented new \/
     exists before number id,
       new = before ++ [Log INFO (TicketCreated number id); Log INFO NoPause] /\
       uncommented before /\
       r = Raise AttributeError).


(** The source of the two clients, with both of them named Acme. *)
Definition same_name_clients : list dict :=
  [ [("accountId", PInt 1); ("name", PStr "Acme")];
    [("accountId", PInt 2); ("name", PStr "Acme")] ].

Definition same_name_source : source :=
  {| post := fun q variables =>
       match q with
       | QUERY_GET_CLIENT_LIST =>
           if py_eq variables client_list_variables
           then Some (client_page (map PDict same_name_clients)) else None
       | _ => post two_client_source q variables
       end;
     strip_html := strip_html two_client_source |}.


(** * Properties *)

(** ** Facts about the value model *)

Lemma ascii_compare_refl (c : ascii) : Ascii.compare c c = Eq.
Proof. unfold Ascii.compare. apply N.compare_refl. Qed.

Lemma string_compare_refl (s : string) : String.compare s s = Eq.
Proof.
  induction s as [|c s IH]; simpl; [reflexivity|].
  now rewrite ascii_compare_refl.
Qed.

Lemma ascii_compare_lt_trans (a b c : ascii) :
  Ascii.compare a b = Lt -> Ascii.compare b c = Lt -> Ascii.compare a c = Lt.
Proof.
  unfold Ascii.compare. rewrite !N.compare_lt_iff. apply N.lt_trans.
Qed.

Lemma string_compare_lt_trans (a b c : string) :
  String.compare a b = Lt -> String.compare b c = Lt -> String.compare a c = Lt.
Proof.
  revert b c.
  induction a as [|x a IH]; intros [|y b] [|z c]; simpl; try congruence.
  destruct (Ascii.compare x y) eqn:Hxy; try discriminate;
    destruct (Ascii.compare y z) eqn:Hyz; try discriminate; intros H1 H2.
  - apply Ascii.compare_eq_iff in Hxy, Hyz. subst.
    rewrite ascii_compare_refl. eauto.
  - apply Ascii.compare_eq_iff in Hxy. subst. now rewrite Hyz.
  - apply Ascii.compare_eq_iff in Hyz. subst. now rewrite Hxy.
  - now rewrite (ascii_compare_lt_trans _ _ _ Hxy Hyz).
Qed.

Lemma string_ltb_asym (a b : string) :
  String.ltb a b = true -> String.ltb b a = false.
Proof.
  unfold String.ltb. rewrite (String.compare_antisym b a).
  destruct (String.compare a b); simpl; congruence.
Qed.

(** [<=] on strings is transitive, in terms of the [<] the program sees. *)
Lemma string_not_ltb_trans (a b c : string) :
  String.ltb b a = false -> String.ltb c b = false -> String.ltb c a = false.
Proof.
  unfold String.ltb. intros Hba Hcb.
  destruct (String.compare c a) eqn:Hca; try reflexivity. exfalso.
  destruct (String.compare b a) eqn:Eba; try discriminate;
    destruct (String.compare c b) eqn:Ecb; try discriminate.
  - apply String.compare_eq_iff in Eba, Ecb. subst.
    rewrite string_compare_refl in Hca. discriminate.
  - apply String.compare_eq_iff in Eba. subst. congruence.
  - apply String.compare_eq_iff in Ecb. subst. congruence.
  - rewrite String.compare_antisym in Eba, Ecb.
    destruct (String.compare a b) eqn:Eab; try discriminate.
    destruct (String.compare b c) eqn:Ebc; try discriminate.
    pose proof (string_compare_lt_trans _ _ _ Eab Ebc) as Hac.
    rewrite String.compare_antisym, Hac in Hca. discriminate.
Qed.

Section KeyOrder.
Variable k : key_kind.
Variables a b c : pyval.
Hypothesis Ka : kind_of a = Some k.
Hypothesis Kb : kind_of b = Some k.

(** Two keys of one kind always compare. *)
Lemma py_lt_defined : exists r, py_lt a b = Ok r.
Proof.
  destruct a, b; simpl in *; try congruence; eauto.
Qed.

Lemma py_lt_asym : py_lt a b = Ok true -> py_lt b a = Ok false.
Proof.
  destruct a, b; simpl in *; try congruence; intros H; injection H as H; f_equal;
    try (apply Z.ltb_lt in H; apply Z.ltb_ge; lia).
  now apply string_ltb_asym.
Qed.

Lemma key_le_total : key_le a b \/ key_le b a.
Proof.
  unfold key_le. destruct py_lt_defined as [[|] H].
  - left. now apply py_lt_asym.
  - now right.
Qed.

Hypothesis Kc : kind_of c = Some k.

Lemma key_le_trans : key_le a b -> key_le b c -> key_le a c.
Proof.
  unfold key_le.
  destruct a, b, c; simpl in *; try congruence; intros H1 H2;
    injection H1 as H1; injection H2 as H2; f_equal;
    try (apply Z.ltb_ge in H1, H2; apply Z.ltb_ge; lia).
  eapply string_not_ltb_trans; eauto.
Qed.
End KeyOrder.

Lemma key_le_refl (k : key_kind) (a : pyval) : kind_of a = Some k -> key_le a a.
Proof.
  intros Ka. destruct (key_le_total k a a Ka Ka); assumption.
Qed.

(** [==] on scalars. *)
Lemma py_eq_refl_scalar (a : pyval) : is_scalar a = true -> py_eq a a = true.
Proof.
  destruct a; simpl; try congruence; intros _.
  - apply Bool.eqb_reflx.
  - apply Z.eqb_refl.
  - apply String.eqb_refl.
Qed.

Lemma py_eq_sym_scalar (a b : pyval) :
  is_scalar a = true -> py_eq a b = py_eq b a.
Proof.
  destruct a, b; simpl; try congruence; intros _.
  - destruct b0, b; reflexivity.
  - apply Z.eqb_sym.
  - apply Z.eqb_sym.
  - apply Z.eqb_sym.
  - apply String.eqb_sym.
Qed.

Lemma py_eq_trans_scalar (a b c : pyval) :
  is_scalar a = true -> py_eq a b = true -> py_eq b c = true -> py_eq a c = true.
Proof.
  destruct a, b, c; simpl; try congruence; intros _;
    rewrite ?Bool.eqb_true_iff, ?Z.eqb_eq, ?String.eqb_eq; try congruence;
    try (intros; subst; reflexivity).
  all: intros H1 H2;
    repeat match goal with x : bool |- _ => destruct x end; simpl in *; congruence.
Qed.

Lemma py_eq_PStr (s : string) (v : pyval) : py_eq (PStr s) v = true <-> v = PStr s.
Proof.
  destruct v; simpl; try (split; congruence).
  rewrite String.eqb_eq. split; congruence.
Qed.

(** ** The assigned technician is read off the latest tech reply *)

Lemma filter_tech_replies (convs : list dict) :
  filter_r is_tech_reply (map PDict convs) = Ok (map PDict (filter tech_reply convs)).
Proof.
  induction convs as [|c convs IH]; simpl; [reflexivity|].
  rewrite IH. simpl. fold (tech_reply c). now destruct (tech_reply c).
Qed.

Lemma filter_r_sound (l r : list pyval) :
  filter_r is_tech_reply l = Ok r ->
  forall x, In x r -> exists d, x = PDict d /\ In x l /\ tech_reply d = true.
Proof.
  revert r. induction l as [|y l IH]; simpl; intros r H x Hx.
  - injection H as <-. contradiction.
  - destruct (is_tech_reply y) as [keep|] eqn:Hy; simpl in H; [|discriminate].
    destruct (filter_r is_tech_reply l) as [r'|] eqn:Hr; simpl in H; [|discriminate].
    injection H as <-.
    assert (Hrec : In x r' -> exists d, x = PDict d /\ In x (y :: l) /\ tech_reply d = true).
    { intros Hin. destruct (IH r' eq_refl x Hin) as (d & -> & Hl & Ht). eauto 6 using in_cons. }
    destruct keep; [|auto].
    destruct Hx as [<-|Hx]; [|auto].
    destruct y; simpl in Hy; try discriminate.
    injection Hy as Hy. exists d. repeat split; auto using in_eq.
Qed.

(** The scan of [max]: it ends on an item of the list whose key none of the
    others exceeds. *)
Lemma max_scan_greatest (k : key_kind) (l : list dict) :
  forall (best : dict) (kbest : pyval),
    lookup "time" best = Some kbest ->
    kind_of kbest = Some k ->
    timestamps_of_kind k "time" l ->
    exists e ke,
      max_scan (fun x => item x "time") (map PDict l) (PDict best) kbest = Ok (PDict e) /\
      In e (best :: l) /\
      lookup "time" e = Some ke /\ kind_of ke = Some k /\
      key_le kbest ke /\
      forall x, In x l -> exists kx, lookup "time" x = Some kx /\ key_le kx ke.
Proof.
  induction l as [|x l IH]; intros best kbest Hb Kb Hl.
  - exists best, kbest. simpl. repeat split; auto.
    + now apply (key_le_refl k).
    + contradiction.
  - inversion Hl as [|? ? (kx & Hx & Kx) Hl']; subst.
    simpl. unfold subscript. rewrite Hx. simpl. unfold py_gt.
    destruct (py_lt_defined k kbest kx Kb Kx) as [[|] Hlt]; rewrite Hlt; simpl.
    + destruct (IH x kx Hx Kx Hl') as (e & ke & Hrun & Hin & He & Ke & Hle & Hall).
      exists e, ke.
      split; [exact Hrun|]. split; [simpl in *; tauto|].
      split; [exact He|]. split; [exact Ke|]. split.
      * apply (key_le_trans k kbest kx ke); auto.
        now apply (py_lt_asym k).
      * intros y [<-|Hy]; eauto.
    + destruct (IH best kbest Hb Kb Hl') as (e & ke & Hrun & Hin & He & Ke & Hle & Hall).
      exists e, ke.
      split; [exact Hrun|]. split; [simpl in *; tauto|].
      split; [exact He|]. split; [exact Ke|]. split; [exact Hle|].
      intros y [<-|Hy]; eauto.
      exists kx. split; auto. apply (key_le_trans k kx kbest ke); auto.
Qed.

(** C1.  Among the conversation entries, the tech reply with the greatest
    ['time'] supplies the technician (its ['user']) and the contacts (its
    ['toUsers']), provided the tech replies carry timestamps of one orderable
    kind; a list without any tech reply gives [(None, [])]. *)
Theorem get_assigned_tech_and_user_latest :
  (forall (k : key_kind) (convs : list dict),
      timestamps_of_kind k "time" (filter tech_reply convs) ->
      filter tech_reply convs <> [] ->
      exists e,
        In e (filter tech_reply convs) /\
        get_assigned_tech_and_user (PList (map PDict convs))
          = (get e "user" PNone, get e "toUsers" (PList [])) /\
        forall e', In e' (filter tech_reply convs) -> time_le (PDict e') (PDict e)) /\
  (forall conversations : list pyval,
      (forall d, In (PDict d) conversations -> tech_reply d = false) ->
      get_assigned_tech_and_user (PList conversations) = (PNone, PList [])).
Proof.
  split.
  - intros k convs Hk Hne.
    unfold get_assigned_tech_and_user, assigned_tech_and_user_body. simpl.
    rewrite filter_tech_replies. simpl.
    destruct (filter tech_reply convs) as [|b l] eqn:Hf; [congruence|].
    inversion Hk as [|? ? (kb & Hb & Kb) Hl]; subst.
    simpl. unfold subscript at 1. rewrite Hb. simpl.
    destruct (max_scan_greatest k l b kb Hb Kb Hl)
      as (e & ke & Hrun & Hin & He & Ke & Hle & Hall).
    rewrite Hrun. simpl. exists e. repeat split; auto.
    intros e' [<-|He'].
    + exists kb, ke. simpl. unfold subscript. rewrite Hb, He. auto.
    + destruct (Hall e' He') as (kx & Hx & Hxle).
      exists kx, ke. simpl. unfold subscript. rewrite Hx, He. auto.
  - intros conversations Hnone.
    unfold get_assigned_tech_and_user, assigned_tech_and_user_body. simpl.
    destruct (filter_r is_tech_reply conversations) as [r|] eqn:Hr; simpl; [|reflexivity].
    destruct r as [|x r]; [reflexivity|].
    destruct (filter_r_sound _ _ Hr x (or_introl eq_refl)) as (d & -> & Hin & Ht).
    rewrite (Hnone d Hin) in Ht. discriminate.
Qed.

Lemma get_assigned_tech_and_user_latest_witness :
  (exists e,
      In e (filter tech_reply test_conversations) /\
      get_assigned_tech_and_user (PList (map PDict test_conversations))
        = (get e "user" PNone, get e "toUsers" (PList [])) /\
      forall e', In e' (filter tech_reply test_conversations) ->
                 time_le (PDict e') (PDict e)) /\
  get_assigned_tech_and_user (PList [PDict [("type", PStr "NOTE")]; PInt 3])
    = (PNone, PList []).
Proof.
  split.
  - apply (proj1 get_assigned_tech_and_user_latest Numeric test_conversations).
    + repeat constructor; eexists; split; reflexivity.
    + discriminate.
  - apply (proj2 get_assigned_tech_and_user_latest).
    intros d [H|[H|[]]]; [injection H as <-; reflexivity | discriminate].
Defined.

(** On the input of the repository's test the reply of time 2 is selected,
    not the earliest one the test asks for. *)
Example get_assigned_tech_and_user_on_test_input :
  get_assigned_tech_and_user (PList (map PDict test_conversations))
  = (PDict [("name", PStr "Tech2")], PList [PDict [("user", PStr "User2")]]).
Proof. reflexivity. Qed.

(** ** The stable sort on keys of one kind *)

Section SortFacts.
Context {A : Type}.
Variable k : key_kind.

Let keyed_le (p q : pyval * A) : Prop := key_le (fst p) (fst q).
Let of_kind (l : list (pyval * A)) : Prop :=
  Forall (fun p => kind_of (fst p) = Some k) l.

Lemma insert_by_key_sorts (kx : pyval) (x : A) (l : list (pyval * A)) :
  kind_of kx = Some k -> of_kind l -> Sorted keyed_le l ->
  exists r,
    insert_by_key kx x l = Ok r /\
    Permutation ((kx, x) :: l) r /\ of_kind r /\ Sorted keyed_le r /\
    (forall p, HdRel keyed_le p l -> keyed_le p (kx, x) -> HdRel keyed_le p r).
Proof.
  intros Kx. induction l as [|[ky y] l IH]; intros Hk Hs.
  - exists [(kx, x)]. simpl. repeat split; auto.
    constructor; auto.
  - inversion Hk as [|? ? Ky Hk']; subst. simpl in Ky.
    inversion Hs as [|? ? Hs' Hhd]; subst.
    simpl. destruct (py_lt_defined k kx ky Kx Ky) as [[|] Hlt]; rewrite Hlt; simpl.
    + exists ((kx, x) :: (ky, y) :: l).
      split; [reflexivity|]. split; [reflexivity|].
      split; [constructor; auto|]. split.
      * constructor; auto. constructor. now apply (py_lt_asym k).
      * intros p _ Hp. now constructor.
    + destruct (IH Hk' Hs') as (r & Hr & Hperm & Hkr & Hsr & Hhdr).
      rewrite Hr. simpl. exists ((ky, y) :: r).
      split; [reflexivity|]. split.
      * rewrite perm_swap. now constructor.
      * split; [constructor; auto|]. split.
        -- constructor; auto.
        -- intros p Hp _. inversion Hp; subst. now constructor.
Qed.

Lemma sort_keyed_sorts (todo : list (pyval * A)) :
  forall done,
    of_kind todo -> of_kind done -> Sorted keyed_le done ->
    exists r,
      sort_keyed todo done = Ok r /\
      Permutation (done ++ todo) r /\ of_kind r /\ Sorted keyed_le r.
Proof.
  induction todo as [|[kx x] todo IH]; intros done Ht Hd Hs.
  - exists done. simpl. rewrite app_nil_r. auto.
  - inversion Ht as [|? ? Kx Ht']; subst. simpl in Kx.
    destruct (insert_by_key_sorts kx x done Kx Hd Hs) as (r & Hr & Hp & Hkr & Hsr & _).
    simpl. rewrite Hr. simpl.
    destruct (IH r Ht' Hkr Hsr) as (r' & Hr' & Hp' & Hkr' & Hsr').
    exists r'. repeat split; auto.
    rewrite <- Hp', <- Hp. symmetry. apply Permutation_middle.
Qed.

Variable key : A -> result pyval.

Lemma keyed_total (l : list A) :
  Forall (fun x => exists t, key x = Ok t /\ kind_of t = Some k) l ->
  exists kl,
    keyed key l = Ok kl /\ map snd kl = l /\ of_kind kl /\
    Forall (fun p => key (snd p) = Ok (fst p)) kl.
Proof.
  induction 1 as [|x l (t & Hx & Kt) _ (kl & Hkl & Hsnd & Hk & Hkey)].
  - exists []. simpl. repeat split; constructor.
  - exists ((t, x) :: kl). simpl. rewrite Hx, Hkl. simpl.
    repeat split; try constructor; auto. now rewrite Hsnd.
Qed.

(** [sort_by] returns, and returns its input reordered by key. *)
Lemma sort_by_sorts (l : list A) :
  Forall (fun x => exists t, key x = Ok t /\ kind_of t = Some k) l ->
  exists r,
    sort_by key l = Ok r /\ Permutation l r /\
    Sorted (fun a b => exists ta tb, key a = Ok ta /\ key b = Ok tb /\ key_le ta tb) r.
Proof.
  intros Hl. destruct (keyed_total l Hl) as (kl & Hkl & Hsnd & Hk & Hkey).
  destruct (sort_keyed_sorts kl [] Hk (Forall_nil _) (Sorted_nil _))
    as (r & Hr & Hp & Hkr & Hsr).
  unfold sort_by. rewrite Hkl. simpl. rewrite Hr. simpl.
  exists (map snd r). split; [reflexivity|]. split.
  - rewrite <- Hsnd. now apply Permutation_map.
  - assert (Hkeyr : Forall (fun p => key (snd p) = Ok (fst p)) r).
    { rewrite Forall_forall in *. intros p Hp'. apply Hkey.
      eapply Permutation_in; [symmetry; exact Hp | exact Hp']. }
    clear - Hsr Hkeyr. induction Hsr as [|p r Hs IH Hhd]; simpl; constructor.
    + apply IH. now inversion Hkeyr.
    + inversion Hkeyr as [|? ? Hp Hr]; subst.
      destruct Hhd as [|q r Hpq]; simpl; constructor.
      inversion Hr; subst. exists (fst p), (fst q). auto.
Qed.
End SortFacts.

(** ** The merged timeline *)

Lemma note_entry_fields (note : dict) :
  author_readable note -> note_entry (PDict note) = Ok (note_fields note).
Proof.
  unfold author_readable, note_entry, note_fields. simpl.
  destruct (get note "addedBy" (PDict [])); simpl; try discriminate. reflexivity.
Qed.

Lemma conversation_entry_fields (conv : dict) :
  conversation_entry (PDict conv) = Ok (conversation_fields conv).
Proof.
  unfold conversation_entry, conversation_fields. simpl.
  destruct (get conv "user" PNone); reflexivity.
Qed.

Lemma map_r_notes (notes : list dict) :
  Forall author_readable notes ->
  map_r note_entry (map PDict notes) = Ok (map note_fields notes).
Proof.
  induction 1 as [|n notes Hn _ IH]; simpl; [reflexivity|].
  rewrite (note_entry_fields n Hn). simpl. now rewrite IH.
Qed.

Lemma map_r_conversations (convs : list dict) :
  map_r conversation_entry (map PDict convs) = Ok (map conversation_fields convs).
Proof.
  induction convs as [|c convs IH]; simpl; [reflexivity|].
  rewrite conversation_entry_fields. simpl. now rewrite IH.
Qed.

Lemma merged_keys_of_kind (k : key_kind) (notes convs : list dict) :
  timeline_keys_of_kind k notes convs ->
  Forall (fun x => exists t, item x "time" = Ok t /\ kind_of t = Some k)
         (map note_fields notes ++ map conversation_fields convs).
Proof.
  intros [Hn Hc]. apply Forall_app. split; apply Forall_map.
  - eapply Forall_impl; [|exact Hn]. intros n Kn. eexists. split; [reflexivity|exact Kn].
  - eapply Forall_impl; [|exact Hc]. intros c Kc. eexists. split; [reflexivity|exact Kc].
Qed.

(** What [combine_notes_and_conversations] returns on entries that are dicts
    with readable authors and timestamps of one kind. *)
Lemma combine_returns (k : key_kind) (notes convs : list dict) :
  Forall author_readable notes ->
  timeline_keys_of_kind k notes convs ->
  exists merged,
    sort_by (fun x => item x "time")
            (map note_fields notes ++ map conversation_fields convs) = Ok merged /\
    Permutation (map note_fields notes ++ map conversation_fields convs) merged /\
    Sorted time_le merged /\
    combine_notes_and_conversations (map PDict notes) (map PDict convs)
      = Ok (match merged with _ :: _ => merged | [] => [no_history] end).
Proof.
  intros Ha Hk.
  destruct (sort_by_sorts k (fun x => item x "time") _ (merged_keys_of_kind k _ _ Hk))
    as (merged & Hsort & Hperm & Hsorted).
  exists merged. repeat split; auto.
  unfold combine_notes_and_conversations.
  rewrite (map_r_notes notes Ha). simpl.
  rewrite map_r_conversations. simpl.
  rewrite Hsort. reflexivity.
Qed.

(** C2.  The merged timeline is non-decreasing in ['time']; two empty
    inputs give the one-element list holding the sentinel string, and no
    input gives an empty list. *)
Theorem combine_notes_and_conversations_sorted :
  (forall (k : key_kind) (notes convs : list dict),
      Forall author_readable notes ->
      timeline_keys_of_kind k notes convs ->
      exists timeline,
        combine_notes_and_conversations (map PDict notes) (map PDict convs) = Ok timeline /\
        Sorted time_le timeline) /\
  combine_notes_and_conversations [] [] = Ok [no_history] /\
  (forall (notes conversations timeline : list pyval),
      combine_notes_and_conversations notes conversations = Ok timeline ->
      timeline <> []).
Proof.
  split; [|split].
  - intros k notes convs Ha Hk.
    destruct (combine_returns k notes convs Ha Hk) as (merged & _ & _ & Hs & Hrun).
    rewrite Hrun. eexists. split; [reflexivity|].
    destruct merged; [repeat constructor | exact Hs].
  - reflexivity.
  - intros notes conversations timeline. unfold combine_notes_and_conversations.
    destruct (map_r note_entry notes); simpl; [|discriminate].
    destruct (map_r conversation_entry conversations); simpl; [|discriminate].
    destruct (sort_by _ _) as [[|x merged]|]; simpl; intros H;
      try discriminate; injection H as <-; discriminate.
Qed.

(** C10.  With at least one entry the timeline is a rearrangement of one
    entry per note (of type NOTE) followed by one per conversation (carrying
    its type tag): nothing is dropped and nothing repeated. *)
Theorem combine_notes_and_conversations_permutation :
  forall (k : key_kind) (notes convs : list dict),
    Forall author_readable notes ->
    timeline_keys_of_kind k notes convs ->
    notes <> [] \/ convs <> [] ->
    exists timeline,
      combine_notes_and_conversations (map PDict notes) (map PDict convs) = Ok timeline /\
      Permutation (map note_fields notes ++ map conversation_fields convs) timeline /\
      List.length timeline = (List.length notes + List.length convs)%nat /\
      Forall (fun e => item e "type" = Ok (PStr "NOTE")) (map note_fields notes) /\
      Forall2 (fun conv e => item e "type" = Ok (get conv "type" (PStr "Unknown")))
              convs (map conversation_fields convs).
Proof.
  intros k notes convs Ha Hk Hne.
  destruct (combine_returns k notes convs Ha Hk) as (merged & _ & Hperm & _ & Hrun).
  assert (Hlen : List.length merged = (List.length notes + List.length convs)%nat).
  { rewrite <- (Permutation_length Hperm), length_app, !length_map. reflexivity. }
  exists merged. split; [|split; [exact Hperm|split; [exact Hlen|split]]].
  - rewrite Hrun. destruct merged; [|reflexivity]. exfalso.
    simpl in Hlen. destruct notes, convs; simpl in Hlen; try discriminate.
    destruct Hne; congruence.
  - apply Forall_map. apply Forall_forall. reflexivity.
  - clear. induction convs; simpl; constructor; auto.
Qed.

(** C9.  A conversation whose ['user'] is absent or not a dict is turned into
    an entry whose author is ["Unknown"], without an exception, and that entry
    is part of the timeline the merger returns. *)
Theorem malformed_author_is_unknown :
  (forall conv : dict,
      is_dict (get conv "user" PNone) = false ->
      conversation_entry (PDict conv)
      = Ok (PDict [("type", get conv "type" (PStr "Unknown"));
                   ("content", get conv "content" (PStr "No Content"));
                   ("user", PStr "Unknown");
                   ("time", get conv "time" (PStr "Unknown Time"))])) /\
  (forall (k : key_kind) (notes convs : list dict) (conv : dict),
      Forall author_readable notes ->
      timeline_keys_of_kind k notes convs ->
      In conv convs ->
      is_dict (get conv "user" PNone) = false ->
      exists timeline,
        combine_notes_and_conversations (map PDict notes) (map PDict convs) = Ok timeline /\
        In (PDict [("type", get conv "type" (PStr "Unknown"));
                   ("content", get conv "content" (PStr "No Content"));
                   ("user", PStr "Unknown");
                   ("time", get conv "time" (PStr "Unknown Time"))]) timeline).
Proof.
  assert (Hfields : forall conv : dict,
             is_dict (get conv "user" PNone) = false ->
             conversation_fields conv
             = PDict [("type", get conv "type" (PStr "Unknown"));
                      ("content", get conv "content" (PStr "No Content"));
                      ("user", PStr "Unknown");
                      ("time", get conv "time" (PStr "Unknown Time"))]).
  { intros conv Hu. unfold conversation_fields.
    destruct (get conv "user" PNone); simpl in Hu; try discriminate; reflexivity. }
  split.
  - intros conv Hu. rewrite conversation_entry_fields. now rewrite Hfields.
  - intros k notes convs conv Ha Hk Hin Hu.
    destruct (combine_returns k notes convs Ha Hk) as (merged & _ & Hperm & _ & Hrun).
    assert (Hm : In (conversation_fields conv) merged).
    { eapply Permutation_in; [exact Hperm|].
      apply in_or_app. right. now apply in_map. }
    rewrite Hrun. exists merged. destruct merged; [contradiction|].
    split; [reflexivity|]. now rewrite <- Hfields.
Qed.

(** ** The reconciler: recording matches without repetition *)

Lemma prefix_iff (a b : string) :
  String.prefix a b = true <-> exists rest, b = (a ++ rest)%string.
Proof.
  revert b. induction a as [|x a IH]; intros b.
  - destruct b; simpl; split; eauto.
  - destruct b as [|y b]; simpl.
    + split; [discriminate | intros [rest H]; discriminate].
    + destruct (ascii_dec x y) as [->|Hne].
      * rewrite IH. split; intros [rest H]; exists rest; congruence.
      * split; [discriminate | intros [rest H]; congruence].
Qed.

Lemma str_contains_iff (needle hay : string) :
  str_contains needle hay = true <-> occurs_in needle hay.
Proof.
  unfold occurs_in. induction hay as [|c hay IH]; cbn [str_contains].
  - rewrite orb_false_r, prefix_iff. split.
    + intros [rest H]. exists "", rest. exact H.
    + intros ([|? ?] & after & H); simpl in H; [eauto | discriminate].
  - rewrite orb_true_iff, prefix_iff, IH. split.
    + intros [[rest H]|(before & after & H)].
      * exists "", rest. exact H.
      * exists (String c before), after. simpl. now rewrite H.
    + intros ([|c' before] & after & H); simpl in H.
      * left. eauto.
      * right. injection H as _ H. eauto.
Qed.

Lemma append_if_new_run (x : pyval) (m : list pyval) :
  append_if_new x m = (add_new x m, Ok tt).
Proof. reflexivity. Qed.

Lemma list_contains_app (t : pyval) (m1 m2 : list pyval) :
  list_contains t (m1 ++ m2) = list_contains t m1 || list_contains t m2.
Proof. apply existsb_app. Qed.

Lemma list_contains_iff (t : pyval) (m : list pyval) :
  list_contains t m = true <-> exists y, In y m /\ py_eq t y = true.
Proof. apply existsb_exists. Qed.

Lemma list_contains_add_new (t x : pyval) (m : list pyval) :
  is_scalar t = true ->
  list_contains t (add_new x m) = true <->
  list_contains t m = true \/ py_eq t x = true.
Proof.
  intros Ht. unfold add_new.
  destruct (list_contains x m) eqn:Hx.
  - split; [auto|]. intros [H|H]; [exact H|].
    apply list_contains_iff in Hx. destruct Hx as (y & Hy & Hxy).
    apply list_contains_iff. exists y. split; [exact Hy|].
    eapply py_eq_trans_scalar; eauto.
  - rewrite list_contains_app, orb_true_iff. simpl. now rewrite orb_false_r.
Qed.

Lemma add_new_idem (x : pyval) (m : list pyval) :
  is_scalar x = true -> add_new x (add_new x m) = add_new x m.
Proof.
  intros Hx. unfold add_new at 1.
  replace (list_contains x (add_new x m)) with true; [reflexivity|].
  symmetry. apply list_contains_add_new; auto.
  right. now apply py_eq_refl_scalar.
Qed.

Lemma ForallOrdPairs_snoc {A : Type} (R : A -> A -> Prop) (l : list A) (x : A) :
  ForallOrdPairs R l -> (forall y, In y l -> R y x) -> ForallOrdPairs R (l ++ [x]).
Proof.
  induction 1 as [|a l Ha Hl IH]; intros Hx; simpl.
  - repeat constructor.
  - constructor.
    + apply Forall_app. split; [exact Ha|]. constructor; [|constructor].
      apply Hx. now left.
    + apply IH. intros y Hy. apply Hx. now right.
Qed.

Lemma add_new_no_duplicates (x : pyval) (m : list pyval) :
  is_scalar x = true -> no_duplicates m -> no_duplicates (add_new x m).
Proof.
  intros Hx Hm. unfold add_new. destruct (list_contains x m) eqn:Hc; [exact Hm|].
  apply ForallOrdPairs_snoc; [exact Hm|].
  intros y Hy. rewrite <- (py_eq_sym_scalar x y Hx).
  destruct (py_eq x y) eqn:Hxy; [|reflexivity].
  assert (list_contains x m = true) by (apply list_contains_iff; eauto).
  congruence.
Qed.

Lemma record_hits_contains (t : pyval) (cands : list (pyval * bool)) :
  is_scalar t = true ->
  forall m,
    list_contains t (record_hits cands m) = true <->
    list_contains t m = true \/ exists x, In (x, true) cands /\ py_eq t x = true.
Proof.
  intros Ht. induction cands as [|[x h] cands IH]; intros m; simpl.
  - split; [auto | intros [H|(x & [] & _)]; exact H].
  - fold (record_hits cands (if h then add_new x m else m)). rewrite IH.
    destruct h.
    + rewrite (list_contains_add_new t x m Ht). split.
      * intros [[H|H]|(y & Hy & Hty)]; eauto 6.
      * intros [H|(y & [Hy|Hy] & Hty)]; eauto 6.
        injection Hy as ->. auto.
    + split.
      * intros [H|(y & Hy & Hty)]; eauto 6.
      * intros [H|(y & [Hy|Hy] & Hty)]; eauto 6. discriminate.
Qed.

Lemma record_hits_no_duplicates (cands : list (pyval * bool)) :
  Forall (fun c => is_scalar (fst c) = true) cands ->
  forall m, no_duplicates m -> no_duplicates (record_hits cands m).
Proof.
  induction 1 as [|[x h] cands Hx _ IH]; intros m Hm; simpl; [exact Hm|].
  apply IH. destruct h; [|exact Hm]. now apply add_new_no_duplicates.
Qed.

Lemma try_except_pass {S : Type} (p : prog S unit) (s : S) :
  try_except p (fun _ => ret tt) s = (fst (p s), Ok tt).
Proof.
  unfold try_except, ret. destruct (p s) as [s' [[]|e]]; reflexivity.
Qed.

(** *** Strategy A *)

Lemma scan_subject_and_date (ticket_id : pyval) (ticket_info : dict)
  (syncro_tickets : list dict) :
  is_scalar ticket_id = true ->
  forall m,
    fst (for_each syncro_tickets (fun syncro_ticket =>
           let syncro_subject := get syncro_ticket "subject" PNone in
           let syncro_created_at := get syncro_ticket "created_at" PNone in
           if negb (truthy syncro_subject) || negb (truthy syncro_created_at) then ret tt
           else if py_eq (get ticket_info "subject" PNone) syncro_subject &&
                   py_eq (get ticket_info "created_time" PNone) syncro_created_at then
             append_if_new ticket_id ;;;
             _ <-- lift (subscript syncro_ticket "ticket_id") ;;
             ret tt
           else ret tt) m)
    = if existsb (pair_matches_A ticket_info) syncro_tickets
      then add_new ticket_id m else m.
Proof.
  intros Hid. induction syncro_tickets as [|dst D IH]; intros m; [reflexivity|].
  cbn [for_each existsb]. unfold pbind at 1. unfold pair_matches_A at 1.
  destruct (truthy (get dst "subject" PNone)); cbn [negb orb andb];
    [|cbn [ret]; apply IH].
  destruct (truthy (get dst "created_at" PNone)); cbn [negb orb andb];
    [|cbn [ret]; apply IH].
  destruct (py_eq (get ticket_info "subject" PNone) (get dst "subject" PNone) &&
            py_eq (get ticket_info "created_time" PNone) (get dst "created_at" PNone));
    [|cbn [ret]; apply IH].
  unfold pbind, lift, ret. rewrite append_if_new_run. cbn [orb].
  destruct (subscript dst "ticket_id"); [|reflexivity].
  rewrite IH, add_new_idem by assumption.
  now destruct (existsb _ D).
Qed.

Lemma match_by_subject_and_date_run (syncro_tickets : list dict)
  (ticket_id : pyval) (ticket_info : dict) (m : list pyval) :
  is_scalar ticket_id = true ->
  fst (match_by_subject_and_date syncro_tickets ticket_id ticket_info m)
  = if source_matches_A syncro_tickets ticket_info then add_new ticket_id m else m.
Proof.
  intros Hid. unfold match_by_subject_and_date, source_matches_A.
  destruct (truthy (get ticket_info "subject" PNone)); cbn [negb orb andb];
    [|reflexivity].
  destruct (truthy (get ticket_info "created_time" PNone)); cbn [negb orb andb];
    [|reflexivity].
  now apply scan_subject_and_date.
Qed.

Lemma compare_tickets_by_subject_and_date_run
  (superops_tickets : list (pyval * dict)) (syncro_tickets : list dict) :
  Forall (fun c => is_scalar (fst c) = true) superops_tickets ->
  compare_tickets_by_subject_and_date superops_tickets syncro_tickets
  = record_hits (map (fun c => (fst c, source_matches_A syncro_tickets (snd c)))
                     superops_tickets) [].
Proof.
  intros Hs. unfold compare_tickets_by_subject_and_date.
  rewrite try_except_pass. cbn [fst].
  generalize (@nil pyval) as m.
  induction Hs as [|[tid info] S Hid _ IH]; intros m; [reflexivity|].
  cbn [for_each map]. unfold pbind at 1. rewrite try_except_pass.
  rewrite match_by_subject_and_date_run by exact Hid.
  rewrite IH. reflexivity.
Qed.

Lemma pair_matches_A_iff (ticket_info dst : dict) :
  pair_matches_A ticket_info dst = true <-> same_subject_and_date ticket_info dst.
Proof.
  unfold pair_matches_A, same_subject_and_date.
  rewrite !andb_true_iff. tauto.
Qed.

(** C8.  Strategy A records a source ticket exactly when some destination
    ticket has an equal subject and an equal creation time, both compared as
    given; for text that is string equality.  No id is recorded twice. *)
Theorem compare_tickets_by_subject_and_date_matches :
  forall (superops_tickets : list (pyval * dict)) (syncro_tickets : list dict),
    Forall (fun c => is_scalar (fst c) = true) superops_tickets ->
    (forall t, is_scalar t = true ->
       (list_contains t (compare_tickets_by_subject_and_date superops_tickets syncro_tickets)
        = true <->
        exists ticket_id ticket_info dst,
          In (ticket_id, ticket_info) superops_tickets /\ In dst syncro_tickets /\
          py_eq t ticket_id = true /\
          truthy (get ticket_info "subject" PNone) = true /\
          truthy (get ticket_info "created_time" PNone) = true /\
          same_subject_and_date ticket_info dst)) /\
    no_duplicates (compare_tickets_by_subject_and_date superops_tickets syncro_tickets) /\
    (forall (ticket_info dst : dict) (subject created : string),
       get ticket_info "subject" PNone = PStr subject -> subject <> "" ->
       get ticket_info "created_time" PNone = PStr created -> created <> "" ->
       (same_subject_and_date ticket_info dst <->
        get dst "subject" PNone = PStr subject /\
        get dst "created_at" PNone = PStr created)).
Proof.
  intros S D Hs. rewrite (compare_tickets_by_subject_and_date_run S D Hs).
  split; [|split].
  - intros t Ht. rewrite (record_hits_contains t _ Ht). cbn [list_contains existsb].
    split.
    + intros [H|(x & Hin & Htx)]; [discriminate|].
      apply in_map_iff in Hin. destruct Hin as ([tid info] & Heq & Hin).
      cbn [fst snd] in Heq. injection Heq as -> Hm.
      unfold source_matches_A in Hm. rewrite !andb_true_iff in Hm.
      destruct Hm as [[Hsub Hct] Hex].
      apply existsb_exists in Hex. destruct Hex as (dst & Hdst & Hpair).
      exists x, info, dst. rewrite <- pair_matches_A_iff. auto 8.
    + intros (tid & info & dst & Hin & Hdst & Ht' & Hsub & Hct & Hpair).
      right. exists tid. split; [|exact Ht'].
      apply in_map_iff. exists (tid, info). split; [|exact Hin]. cbn [fst snd].
      f_equal. unfold source_matches_A. rewrite Hsub, Hct. cbn [andb].
      apply existsb_exists. exists dst. now rewrite pair_matches_A_iff.
  - apply record_hits_no_duplicates; [|constructor].
    apply Forall_map. eapply Forall_impl; [|exact Hs]. auto.
  - intros info dst subject created Hsub Hne Hct Hne'.
    unfold same_subject_and_date. rewrite Hsub, Hct, !py_eq_PStr. split.
    + tauto.
    + intros [H1 H2]. rewrite H1, H2. simpl.
      repeat split; apply negb_true_iff, String.eqb_neq; assumption.
Qed.

(** *** Strategy B *)

Lemma pair_matches_B_iff (needle : string) (dst : dict) :
  pair_matches_B needle dst = true <-> subject_mentions needle dst.
Proof.
  unfold pair_matches_B, subject_mentions.
  destruct (get dst "subject" PNone) as [| | |s| |];
    try (split; [discriminate | intros (s' & H & _); discriminate]).
  rewrite andb_true_iff, negb_true_iff, String.eqb_neq, str_contains_iff. split.
  - intros [Hne Hocc]. eauto.
  - intros (s' & Heq & Hne & Hocc). injection Heq as <-. auto.
Qed.

Lemma scan_subject (needle : string) (displayId : pyval) (syncro_tickets : list dict) :
  is_scalar displayId = true ->
  Forall subject_is_text syncro_tickets ->
  forall m,
    for_each syncro_tickets (fun syncro_ticket =>
      let syncro_subject := get syncro_ticket "subject" PNone in
      if negb (truthy syncro_subject) then ret tt
      else
        found <-- lift (contains needle syncro_subject) ;;
        if found then append_if_new displayId else ret tt) m
    = (if existsb (pair_matches_B needle) syncro_tickets
       then add_new displayId m else m, Ok tt).
Proof.
  intros Hid. induction 1 as [|dst D Hdst _ IH]; intros m; [reflexivity|].
  cbn [for_each existsb]. unfold pbind at 1.
  unfold subject_is_text in Hdst. unfold pair_matches_B at 1.
  destruct (get dst "subject" PNone) as [| | |s| |]; try contradiction;
    cbn [truthy negb orb]; [cbn [ret]; apply IH|].
  destruct (String.eqb s ""); cbn [negb andb orb]; [cbn [ret]; apply IH|].
  unfold pbind, lift. cbn [contains].
  destruct (str_contains needle s); cbn [orb].
  - rewrite append_if_new_run, IH, add_new_idem by assumption.
    now destruct (existsb _ D).
  - cbn [ret]. apply IH.
Qed.

Lemma compare_tickets_by_subject_run (repr : pyval -> string)
  (superops_tickets : list (pyval * dict)) (syncro_tickets : list dict) :
  Forall (fun c => is_scalar (get (snd c) "displayId" PNone) = true) superops_tickets ->
  Forall subject_is_text syncro_tickets ->
  compare_tickets_by_subject repr superops_tickets syncro_tickets
  = record_hits (map (fun c => (get (snd c) "displayId" PNone,
                                source_matches_B repr syncro_tickets (snd c)))
                     superops_tickets) [].
Proof.
  intros Hs Hd. unfold compare_tickets_by_subject.
  rewrite try_except_pass. cbn [fst].
  generalize (@nil pyval) as m.
  induction Hs as [|[tid info] S Hid _ IH]; intros m; [reflexivity|].
  cbn [for_each map snd]. cbn [snd] in Hid. unfold pbind at 1. rewrite try_except_pass.
  replace (fst (match_by_subject repr syncro_tickets info m))
    with (if source_matches_B repr syncro_tickets info
          then add_new (get info "displayId" PNone) m else m).
  - rewrite IH. reflexivity.
  - unfold match_by_subject, source_matches_B.
    destruct (truthy (get info "subject" PNone)); cbn [negb andb]; [|reflexivity].
    destruct (truthy (get info "displayId" PNone)); cbn [negb andb]; [|reflexivity].
    now rewrite scan_subject.
Qed.

(** C3.  Strategy B records the display id of a source ticket exactly when
    the string form of that id occurs somewhere in the subject of some
    destination ticket (so ["45"] is found in a subject containing ["4521"]),
    and records no id twice. *)
Theorem compare_tickets_by_subject_matches :
  forall (repr : pyval -> string)
         (superops_tickets : list (pyval * dict)) (syncro_tickets : list dict),
    Forall (fun c => is_scalar (get (snd c) "displayId" PNone) = true) superops_tickets ->
    Forall subject_is_text syncro_tickets ->
    (forall t, is_scalar t = true ->
       (list_contains t (compare_tickets_by_subject repr superops_tickets syncro_tickets)
        = true <->
        exists ticket_id ticket_info dst,
          In (ticket_id, ticket_info) superops_tickets /\ In dst syncro_tickets /\
          truthy (get ticket_info "subject" PNone) = true /\
          truthy (get ticket_info "displayId" PNone) = true /\
          py_eq t (get ticket_info "displayId" PNone) = true /\
          subject_mentions (py_str repr (get ticket_info "displayId" PNone)) dst)) /\
    no_duplicates (compare_tickets_by_subject repr superops_tickets syncro_tickets).
Proof.
  intros repr S D Hs Hd. rewrite (compare_tickets_by_subject_run repr S D Hs Hd).
  split.
  - intros t Ht. rewrite (record_hits_contains t _ Ht). cbn [list_contains existsb].
    split.
    + intros [H|(x & Hin & Htx)]; [discriminate|].
      apply in_map_iff in Hin. destruct Hin as ([tid info] & Heq & Hin).
      cbn [fst snd] in Heq. injection Heq as <- Hm.
      unfold source_matches_B in Hm. rewrite !andb_true_iff in Hm.
      destruct Hm as [[Hsub Hid] Hex].
      apply existsb_exists in Hex. destruct Hex as (dst & Hdst & Hpair).
      exists tid, info, dst. rewrite <- pair_matches_B_iff. auto 8.
    + intros (tid & info & dst & Hin & Hdst & Hsub & Hid & Ht' & Hpair).
      right. exists (get info "displayId" PNone). split; [|exact Ht'].
      apply in_map_iff. exists (tid, info). split; [|exact Hin]. cbn [fst snd].
      f_equal. unfold source_matches_B. rewrite Hsub, Hid. cbn [andb].
      apply existsb_exists. exists dst. now rewrite pair_matches_B_iff.
  - apply record_hits_no_duplicates; [|constructor].
    apply Forall_map. eapply Forall_impl; [|exact Hs]. auto.
Qed.

(** ** The statements at the sample data *)

Lemma combine_notes_and_conversations_sorted_witness :
  (exists timeline,
      combine_notes_and_conversations (map PDict sample_notes)
                                      (map PDict sample_conversations) = Ok timeline /\
      Sorted time_le timeline) /\
  [no_history] <> [].
Proof.
  split.
  - apply (proj1 combine_notes_and_conversations_sorted Text).
    + repeat constructor.
    + split; repeat constructor.
  - apply (proj2 (proj2 combine_notes_and_conversations_sorted) [] [] [no_history]).
    reflexivity.
Defined.

Lemma combine_notes_and_conversations_permutation_witness :
  exists timeline,
    combine_notes_and_conversations (map PDict sample_notes)
                                    (map PDict sample_conversations) = Ok timeline /\
    Permutation (map note_fields sample_notes ++
                 map conversation_fields sample_conversations) timeline /\
    List.length timeline = 3%nat /\
    Forall (fun e => item e "type" = Ok (PStr "NOTE")) (map note_fields sample_notes) /\
    Forall2 (fun conv e => item e "type" = Ok (get conv "type" (PStr "Unknown")))
            sample_conversations (map conversation_fields sample_conversations).
Proof.
  apply (combine_notes_and_conversations_permutation Text sample_notes sample_conversations).
  - repeat constructor.
  - split; repeat constructor.
  - left. discriminate.
Defined.

Lemma malformed_author_is_unknown_witness :
  conversation_entry (PDict [("type", PStr "TECH_REPLY"); ("time", PInt 5)])
  = Ok (PDict [("type", PStr "TECH_REPLY"); ("content", PStr "No Content");
               ("user", PStr "Unknown"); ("time", PInt 5)]) /\
  exists timeline,
    combine_notes_and_conversations (map PDict sample_notes)
                                    (map PDict sample_conversations) = Ok timeline /\
    In (PDict [("type", PStr "TECH_REPLY"); ("content", PStr "On it");
               ("user", PStr "Unknown"); ("time", PStr "2024-05-03T10:00:00")])
       timeline.
Proof.
  split.
  - apply (proj1 malformed_author_is_unknown
             [("type", PStr "TECH_REPLY"); ("time", PInt 5)]).
    reflexivity.
  - apply (proj2 malformed_author_is_unknown Text sample_notes sample_conversations
             [("type", PStr "TECH_REPLY"); ("content", PStr "On it");
              ("time", PStr "2024-05-03T10:00:00"); ("user", PStr "bob")]).
    + repeat constructor.
    + split; repeat constructor.
    + now left.
    + reflexivity.
Defined.

(** The sample timeline, oldest entry first. *)
Example combine_sample :
  combine_notes_and_conversations (map PDict sample_notes) (map PDict sample_conversations)
  = Ok [PDict [("type", PStr "DESCRIPTION"); ("content", PStr "Printer broken");
               ("user", PStr "Carl"); ("time", PStr "2024-05-01T08:00:00")];
        PDict [("type", PStr "NOTE"); ("content", PStr "Called the customer");
               ("user", PStr "Ann"); ("time", PStr "2024-05-02T09:00:00")];
        PDict [("type", PStr "TECH_REPLY"); ("content", PStr "On it");
               ("user", PStr "Unknown"); ("time", PStr "2024-05-03T10:00:00")]].
Proof. reflexivity. Qed.

Lemma compare_tickets_by_subject_matches_witness :
  list_contains (PStr "45")
    (compare_tickets_by_subject sample_repr sample_superops_tickets sample_syncro_tickets)
  = true /\
  no_duplicates
    (compare_tickets_by_subject sample_repr sample_superops_tickets sample_syncro_tickets).
Proof.
  assert (Hs : Forall (fun c => is_scalar (get (snd c) "displayId" PNone) = true)
                      sample_superops_tickets) by (repeat constructor).
  assert (Hd : Forall subject_is_text sample_syncro_tickets)
    by (repeat constructor).
  destruct (compare_tickets_by_subject_matches sample_repr sample_superops_tickets
              sample_syncro_tickets Hs Hd) as [Hiff Hnd].
  split; [|exact Hnd].
  apply (Hiff (PStr "45") eq_refl).
  exists (PStr "t-1"),
    [("displayId", PStr "45"); ("ticketId", PStr "t-1");
     ("subject", PStr "Printer broken");
     ("created_time", PStr "2024-05-01T10:00:00")],
    [("ticket_id", PInt 900); ("subject", PStr "Printer issue #4521");
     ("created_at", PStr "2024-04-20T08:00:00")].
  repeat split; try reflexivity; simpl; auto.
  exists "Printer issue #4521". repeat split; [discriminate|].
  exists "Printer issue #", "21". reflexivity.
Defined.

(** Display id ["45"] is reported as migrated because of ["#4521"]; display
    id 77 is not found in any subject. *)
Example compare_tickets_by_subject_sample :
  compare_tickets_by_subject sample_repr sample_superops_tickets sample_syncro_tickets
  = [PStr "45"].
Proof. reflexivity. Qed.

Lemma compare_tickets_by_subject_and_date_matches_witness :
  list_contains (PStr "t-2")
    (compare_tickets_by_subject_and_date sample_superops_tickets sample_syncro_tickets)
  = true /\
  no_duplicates
    (compare_tickets_by_subject_and_date sample_superops_tickets sample_syncro_tickets).
Proof.
  assert (Hs : Forall (fun c => is_scalar (fst c) = true) sample_superops_tickets)
    by (repeat constructor).
  destruct (compare_tickets_by_subject_and_date_matches sample_superops_tickets
              sample_syncro_tickets Hs) as (Hiff & Hnd & Htext).
  split; [|exact Hnd].
  apply (Hiff (PStr "t-2") eq_refl).
  exists (PStr "t-2"),
    [("displayId", PInt 77); ("ticketId", PStr "t-2");
     ("subject", PStr "VPN down");
     ("created_time", PStr "2024-05-02T11:30:00")],
    [("ticket_id", PInt 901); ("subject", PStr "VPN down");
     ("created_at", PStr "2024-05-02T11:30:00")].
  repeat split; try reflexivity; simpl; auto.
Defined.

(** Strategy A does not normalise timestamps: the same instant written with
    another offset notation is no match. *)
Example compare_tickets_by_subject_and_date_no_normalisation :
  compare_tickets_by_subject_and_date
    [(PStr "t-9", [("subject", PStr "VPN down");
                   ("created_time", PStr "2024-05-02T11:30:00Z")])]
    [[("ticket_id", PInt 1); ("subject", PStr "VPN down");
      ("created_at", PStr "2024-05-02T11:30:00+00:00")]]
  = [].
Proof. reflexivity. Qed.

(** ** The orchestrator: which steps can call the destination platform *)

Lemma creation_calls_app (tr1 tr2 : trace) :
  creation_calls (tr1 ++ tr2) = creation_calls tr1 ++ creation_calls tr2.
Proof. apply filter_app. Qed.

Lemma comment_calls_app (tr1 tr2 : trace) :
  comment_calls (tr1 ++ tr2) = comment_calls tr1 ++ comment_calls tr2.
Proof. apply filter_app. Qed.

Lemma creates_nothing_ret {A : Type} (a : A) : creates_nothing (ret a).
Proof. intros tr. reflexivity. Qed.

Lemma creates_nothing_raise {A : Type} (e : exn) : creates_nothing (@raise trace A e).
Proof. intros tr. reflexivity. Qed.

Lemma creates_nothing_lift {A : Type} (r : result A) : creates_nothing (lift r).
Proof. intros tr. reflexivity. Qed.

Lemma creates_nothing_bind {A B : Type} (m : prog trace A) (k : A -> prog trace B) :
  creates_nothing m -> (forall a, creates_nothing (k a)) ->
  creates_nothing (pbind m k).
Proof.
  intros Hm Hk tr. unfold pbind. specialize (Hm tr).
  destruct (m tr) as [tr' [a|e]]; cbn [fst] in *; [|exact Hm].
  now rewrite Hk.
Qed.

Lemma creates_nothing_try {A : Type} (m : prog trace A) (h : exn -> prog trace A) :
  creates_nothing m -> (forall e, creates_nothing (h e)) ->
  creates_nothing (try_except m h).
Proof.
  intros Hm Hh tr. unfold try_except. specialize (Hm tr).
  destruct (m tr) as [tr' [a|e]]; cbn [fst] in *; [exact Hm|].
  now rewrite Hh.
Qed.

Lemma creates_nothing_for_each {A : Type} (l : list A) (body : A -> prog trace unit) :
  (forall x, creates_nothing (body x)) -> creates_nothing (for_each l body).
Proof.
  intros Hbody. induction l as [|x l IH]; cbn [for_each].
  - apply creates_nothing_ret.
  - apply creates_nothing_bind; auto.
Qed.

Lemma creates_nothing_log (lvl : level) (msg : log_msg) : creates_nothing (log lvl msg).
Proof.
  intros tr. unfold log, emit, modify. cbn [fst].
  rewrite creation_calls_app. cbn. apply app_nil_r.
Qed.

Lemma creates_nothing_emit (ev : event) :
  (forall payload, ev <> CallCreateTicket payload) -> creates_nothing (emit ev).
Proof.
  intros Hev tr. unfold emit, modify. cbn [fst].
  rewrite creation_calls_app. destruct ev; cbn; try apply app_nil_r.
  now destruct (Hev payload).
Qed.

Create HintDb silence.
#[local] Hint Extern 1 (creates_nothing (ret _)) => apply creates_nothing_ret : silence.
#[local] Hint Extern 1 (creates_nothing (raise _)) => apply creates_nothing_raise : silence.
#[local] Hint Extern 1 (creates_nothing (lift _)) => apply creates_nothing_lift : silence.
#[local] Hint Extern 1 (creates_nothing (log _ _)) => apply creates_nothing_log : silence.
#[local] Hint Extern 1 (creates_nothing (emit _)) =>
  apply creates_nothing_emit; discriminate : silence.
#[local] Hint Extern 2 (creates_nothing (pbind _ _)) =>
  apply creates_nothing_bind; [|intros ?] : silence.
#[local] Hint Extern 2 (creates_nothing (try_except _ _)) =>
  apply creates_nothing_try; [|intros ?] : silence.
#[local] Hint Extern 2 (creates_nothing (for_each _ _)) =>
  apply creates_nothing_for_each; intros ? : silence.
#[local] Hint Extern 3 (creates_nothing (if ?c then _ else _)) =>
  destruct c : silence.

Section OrchestratorFacts.
Variable E : externals.

Lemma replay_entry_creates_nothing (created_ticket_id entry : pyval) :
  creates_nothing (replay_entry E created_ticket_id entry).
Proof. unfold replay_entry. auto 20 with silence. Qed.

Lemma after_creation_creates_nothing (response : pyval) (timeline : list pyval) :
  creates_nothing (after_creation E response timeline).
Proof.
  unfold after_creation, pauser_on.
  assert (H := replay_entry_creates_nothing).
  auto 20 with silence.
Qed.

Lemma extract_assigned_tech_returns (ticket_id : pyval) (ticket_info : dict) (tr : trace) :
  exists tr' v,
    extract_assigned_tech ticket_id ticket_info tr = (tr', Ok v) /\
    creation_calls tr' = creation_calls tr.
Proof.
  unfold extract_assigned_tech.
  destruct (get ticket_info "assigned_tech" PNone);
    try (eexists; eexists; split; [reflexivity|];
         cbn; rewrite creation_calls_app; apply app_nil_r).
  eexists; eexists; split; reflexivity.
Qed.

Lemma extract_notes_and_conversations_returns (ticket_id : pyval) (ticket_info : dict)
  (tr : trace) :
  exists tr',
    extract_notes_and_conversations ticket_id ticket_info tr
    = (tr', Ok (notes_of ticket_info, conversations_of ticket_info)) /\
    creation_calls tr' = creation_calls tr.
Proof.
  unfold extract_notes_and_conversations, notes_of, conversations_of.
  destruct (get ticket_info "notes" PNone), (get ticket_info "conversations" PNone);
    eexists; (split; [reflexivity|]); cbn;
    rewrite ?creation_calls_app; cbn; rewrite ?app_nil_r; reflexivity.
Qed.
End OrchestratorFacts.

(** The sentinel timeline is a list holding a string: the replay reads
    [entry.get] on it, which raises before any comment is submitted. *)
Example replay_of_sentinel_timeline :
  after_creation (sample_externals []) sample_response [no_history] []
  = ([Log INFO (TicketCreated (PInt 1001) (PInt 500)); Log INFO NoPause],
     Raise AttributeError).
Proof. reflexivity. Qed.

(** ** The cutoff *)

(** With the cutoff moved to the ticket's own [tzinfo] the comparison is on
    the wall-clock fields. *)
Lemma older_than_cutoff_fields (d : datetime) :
  older_than_cutoff d = Ok (lex_ltb (fields d) (fields cutoff_date)).
Proof.
  unfold older_than_cutoff, datetime_lt. cbn [tzinfo replace_tzinfo].
  destruct (tzinfo d) as [o|]; [|reflexivity].
  now rewrite Z.eqb_refl.
Qed.

Lemma add_str_truthy (s suffix : string) :
  truthy (PStr (s ++ String " " suffix)) = true.
Proof. destruct s; reflexivity. Qed.

Section CutoffFacts.
Variable E : externals.

Lemma create_unless_too_old_calls (ticket_id payload created_at : pyval)
  (parsed : datetime) (timeline : list pyval) (tr : trace) :
  item payload "created_at" = Ok created_at ->
  strptime E created_at = Ok parsed ->
  creation_calls (fst (create_unless_too_old E ticket_id payload timeline tr))
  = creation_calls tr ++
    (if lex_ltb (fields parsed) (fields cutoff_date) then []
     else [CallCreateTicket payload]).
Proof.
  intros Hitem Hparse. unfold create_unless_too_old.
  unfold pbind at 1, lift at 1. rewrite Hitem.
  unfold pbind at 1, lift at 1. rewrite Hparse.
  unfold pbind at 1, lift at 1. rewrite older_than_cutoff_fields.
  destruct (lex_ltb (fields parsed) (fields cutoff_date)).
  - cbn. rewrite creation_calls_app. reflexivity.
  - unfold pbind at 1. unfold pbind at 1, log at 1, emit at 1, modify at 1.
    unfold pbind at 1, emit at 1, modify at 1.
    unfold pbind at 1, lift at 1.
    destruct (syncro_create_ticket E payload) as [response|e].
    + cbn [ret]. rewrite after_creation_creates_nothing.
      rewrite !creation_calls_app. cbn. now rewrite app_nil_r.
    + cbn [fst]. rewrite !creation_calls_app. cbn. now rewrite app_nil_r.
Qed.
End CutoffFacts.

Lemma try_except_log_unit_calls (body : prog trace unit) (lvl : level)
  (msg : exn -> log_msg) (tr : trace) :
  creation_calls (fst (try_except body (fun e => log lvl (msg e)) tr))
  = creation_calls (fst (body tr)).
Proof.
  unfold try_except. destruct (body tr) as [tr' [x|e]]; [reflexivity|].
  cbn. rewrite creation_calls_app. cbn. apply app_nil_r.
Qed.

(** C5.  An unmatched ticket that passes the required-field gate and whose
    payload is built is not submitted for creation exactly when its converted
    creation time is strictly earlier than 2024-04-01T00:00:00 read in the
    ticket's own offset: 2024-03-31T23:59:59 is held back, 2024-04-01T00:00:00
    is submitted. *)
Theorem cutoff_decides_creation :
  (forall (E : externals) (client ticket_id : pyval) (ticket_info : dict)
          (matched_ticket_ids : list pyval) (subject : string)
          (converted : pyval) (timeline : list pyval) (parsed : datetime),
      get ticket_info "subject" (PStr "") = PStr subject ->
      truthy (get ticket_info "created_time" PNone) = true ->
      get_syncro_created_date E (get ticket_info "created_time" PNone) = Ok converted ->
      combine_notes_and_conversations (notes_of ticket_info) (conversations_of ticket_info)
        = Ok timeline ->
      list_contains (get ticket_info "displayId" PNone) matched_ticket_ids = false ->
      (forall client contact tid subj status priority tech description tl,
          exists payload,
            syncro_prepare_ticket_json_superops E client contact tid subj converted
              status priority tech description tl = Ok payload /\
            item payload "created_at" = Ok converted) ->
      strptime E converted = Ok parsed ->
      let calls :=
        creation_calls
          (fst (process_individual_ticket E client ticket_id ticket_info
                                          matched_ticket_ids [])) in
      (calls = [] <-> older_than_cutoff parsed = Ok true) /\
      (older_than_cutoff parsed = Ok false ->
       exists payload, calls = [CallCreateTicket payload] /\
                       item payload "created_at" = Ok converted)) /\
  (forall tz : option Z,
      older_than_cutoff (mk_datetime 2024 3 31 23 59 59 0 tz) = Ok true /\
      older_than_cutoff (mk_datetime 2024 4 1 0 0 0 0 tz) = Ok false).
Proof.
  split; [|intros tz; rewrite !older_than_cutoff_fields; split; reflexivity].
  intros E client ticket_id ticket_info matched subject converted timeline parsed
         Hsub Hct Hconv Htl Hunmatched Hprep Hparse calls.
  assert (Hrun : exists payload,
             item payload "created_at" = Ok converted /\
             calls = if lex_ltb (fields parsed) (fields cutoff_date) then []
                     else [CallCreateTicket payload]).
  { subst calls. unfold process_individual_ticket.
    rewrite try_except_log_unit_calls.
    unfold pbind at 1, lift at 1. rewrite Hsub. cbn [add_str append].
    unfold pbind at 1, log at 1, emit at 1, modify at 1.
    rewrite add_str_truthy, Hct. cbn [negb orb].
    unfold pbind at 1, lift at 1. rewrite Hconv.
    destruct (extract_assigned_tech_returns ticket_id ticket_info
                ([] ++ [Log INFO (ProcessingTicket (get ticket_info "displayId" PNone))]))
      as (tr1 & tech & Htech & Hc1).
    unfold pbind at 1. rewrite Htech.
    destruct (extract_notes_and_conversations_returns ticket_id ticket_info tr1)
      as (tr2 & Hnc & Hc2).
    unfold pbind at 1. rewrite Hnc.
    assert (Hstep : exists tr3 tl,
               (match notes_of ticket_info, conversations_of ticket_info with
                | [], [] =>
                    log INFO (NoNotesOrConversations (get ticket_info "displayId" PNone)) ;;;
                    ret [no_history]
                | _, _ =>
                    timeline <-- lift (combine_notes_and_conversations
                                         (notes_of ticket_info) (conversations_of ticket_info)) ;;
                    log DEBUG (CombinedTimeline (List.length timeline)) ;;;
                    ret timeline
                end) tr2 = (tr3, Ok tl) /\ creation_calls tr3 = creation_calls tr2).
    { rewrite Htl.
      destruct (notes_of ticket_info), (conversations_of ticket_info);
        eexists; eexists; (split; [reflexivity|]);
        cbn [fst]; rewrite creation_calls_app; apply app_nil_r. }
    destruct Hstep as (tr3 & tl & Hstep & Hc3).
    unfold pbind at 1.
    destruct (notes_of ticket_info) eqn:Hn, (conversations_of ticket_info) eqn:Hcv;
      rewrite Hstep;
      (unfold pbind at 1, log at 1, emit at 1, modify at 1;
       rewrite Hunmatched;
       unfold pbind at 1, log at 1, emit at 1, modify at 1;
       unfold pbind at 1, lift at 1;
       match goal with
       | |- context [syncro_prepare_ticket_json_superops E ?a ?b ?c ?d ?e ?f ?g ?h ?i ?j] =>
           destruct (Hprep a b c d f g h i j) as (payload & Hp & Hitem); rewrite Hp
       end;
       unfold pbind at 1, log at 1, emit at 1, modify at 1;
       rewrite (create_unless_too_old_calls E ticket_id payload converted parsed _ _
                  Hitem Hparse);
       rewrite !creation_calls_app, Hc3, Hc2, Hc1; cbn [creation_calls filter app];
       exists payload; split; [exact Hitem | reflexivity]). }
  destruct Hrun as (payload & Hitem & Hcalls).
  rewrite older_than_cutoff_fields. rewrite Hcalls.
  destruct (lex_ltb (fields parsed) (fields cutoff_date)); split.
  - tauto.
  - discriminate.
  - split; discriminate.
  - intros _. eauto.
Qed.

(** ** Replaying the timeline as comments *)

Section ReplayFacts.
Variable E : externals.
Variable created_ticket_id : pyval.

Lemma replay_entry_calls (entry : dict) (tr : trace) :
  exists tr',
    replay_entry E created_ticket_id (PDict entry) tr = (tr', Ok tt) /\
    comment_calls tr' = comment_calls tr ++ replayed_calls E created_ticket_id [entry].
Proof.
  unfold replay_entry, replayed_calls. cbn [flat_map]. rewrite app_nil_r.
  unfold pbind at 1, lift at 1. cbn [get_attr].
  fold (is_description entry). destruct (is_description entry).
  - eexists. split; [reflexivity|].
    rewrite comment_calls_app. reflexivity.
  - destruct (build_syncro_comment E (PDict entry)) as [formatted|e] eqn:Hbuild.
    + destruct (syncro_create_comment E formatted created_ticket_id) as [r|e] eqn:Hcall;
        eexists; (split;
          [unfold pbind, try_except, log, emit, modify, lift, ret;
           rewrite ?Hbuild, ?Hcall; reflexivity|]);
        rewrite !comment_calls_app; cbn; rewrite ?app_nil_r; reflexivity.
    + eexists. split.
      * unfold pbind, try_except, log, emit, modify, lift, ret.
        rewrite ?Hbuild. reflexivity.
      * rewrite !comment_calls_app. cbn. rewrite ?app_nil_r. reflexivity.
Qed.

Lemma replay_calls (timeline : list dict) :
  forall tr,
    exists tr',
      for_each (map PDict timeline) (replay_entry E created_ticket_id) tr = (tr', Ok tt) /\
      comment_calls tr' = comment_calls tr ++ replayed_calls E created_ticket_id timeline.
Proof.
  induction timeline as [|entry timeline IH]; intros tr.
  - exists tr. split; [reflexivity|]. cbn. now rewrite app_nil_r.
  - destruct (replay_entry_calls entry tr) as (tr1 & Hrun1 & Hcalls1).
    destruct (IH tr1) as (tr2 & Hrun2 & Hcalls2).
    exists tr2. split.
    + cbn [map for_each]. unfold pbind. now rewrite Hrun1.
    + rewrite Hcalls2, Hcalls1, <- app_assoc. f_equal.
      unfold replayed_calls. cbn [flat_map]. now rewrite app_nil_r.
Qed.

Lemma replayed_calls_count (timeline : list dict) :
  (forall entry, In entry timeline -> is_description entry = false ->
                 exists formatted, build_syncro_comment E (PDict entry) = Ok formatted) ->
  List.length (replayed_calls E created_ticket_id timeline)
  = List.length (filter (fun entry => negb (is_description entry)) timeline).
Proof.
  unfold replayed_calls.
  induction timeline as [|entry timeline IH]; intros Hbuild; [reflexivity|].
  cbn [flat_map filter]. rewrite length_app, IH by (intros; apply Hbuild; simpl; auto).
  destruct (is_description entry) eqn:Hd; [reflexivity|].
  destruct (Hbuild entry (or_introl eq_refl) Hd) as (formatted & ->). reflexivity.
Qed.
End ReplayFacts.

(** C7.  After a ticket has been created, the replay makes no comment call
    for a DESCRIPTION entry and exactly one for every other entry of the
    timeline (entries being dicts that [build_syncro_comment] formats): the
    calls are as many as the entries that are not descriptions. *)
Theorem replay_skips_descriptions :
  forall (E : externals) (response : pyval) (ticket : dict) (timeline : list dict),
    truthy response = true ->
    contains "ticket" response = Ok true ->
    item response "ticket" = Ok (PDict ticket) ->
    (forall entry, In entry timeline -> is_description entry = false ->
                   exists formatted, build_syncro_comment E (PDict entry) = Ok formatted) ->
    exists tr,
      after_creation E response (map PDict timeline) [] = (tr, Ok tt) /\
      comment_calls tr = replayed_calls E (get ticket "id" PNone) timeline /\
      List.length (comment_calls tr)
      = List.length (filter (fun entry => negb (is_description entry)) timeline).
Proof.
  intros E response ticket timeline Htruthy Hhas Hitem Hbuild.
  destruct (replay_calls E (get ticket "id" PNone) timeline
              ([] ++ [Log INFO (TicketCreated (get ticket "number" PNone)
                                              (get ticket "id" PNone))]
                  ++ [Log INFO NoPause]))
    as (tr1 & Hrun & Hcalls).
  exists (tr1 ++ [Log INFO NoPauseForComments]).
  assert (Hc : comment_calls (tr1 ++ [Log INFO NoPauseForComments])
               = replayed_calls E (get ticket "id" PNone) timeline).
  { rewrite comment_calls_app, Hcalls. cbn. now rewrite app_nil_r. }
  split; [|split; [exact Hc|]].
  - unfold after_creation. rewrite Htruthy.
    unfold pbind at 1, lift at 1. rewrite Hhas.
    unfold pbind at 1, lift at 1. rewrite Hitem.
    unfold pbind at 1, lift at 1. cbn [get_attr].
    unfold pbind at 1, lift at 1.
    unfold pbind at 1, log at 1, emit at 1, modify at 1.
    unfold pbind at 1. cbn [pauser_on truthy]. unfold log at 1, emit at 1, modify at 1.
    unfold pbind at 1. rewrite <- app_assoc. rewrite Hrun. reflexivity.
  - rewrite Hc. now apply replayed_calls_count.
Qed.

Lemma replay_skips_descriptions_witness :
  exists tr,
    after_creation (sample_externals []) sample_response
                   (map PDict sample_timeline) [] = (tr, Ok tt) /\
    comment_calls tr
    = replayed_calls (sample_externals []) (PInt 500) sample_timeline /\
    List.length (comment_calls tr) = 2%nat.
Proof.
  apply (replay_skips_descriptions (sample_externals []) sample_response
           [("id", PInt 500); ("number", PInt 1001)] sample_timeline);
    try reflexivity.
  intros entry _ _. eexists. reflexivity.
Defined.

Lemma cutoff_decides_creation_witness :
  let calls :=
    creation_calls
      (fst (process_individual_ticket (sample_externals [])
              (PStr "Acme") (PStr "t-78") acme_ticket_march [] [])) in
  (calls = [] <-> older_than_cutoff march_last_2024 = Ok true) /\
  (older_than_cutoff march_last_2024 = Ok false ->
   exists payload, calls = [CallCreateTicket payload] /\
                   item payload "created_at" = Ok (PStr "2024-03-31T23:59:59+0000")).
Proof.
  apply (proj1 cutoff_decides_creation (sample_externals [])
           (PStr "Acme") (PStr "t-78") acme_ticket_march [] "Scanner jammed"
           (PStr "2024-03-31T23:59:59+0000") [no_history] march_last_2024);
    try reflexivity.
  intros. eexists. split; reflexivity.
Defined.

(** The boundary on the sample tickets: the one created at 23:59:59 on
    31 March 2024 is not submitted, the one created at 00:00:00 on 1 April
    2024 is, and so is the scenario ticket of 1 May 2024, once. *)
Example cutoff_boundary_on_samples :
  creation_calls
    (fst (process_individual_ticket (sample_externals [])
            (PStr "Acme") (PStr "t-78") acme_ticket_march [] []))
  = [] /\
  creation_calls
    (fst (process_individual_ticket (sample_externals [])
            (PStr "Acme") (PStr "t-79") acme_ticket_april [] []))
  = [CallCreateTicket (PDict [("subject", PStr "Screen flickers 79");
                              ("created_at", PStr "2024-04-01T00:00:00+0000")])] /\
  creation_calls
    (fst (process_individual_ticket (sample_externals [])
            (PStr "Acme") (PStr "t-77") acme_ticket [] []))
  = [CallCreateTicket (PDict [("subject", PStr "Printer broken 77");
                              ("created_at", PStr "2024-05-01T00:00:00+0000")])].
Proof. repeat split. Qed.

(** A ticket the destination already holds is not submitted again. *)
Example acme_ticket_already_migrated :
  process_customer_tickets (sample_externals acme_destination) (PStr "Acme")
    [(PStr "t-77", acme_ticket)] []
  = ([Log INFO (FetchingSyncroTickets (PStr "Acme"));
      Log INFO (MatchedTicketIds [PInt 77]);
      Log DEBUG (TotalTickets 1);
      Log INFO (FirstTicket (PStr "t-77"));
      Log INFO (ProcessingTicket (PInt 77));
      Log WARNING (AssignedTechInvalid (PStr "t-77"));
      Log INFO (NoNotesOrConversations (PInt 77));
      Log INFO (LookingForTicket (PInt 77) [PInt 77]);
      Log WARNING (AlreadyExists (PInt 77))], Ok tt).
Proof. reflexivity. Qed.

(** ** The required-field gate *)

(** C4, as the code has it.  A ticket with a text subject and no creation
    time is passed over by [process_individual_ticket] with one warning,
    before its display id is looked up among the matched ids and before
    anything is built or submitted; the scan of Strategy B, which has run
    for the whole batch by then, leaves a source ticket without subject or
    without display id uncompared. *)
Theorem missing_created_time_is_skipped :
  (forall (E : externals) (client ticket_id : pyval) (ticket_info : dict)
          (matched_ticket_ids : list pyval) (tr : trace) (subject : string),
      get ticket_info "subject" (PStr "") = PStr subject ->
      truthy (get ticket_info "created_time" PNone) = false ->
      process_individual_ticket E client ticket_id ticket_info matched_ticket_ids tr
      = (tr ++ [Log INFO (ProcessingTicket (get ticket_info "displayId" PNone));
                Log WARNING (SkippingMissingFields ticket_id)],
         Ok tt)) /\
  (forall (repr : pyval -> string) (syncro_tickets : list dict) (ticket_info : dict)
          (matched_tickets : list pyval),
      truthy (get ticket_info "subject" PNone) = false \/
      truthy (get ticket_info "displayId" PNone) = false ->
      match_by_subject repr syncro_tickets ticket_info matched_tickets
      = (matched_tickets, Ok tt)).
Proof.
  split.
  - intros E client ticket_id ticket_info matched tr subject Hsub Hct.
    unfold process_individual_ticket, try_except.
    unfold pbind at 1, lift at 1. rewrite Hsub. cbn [add_str append].
    unfold pbind at 1, log at 1, emit at 1, modify at 1.
    rewrite Hct, orb_true_r. cbn [negb].
    unfold log, emit, modify. now rewrite <- app_assoc.
  - intros repr D ticket_info m [H|H]; unfold match_by_subject; rewrite H; cbn [negb].
    + reflexivity.
    + now destruct (negb (truthy (get ticket_info "subject" PNone))).
Qed.

Lemma missing_created_time_is_skipped_witness :
  process_individual_ticket (sample_externals acme_destination)
    (PStr "Acme") (PStr "t-77") acme_ticket_untimed [PInt 77] []
  = ([Log INFO (ProcessingTicket (PInt 77));
      Log WARNING (SkippingMissingFields (PStr "t-77"))], Ok tt) /\
  match_by_subject sample_repr acme_destination acme_ticket_no_subject []
  = ([], Ok tt).
Proof.
  split.
  - apply (proj1 missing_created_time_is_skipped
             (sample_externals acme_destination)
             (PStr "Acme") (PStr "t-77") acme_ticket_untimed [PInt 77] []
             "Printer broken"); reflexivity.
  - apply (proj2 missing_created_time_is_skipped sample_repr acme_destination
             acme_ticket_no_subject []).
    left. reflexivity.
Defined.

(** Where the claim fails.  A ticket without creation time has been compared
    with the destination tickets, and found, before it is passed over; a
    ticket whose subject is [None] ends in the [except] branch with an error
    line; a ticket with an empty subject is not passed over at all. *)
Lemma required_field_gate_counterexample :
  (truthy (get acme_ticket_untimed "created_time" PNone) = false /\
   process_customer_tickets (sample_externals acme_destination)
     (PStr "Acme") [(PStr "t-77", acme_ticket_untimed)] []
   = ([Log INFO (FetchingSyncroTickets (PStr "Acme"));
       Log INFO (MatchedTicketIds [PInt 77]);
       Log DEBUG (TotalTickets 1);
       Log INFO (FirstTicket (PStr "t-77"));
       Log INFO (ProcessingTicket (PInt 77));
       Log WARNING (SkippingMissingFields (PStr "t-77"))], Ok tt)) /\
  (truthy (get acme_ticket_no_subject "subject" PNone) = false /\
   process_individual_ticket (sample_externals [])
     (PStr "Acme") (PStr "t-77") acme_ticket_no_subject [] []
   = ([Log ERROR (TicketFailure (PStr "t-77") TypeError)], Ok tt)) /\
  (truthy (get acme_ticket_empty_subject "subject" PNone) = false /\
   creation_calls
     (fst (process_individual_ticket (sample_externals [])
             (PStr "Acme") (PStr "t-77") acme_ticket_empty_subject [] []))
   = [CallCreateTicket (PDict [("subject", PStr " 77");
                               ("created_at", PStr "2024-05-01T00:00:00+0000")])]).
Proof. repeat split. Qed.

(** ** The aggregator: paging through the tickets of a client *)

Section PagingFacts.
Variable src : source.

Lemma collect_tickets_app (l1 l2 : list pyval) :
  forall tickets,
    collect_tickets src (l1 ++ l2) tickets
    = bind (collect_tickets src l1 tickets) (collect_tickets src l2).
Proof.
  induction l1 as [|ticket l1 IH]; intros tickets; [reflexivity|].
  cbn [collect_tickets app].
  destruct (get_attr ticket "ticketId" PNone) as [ticket_id|e]; [|reflexivity].
  cbn [bind]. destruct (negb (truthy ticket_id)); [apply IH|].
  destruct (get_ticket_conversations src ticket_id); [|reflexivity].
  cbn [bind]. destruct (get_ticket_notes src ticket_id); [|reflexivity].
  cbn [bind]. destruct ticket; try reflexivity. apply IH.
Qed.

Lemma lookup_some_contains (k : string) (d : dict) (v : pyval) :
  lookup k d = Some v -> existsb (fun kv => String.eqb k (fst kv)) d = true.
Proof.
  induction d as [|[k' v'] d IH]; cbn; [discriminate|].
  destruct (String.eqb k k'); [reflexivity | exact IH].
Qed.

(** The guard of a fetch passes on a response that holds the field. *)
Lemma response_field_found (r data : dict) (field : string) (found : dict) :
  lookup "data" r = Some (PDict data) ->
  lookup field data = Some (PDict found) ->
  response_field (PDict r) field = Ok (Some (PDict found)).
Proof.
  intros Hdata Hfield. unfold response_field. cbn [contains].
  rewrite (lookup_some_contains _ _ _ Hdata). cbn [bind negb item].
  unfold subscript. rewrite Hdata. cbn [bind get_attr]. unfold get.
  now rewrite Hfield.
Qed.

(** One iteration on a served page. *)
Lemma fetch_page_served (account_id : pyval) (page : Z) (response : pyval)
  (page_tickets : list pyval) (has_more : bool) (tickets : list pyval) :
  post src QUERY_GET_TICKETS (ticket_list_variables account_id page) = Some response ->
  is_ticket_page response page_tickets has_more ->
  fetch_page src account_id page tickets
  = bind (collect_tickets src page_tickets tickets)
         (fun tickets' => Ok (if has_more then NextPage tickets' else Break tickets')).
Proof.
  intros Hpost (r & data & ticket_data & list_info & -> & Hdata & Hlist & Htickets
                & Hinfo & Hmore).
  unfold fetch_page, make_api_call.
  cbn [ticket_list_variables truthy]. fold (ticket_list_variables account_id page).
  rewrite Hpost. cbv zeta.
  rewrite (response_field_found r data "getTicketList" ticket_data Hdata Hlist).
  cbn [bind contains]. rewrite (lookup_some_contains _ _ _ Htickets).
  cbn [negb item]. unfold subscript. rewrite Htickets. cbn [bind iterate].
  destruct (collect_tickets src page_tickets tickets); [|reflexivity].
  cbn [bind get_attr]. unfold get. rewrite Hinfo. cbn [bind get_attr].
  unfold get. rewrite Hmore. cbn [bind truthy].
  now destruct has_more.
Qed.

Lemma tickets_from_page_served (account_id : pyval) (rest : list (list dict)) :
  forall (i total fuel : nat) (tickets : list pyval),
    rest <> [] ->
    total = (i + List.length rest)%nat ->
    (forall j page,
        nth_error rest j = Some page ->
        exists response,
          post src QUERY_GET_TICKETS
               (ticket_list_variables account_id (Z.of_nat (i + j) + 1))
          = Some response /\
          is_ticket_page response (map PDict page) (Nat.ltb (S (i + j)) total)) ->
    (List.length rest <= fuel)%nat ->
    tickets_from_page src fuel account_id (Z.of_nat i + 1) tickets
    = Some (collect_tickets src (map PDict (List.concat rest)) tickets).
Proof.
  induction rest as [|page rest IH]; intros i total fuel tickets Hne Htotal Hserved Hfuel;
    [congruence|].
  destruct fuel as [|fuel]; [cbn in Hfuel; lia|].
  cbn [tickets_from_page List.concat]. rewrite map_app, collect_tickets_app.
  destruct (Hserved 0%nat page eq_refl) as (response & Hpost & Hpage).
  rewrite Nat.add_0_r in Hpost, Hpage.
  rewrite (fetch_page_served _ _ _ _ _ _ Hpost Hpage). unfold dict in *.
  destruct (collect_tickets src (map PDict page) tickets) as [tickets'|e] eqn:Hc;
    rewrite ?Hc; cbn [bind]; [|reflexivity].
  destruct rest as [|page' rest'].
  - replace (S i <? total)%nat with false
      by (symmetry; apply Nat.ltb_ge; cbn in Htotal; lia).
    reflexivity.
  - replace (S i <? total)%nat with true
      by (symmetry; apply Nat.ltb_lt; cbn in Htotal; lia).
    replace (Z.of_nat i + 1 + 1)%Z with (Z.of_nat (S i) + 1)%Z by lia.
    apply (IH (S i) total); [discriminate | cbn in *; lia | | cbn in *; lia].
    intros j p Hj. specialize (Hserved (S j) p Hj).
    now replace (i + S j)%nat with (S i + j)%nat in Hserved by lia.
Qed.

(** The paging loop visits every served page: with fuel for all of them it
    returns what one pass over all their tickets collects. *)
Lemma get_tickets_for_client_all_pages (account_id : pyval) (pages : list (list dict))
  (fuel : nat) :
  serves_pages src account_id pages ->
  (List.length pages <= fuel)%nat ->
  get_tickets_for_client src fuel account_id
  = Some (collect_tickets src (map PDict (List.concat pages)) []).
Proof.
  intros [Hne Hserved] Hfuel. unfold get_tickets_for_client.
  apply (tickets_from_page_served account_id pages 0 (List.length pages));
    auto.
Qed.
End PagingFacts.

(** ** The aggregator: completing and storing the tickets *)

Lemma lookup_set_item_same (k : string) (d : dict) (v : pyval) :
  lookup k (set_item d k v) = Some v.
Proof.
  induction d as [|[k' v'] d IH]; cbn.
  - now rewrite String.eqb_refl.
  - destruct (String.eqb k k') eqn:Hk; cbn; rewrite ?String.eqb_refl, ?Hk; auto.
Qed.

Lemma lookup_set_item_other (k k' : string) (d : dict) (v : pyval) :
  k <> k' -> lookup k (set_item d k' v) = lookup k d.
Proof.
  intros Hne. induction d as [|[k0 v0] d IH]; cbn.
  - apply String.eqb_neq in Hne. now rewrite Hne.
  - destruct (String.eqb k' k0) eqn:Hk; cbn.
    + apply String.eqb_eq in Hk. subst k0.
      apply String.eqb_neq in Hne. now rewrite Hne.
    + now rewrite IH.
Qed.

Lemma update_item_keys {V : Type} (d : list (pyval * V)) (k : pyval) (v : V) :
  map fst (update_item d k v)
  = if list_contains k (map fst d) then map fst d else map fst d ++ [k].
Proof.
  induction d as [|[k' v'] d IH]; [reflexivity|].
  cbn [update_item map fst list_contains existsb].
  destruct (py_eq k k'); cbn [orb map fst]; [reflexivity|].
  rewrite IH. unfold list_contains. now destruct (existsb _ (map fst d)).
Qed.

Lemma update_item_keeps {V : Type} (d : list (pyval * V)) (k k' : pyval) (v : V) :
  list_contains k (map fst d) = true ->
  list_contains k (map fst (update_item d k' v)) = true.
Proof.
  intros H. rewrite update_item_keys.
  destruct (list_contains k' (map fst d)); [exact H|].
  rewrite list_contains_app, H. reflexivity.
Qed.

Lemma update_item_has {V : Type} (d : list (pyval * V)) (k : pyval) (v : V) :
  is_scalar k = true -> list_contains k (map fst (update_item d k v)) = true.
Proof.
  intros Hk. rewrite update_item_keys.
  destruct (list_contains k (map fst d)) eqn:H; [exact H|].
  rewrite list_contains_app. cbn. now rewrite (py_eq_refl_scalar k Hk), orb_true_r.
Qed.

Lemma store_scalar {V : Type} (d : list (pyval * V)) (k : pyval) (v : V) :
  is_scalar k = true -> store d k v = Ok (update_item d k v).
Proof. destruct k; cbn; congruence. Qed.

Lemma first_description_dicts (l : list dict) :
  exists v, first_description (map PDict l) = Ok v.
Proof.
  induction l as [|d l [v IH]]; cbn; [eauto|].
  destruct (py_eq (get d "type" PNone) (PStr "DESCRIPTION")); eauto.
Qed.

Section StoreFacts.
Variable src : source.

Lemma map_r_clean_conversation (items cleaned : list pyval) :
  map_r (clean_conversation src) items = Ok cleaned ->
  (exists l, cleaned = map PDict l) /\
  Forall (fun x => exists d, x = PDict d) items.
Proof.
  revert cleaned. induction items as [|x items IH]; cbn; intros cleaned H.
  - injection H as <-. split; [now exists [] | constructor].
  - destruct (clean_conversation src x) as [y|] eqn:Hx; cbn in H; [|discriminate].
    destruct (map_r (clean_conversation src) items) as [r|] eqn:Hr; cbn in H;
      [|discriminate].
    injection H as <-. destruct (IH r eq_refl) as [[l ->] Hall].
    unfold clean_conversation in Hx.
    destruct x; cbn in Hx; try discriminate.
    destruct (strip_html src _); cbn in Hx; [|discriminate].
    injection Hx as <-. split; [now eexists (_ :: l) | constructor; eauto].
Qed.

(** Whatever [get_ticket_conversations] returns can be searched for its
    description. *)
Lemma fetched_conversations_searchable (ticket_id conversations : pyval) :
  get_ticket_conversations src ticket_id = Ok conversations ->
  exists v, get_description_content conversations = Ok v.
Proof.
  unfold get_ticket_conversations.
  destruct (response_field _ _) as [[fetched|]|]; cbn [bind]; try discriminate.
  - unfold clean_all.
    destruct (iterate fetched) as [items|] eqn:Hit; cbn [bind]; [|discriminate].
    destruct (map_r (clean_conversation src) items) as [cleaned|] eqn:Hclean;
      cbn [bind]; [|discriminate].
    destruct (map_r_clean_conversation _ _ Hclean) as [[l ->] Hall].
    destruct fetched; cbn in Hit; try discriminate; intros H; injection H as <-;
      injection Hit as <-; unfold get_description_content; cbn [iterate bind].
    + destruct s as [|c s]; [cbn; eauto|].
      inversion Hall as [|? ? [d Hd] _]; discriminate.
    + apply first_description_dicts.
    + destruct d as [|[k v] d]; [cbn; eauto|].
      inversion Hall as [|? ? [d' Hd] _]; discriminate.
  - intros H. injection H as <-. cbn. eauto.
Qed.

Lemma collect_tickets_fetchable (tickets : list dict) :
  Forall (fetchable src) tickets ->
  forall collected,
    collect_tickets src (map PDict tickets) collected
    = Ok (collected ++ map (attach src) (filter has_id tickets)).
Proof.
  induction 1 as [|ticket tickets Hf _ IH]; intros collected; cbn [map collect_tickets filter].
  - now rewrite app_nil_r.
  - cbn [get_attr bind]. unfold fetchable in *. unfold has_id at 1.
    destruct (truthy (get ticket "ticketId" PNone)) eqn:Hid; cbn [negb]; [|apply IH].
    destruct (Hf eq_refl) as (_ & [c Hc] & [n Hn]).
    rewrite Hc, Hn. cbn [bind]. rewrite IH, <- app_assoc. cbn [app map].
    unfold attach at 2. now rewrite Hc, Hn.
Qed.

Lemma ticket_record_returns (ticket : dict) :
  fetchable src ticket -> has_id ticket = true ->
  (exists info, ticket_record (attach src ticket) = Ok info) /\
  get_attr (attach src ticket) "ticketId" PNone = Ok (get ticket "ticketId" PNone).
Proof.
  intros Hf Hid. destruct (Hf Hid) as (_ & [c Hc] & [n Hn]).
  unfold attach. rewrite Hc, Hn.
  assert (Hconv : get (set_item (set_item ticket "conversations" c) "notes" n)
                      "conversations" (PList []) = c).
  { unfold get. rewrite lookup_set_item_other by discriminate.
    now rewrite lookup_set_item_same. }
  split.
  - unfold ticket_record, extract_ticket_details. cbn [get_attr bind get lookup String.eqb
      Ascii.eqb Bool.eqb]. cbn.
    fold (get (set_item (set_item ticket "conversations" c) "notes" n)
              "conversations" (PList [])).
    rewrite Hconv.
    destruct (get_assigned_tech_and_user c) as [tech contact]. cbn.
    destruct (fetched_conversations_searchable _ _ Hc) as [v Hv].
    rewrite Hv. cbn. eauto.
  - cbn [get_attr]. f_equal. unfold get.
    now rewrite !lookup_set_item_other by discriminate.
Qed.

Lemma structure_tickets_stores (tickets : list dict) :
  Forall (fetchable src) tickets ->
  forall stored,
    exists info,
      structure_tickets (map (attach src) (filter has_id tickets)) stored = Ok info /\
      (forall k, list_contains k (map fst stored) = true ->
                 list_contains k (map fst info) = true) /\
      (forall ticket, In ticket tickets -> has_id ticket = true ->
                      list_contains (get ticket "ticketId" PNone) (map fst info) = true).
Proof.
  induction 1 as [|ticket tickets Hf _ IH]; intros stored; cbn [filter map].
  - exists stored. cbn. repeat split; auto; contradiction.
  - destruct (has_id ticket) eqn:Hid.
    + cbn [map structure_tickets].
      destruct (ticket_record_returns ticket Hf Hid) as [[info0 Hrec] Hget].
      rewrite Hget. cbn [bind]. fold (has_id ticket). rewrite Hid, Hrec. cbn [bind].
      destruct (Hf Hid) as (Hscalar & _).
      rewrite (store_scalar _ _ _ Hscalar). cbn [bind].
      destruct (IH (update_item stored (get ticket "ticketId" PNone) info0))
        as (info & Hrun & Hkeep & Hall).
      exists info. split; [exact Hrun|]. split.
      * intros k Hk. apply Hkeep. now apply update_item_keeps.
      * intros t [<-|Ht] Ht'; [|auto]. apply Hkeep. now apply update_item_has.
    + destruct (IH stored) as (info & Hrun & Hkeep & Hall).
      exists info. repeat split; auto.
      intros t [<-|Ht] Ht'; [congruence|auto].
Qed.
End StoreFacts.

(** ** The aggregator: the clients of the first client page *)


Section ClientFacts.
Variable src : source.
Variable fuel : nat.
Variable pages : pyval -> list (list dict).

End ClientFacts.

Lemma ticket_page_is_ticket_page (tickets : list pyval) (has_more : bool)
  (total_count : Z) :
  is_ticket_page (ticket_page tickets has_more total_count) tickets has_more.
Proof. unfold is_ticket_page, ticket_page. repeat eexists. Qed.

Lemma client_page_is_client_page (clients : list pyval) :
  is_client_page (client_page clients) clients.
Proof. unfold is_client_page, client_page. repeat eexists. Qed.

(** The single client request: on a response that holds a client list the
    aggregator goes through exactly the clients of that response. *)
Lemma get_all_clients_with_tickets_served (src : source) (fuel : nat)
  (response : pyval) (clients : list pyval) :
  post src QUERY_GET_CLIENT_LIST
       (PDict [("input", PDict [("page", PInt 1); ("pageSize", PInt 100)])])
  = Some response ->
  is_client_page response clients ->
  get_all_clients_with_tickets src fuel = collect_clients src fuel clients [].
Proof.
  intros Hpost (r & data & client_list & -> & Hdata & Hlist & Hclients).
  unfold get_all_clients_with_tickets, make_api_call.
  change (truthy client_list_variables) with true. cbv iota.
  unfold client_list_variables. rewrite Hpost. cbv zeta.
  rewrite (response_field_found r data "getClientList" client_list Hdata Hlist).
  cbn [bind item]. unfold subscript. rewrite Hclients. reflexivity.
Qed.


(** C6.  The failing input: a source platform that holds 101 clients and
    answers a client request with the page asked for.  The aggregator asks
    for page 1 only: the result has 100 entries and the 101st client, which
    a request for page 2 would give, is not among them.  The ticket pages,
    in contrast, are followed to the end (see [get_tickets_for_client]);
    and the docstring of [get_all_clients_with_tickets] reads "Fetch all
    clients and their tickets". *)
Theorem aggregator_drops_the_101st_client :
  match get_all_clients_with_tickets (paged_source many_clients) 1 with
  | Some (Ok client_tickets) =>
      List.length client_tickets = 100%nat /\
      list_contains (PStr "client 101") (map fst client_tickets) = false
  | _ => False
  end /\
  In (numbered_client 101) many_clients /\
  post (paged_source many_clients) QUERY_GET_CLIENT_LIST
       (PDict [("input", PDict [("page", PInt 2); ("pageSize", PInt 100)])])
  = Some (client_page [numbered_client 101]).
Proof.
  split; [vm_compute; split; reflexivity|].
  split; [|reflexivity].
  apply in_map. apply in_seq. lia.
Qed.

Lemma two_client_source_serves_acme :
  serves_pages two_client_source (PInt 1) acme_pages.
Proof.
  split; [discriminate|].
  intros [|[|[|i]]] page H; cbn in H;
    try (injection H as <-; eexists; split;
         [reflexivity | apply ticket_page_is_ticket_page]).
  destruct i; discriminate.
Qed.

Lemma two_client_source_serves_bolt :
  serves_pages two_client_source (PInt 2) [[]].
Proof.
  split; [discriminate|].
  intros [|i] page H; cbn in H;
    [injection H as <-; eexists; split;
     [reflexivity | apply ticket_page_is_ticket_page]|].
  destruct i; discriminate.
Qed.



(** The two clients come back by name; Acme's three pages give its three
    tickets with an id, the ticket without one is left out. *)
Example aggregator_on_two_clients :
  match get_all_clients_with_tickets two_client_source 3 with
  | Some (Ok client_tickets) =>
      map (fun entry => (fst entry, map fst (snd entry))) client_tickets
      = [(PStr "Acme", [PStr "t-1"; PStr "t-2"; PStr "t-3"]); (PStr "Bolt", [])]
  | _ => False
  end.
Proof. vm_compute. reflexivity. Qed.

(** With too little fuel the model of the paging loop has not finished. *)
Example paging_needs_three_rounds :
  get_tickets_for_client two_client_source 2 (PInt 1) = None.
Proof. reflexivity. Qed.

(** * Further properties of the code *)

(** ** The extraction helpers *)

(** X1.  The description of a ticket is the content of the first DESCRIPTION
    entry in the order the conversations came in, whatever their times; a
    list without such an entry has none. *)
Theorem get_description_content_first :
  (forall (before after : list dict) (d : dict),
      Forall (fun c => is_description c = false) before ->
      is_description d = true ->
      get_description_content (PList (map PDict (before ++ d :: after)))
      = Ok (get d "content" PNone)) /\
  (forall convs : list dict,
      Forall (fun c => is_description c = false) convs ->
      get_description_content (PList (map PDict convs)) = Ok PNone).
Proof.
  unfold get_description_content. cbn [iterate bind]. split.
  - intros before after d Hb Hd.
    induction Hb as [|c before Hc _ IH]; cbn [app map first_description get_attr bind].
    + fold (is_description d). now rewrite Hd.
    + fold (is_description c). now rewrite Hc.
  - intros convs Hc.
    induction Hc as [|c convs Hc _ IH]; cbn [map first_description get_attr bind];
      [reflexivity|].
    fold (is_description c). now rewrite Hc.
Qed.

Lemma get_description_content_first_witness :
  get_description_content (PList (map PDict sample_conversations))
  = Ok (PStr "Printer broken") /\
  get_description_content (PList (map PDict sample_notes)) = Ok PNone.
Proof.
  split.
  - apply (proj1 get_description_content_first
             [[("type", PStr "TECH_REPLY"); ("content", PStr "On it");
               ("time", PStr "2024-05-03T10:00:00"); ("user", PStr "bob")]]
             []
             [("type", PStr "DESCRIPTION"); ("content", PStr "Printer broken");
              ("time", PStr "2024-05-01T08:00:00");
              ("user", PDict [("name", PStr "Carl")])]).
    + repeat constructor.
    + reflexivity.
  - apply (proj2 get_description_content_first sample_notes). repeat constructor.
Defined.

Lemma max_scan_missing_time (l : list dict) (d : dict) :
  In d l -> lookup "time" d = None ->
  forall best kbest,
    exists e, max_scan (fun x => item x "time") (map PDict l) best kbest = Raise e.
Proof.
  intros Hin Hd. induction l as [|x l IH]; [contradiction|]. intros best kbest.
  cbn [map max_scan item]. unfold subscript.
  destruct Hin as [->|Hin].
  - rewrite Hd. cbn. eauto.
  - destruct (lookup "time" x) as [kx|]; cbn [bind]; [|eauto].
    destruct (py_gt kx kbest) as [[|]|]; cbn [bind]; eauto.
Qed.

(** X2.  One tech reply without a ['time'] is enough to lose the technician: the
    key function of [max] raises and the function answers [(None, [])],
    whatever the other replies hold. *)
Theorem tech_reply_without_time_hides_technician :
  forall (convs : list dict) (d : dict),
    In d convs -> tech_reply d = true -> lookup "time" d = None ->
    get_assigned_tech_and_user (PList (map PDict convs)) = (PNone, PList []).
Proof.
  intros convs d Hin Ht Hd.
  unfold get_assigned_tech_and_user, assigned_tech_and_user_body. cbn [iterate bind].
  rewrite filter_tech_replies. cbn [bind].
  assert (Hin' : In d (filter tech_reply convs)) by (apply filter_In; auto).
  destruct (filter tech_reply convs) as [|b l]; [contradiction|].
  cbn [map max_by item]. unfold subscript at 1.
  destruct Hin' as [->|Hin'].
  - now rewrite Hd.
  - destruct (lookup "time" b) as [kb|]; cbn [bind]; [|reflexivity].
    destruct (max_scan_missing_time l d Hin' Hd (PDict b) kb) as [e ->].
    reflexivity.
Qed.

Lemma tech_reply_without_time_hides_technician_witness :
  get_assigned_tech_and_user
    (PList (map PDict (test_conversations ++
                       [[("type", PStr "TECH_REPLY");
                         ("user", PDict [("name", PStr "Tech3")])]])))
  = (PNone, PList []).
Proof.
  apply (tech_reply_without_time_hides_technician _
           [("type", PStr "TECH_REPLY"); ("user", PDict [("name", PStr "Tech3")])]).
  - apply in_or_app. right. now left.
  - reflexivity.
  - reflexivity.
Defined.

Lemma max_scan_keeps (k : key_kind) (e : dict) (ke : pyval) (l : list dict) :
  kind_of ke = Some k ->
  Forall (fun x => exists kx, lookup "time" x = Some kx /\ kind_of kx = Some k /\
                              key_le kx ke) l ->
  max_scan (fun x => item x "time") (map PDict l) (PDict e) ke = Ok (PDict e).
Proof.
  intros Ke. induction 1 as [|x l (kx & Hx & Kx & Hle) _ IH]; [reflexivity|].
  cbn [map max_scan item]. unfold subscript. rewrite Hx. cbn [bind].
  unfold py_gt. unfold key_le in Hle. rewrite Hle. cbn [bind]. exact IH.
Qed.

Lemma max_scan_reaches (k : key_kind) (e : dict) (ke : pyval) (l2 : list dict) :
  lookup "time" e = Some ke -> kind_of ke = Some k ->
  Forall (fun x => exists kx, lookup "time" x = Some kx /\ kind_of kx = Some k /\
                              key_le kx ke) l2 ->
  forall (l1 : list dict) (best : pyval) (kbest : pyval),
    kind_of kbest = Some k -> py_lt kbest ke = Ok true ->
    Forall (fun x => exists kx, lookup "time" x = Some kx /\ kind_of kx = Some k /\
                                py_lt kx ke = Ok true) l1 ->
    max_scan (fun x => item x "time") (map PDict (l1 ++ e :: l2)) best kbest
    = Ok (PDict e).
Proof.
  intros He Ke Hl2. induction l1 as [|x l1 IH]; intros best kbest Kb Hlt Hl1.
  - cbn [app map max_scan item]. unfold subscript. rewrite He. cbn [bind].
    unfold py_gt. rewrite Hlt. cbn [bind]. now apply (max_scan_keeps k).
  - inversion Hl1 as [|? ? (kx & Hx & Kx & Hxlt) Hl1']; subst.
    cbn [app map max_scan item]. unfold subscript. rewrite Hx. cbn [bind].
    unfold py_gt. destruct (py_lt_defined k kbest kx Kb Kx) as [[|] ->]; cbn [bind];
      now apply IH.
Qed.

(** X3.  Ties go to the earlier reply: a tech reply that is strictly later than
    every tech reply before it and not earlier than any after it is the one
    whose user and recipients are returned. *)
Theorem get_assigned_tech_and_user_first_of_the_latest :
  forall (k : key_kind) (convs earlier later : list dict) (e : dict) (ke : pyval),
    filter tech_reply convs = earlier ++ e :: later ->
    lookup "time" e = Some ke -> kind_of ke = Some k ->
    Forall (fun x => exists kx, lookup "time" x = Some kx /\ kind_of kx = Some k /\
                                py_lt kx ke = Ok true) earlier ->
    Forall (fun x => exists kx, lookup "time" x = Some kx /\ kind_of kx = Some k /\
                                key_le kx ke) later ->
    get_assigned_tech_and_user (PList (map PDict convs))
    = (get e "user" PNone, get e "toUsers" (PList [])).
Proof.
  intros k convs earlier later e ke Hf He Ke Hearlier Hlater.
  unfold get_assigned_tech_and_user, assigned_tech_and_user_body. cbn [iterate bind].
  rewrite filter_tech_replies, Hf. cbn [bind].
  assert (Hmax : max_by (fun x => item x "time") (map PDict (earlier ++ e :: later))
                 = Ok (PDict e)).
  { destruct earlier as [|b earlier].
    - cbn [app map max_by item]. unfold subscript. rewrite He. cbn [bind].
      now apply (max_scan_keeps k).
    - inversion Hearlier as [|? ? (kb & Hb & Kb & Hblt) Hrest]; subst.
      cbn [app map max_by item]. unfold subscript. rewrite Hb. cbn [bind].
      now apply (max_scan_reaches k e ke). }
  destruct (map PDict (earlier ++ e :: later)) as [|x xs] eqn:Hmap.
  - destruct earlier; discriminate.
  - rewrite Hmax. reflexivity.
Qed.

Lemma get_assigned_tech_and_user_first_of_the_latest_witness :
  get_assigned_tech_and_user
    (PList (map PDict
       [[("type", PStr "TECH_REPLY"); ("time", PInt 1);
         ("user", PDict [("name", PStr "Early")])];
        [("type", PStr "TECH_REPLY"); ("time", PInt 2);
         ("user", PDict [("name", PStr "First of two")])];
        [("type", PStr "TECH_REPLY"); ("time", PInt 2);
         ("user", PDict [("name", PStr "Second of two")])]]))
  = (PDict [("name", PStr "First of two")], PList []).
Proof.
  apply (get_assigned_tech_and_user_first_of_the_latest Numeric _
           [[("type", PStr "TECH_REPLY"); ("time", PInt 1);
             ("user", PDict [("name", PStr "Early")])]]
           [[("type", PStr "TECH_REPLY"); ("time", PInt 2);
             ("user", PDict [("name", PStr "Second of two")])]]
           [("type", PStr "TECH_REPLY"); ("time", PInt 2);
            ("user", PDict [("name", PStr "First of two")])]
           (PInt 2)); try reflexivity.
  - repeat constructor. eexists. repeat split; reflexivity.
  - repeat constructor. eexists. repeat split; reflexivity.
Defined.

(** ** The sort of the timeline: ties and keys that do not compare *)

Lemma py_lt_le_trans (k : key_kind) (a b c : pyval) :
  kind_of a = Some k -> kind_of b = Some k -> kind_of c = Some k ->
  py_lt a b = Ok true -> key_le b c -> py_lt a c = Ok true.
Proof.
  intros Ka Kb Kc Hab Hbc.
  destruct (py_lt_defined k a c Ka Kc) as [[|] Hac]; [exact Hac|].
  assert (Hba : key_le b a) by (apply (key_le_trans k b c a); auto).
  unfold key_le in Hba. congruence.
Qed.

Lemma py_lt_other_kind (a b : pyval) (ka kb : key_kind) :
  kind_of a = Some ka -> kind_of b = Some kb -> ka <> kb ->
  py_lt a b = Raise TypeError.
Proof.
  destruct a, b; cbn; intros Ha Hb Hne; try discriminate; try reflexivity;
    injection Ha as <-; injection Hb as <-; congruence.
Qed.

Section StableSort.
Context {A : Type}.
Variable k : key_kind.
Variable t : pyval.
Hypothesis Kt : kind_of t = Some k.

Let keyed_le (p q : pyval * A) : Prop := key_le (fst p) (fst q).
Let of_kind (l : list (pyval * A)) : Prop :=
  Forall (fun p => kind_of (fst p) = Some k) l.
Let tied (p : pyval * A) : bool := same_key t (fst p).

Lemma nothing_tied_above (kx ky : pyval) (l : list (pyval * A)) :
  kind_of kx = Some k -> kind_of ky = Some k -> of_kind l ->
  same_key t kx = true -> py_lt kx ky = Ok true ->
  Forall (fun p => key_le ky (fst p)) l ->
  filter tied l = [].
Proof.
  intros Kx Ky Hk Htx Hlt Hall.
  induction l as [|p l IH]; [reflexivity|].
  inversion Hk as [|? ? Kp Hk']; subst.
  inversion Hall as [|? ? Hp Hall']; subst.
  cbn [filter]. rewrite (IH Hk' Hall').
  unfold tied at 1. destruct (same_key t (fst p)) eqn:Htp; [|reflexivity]. exfalso.
  unfold same_key in Htx, Htp.
  destruct (py_lt t kx) as [[|]|] eqn:H1; try discriminate.
  destruct (py_lt kx t) as [[|]|] eqn:H2; try discriminate.
  destruct (py_lt t (fst p)) as [[|]|] eqn:H3; try discriminate.
  destruct (py_lt (fst p) t) as [[|]|] eqn:H4; try discriminate.
  assert (Hpx : key_le (fst p) kx).
  { apply (key_le_trans k (fst p) t kx); auto. }
  assert (Hxp : py_lt kx (fst p) = Ok true).
  { apply (py_lt_le_trans k kx ky (fst p)); auto. }
  unfold key_le in Hpx. congruence.
Qed.

Lemma insert_by_key_stable (kx : pyval) (x : A) (l : list (pyval * A)) :
  kind_of kx = Some k -> of_kind l -> StronglySorted keyed_le l ->
  exists r,
    insert_by_key kx x l = Ok r /\ of_kind r /\ StronglySorted keyed_le r /\
    filter tied r = filter tied l ++ filter tied [(kx, x)].
Proof.
  intros Kx. induction l as [|[ky y] l IH]; intros Hk Hs.
  - exists [(kx, x)]. repeat split; repeat constructor; auto.
  - inversion Hk as [|? ? Ky Hk']; subst. cbn in Ky.
    inversion Hs as [|? ? Hs' Hall]; subst.
    cbn [insert_by_key].
    destruct (py_lt_defined k kx ky Kx Ky) as [[|] Hlt]; rewrite Hlt; cbn [bind].
    + exists ((kx, x) :: (ky, y) :: l).
      split; [reflexivity|]. split; [constructor; auto|].
      assert (Hxy : key_le kx ky) by (now apply (py_lt_asym k)).
      split.
      * constructor; [exact Hs|]. constructor; [exact Hxy|].
        rewrite Forall_forall in *. intros p Hp.
        apply (key_le_trans k kx ky (fst p)); auto. now apply Hall.
      * remember ((ky, y) :: l) as rest eqn:Hrest. cbn [filter].
        destruct (tied (kx, x)) eqn:Htx; [|now rewrite app_nil_r].
        rewrite (nothing_tied_above kx ky rest Kx Ky); subst rest; auto.
        constructor; [now apply (key_le_refl k) | exact Hall].
    + destruct (IH Hk' Hs') as (r & Hr & Hkr & Hsr & Hfr).
      rewrite Hr. cbn [bind]. exists ((ky, y) :: r).
      split; [reflexivity|]. split; [constructor; auto|]. split.
      * constructor; [exact Hsr|].
        destruct (insert_by_key_sorts k kx x l Kx Hk' (StronglySorted_Sorted Hs'))
          as (r' & Hr' & Hperm & _).
        rewrite Hr in Hr'. injection Hr' as <-.
        eapply Permutation_Forall; [exact Hperm|].
        constructor; [exact Hlt | exact Hall].
      * cbn [filter]. rewrite Hfr. now destruct (tied (ky, y)).
Qed.

Lemma sort_keyed_stable (todo : list (pyval * A)) :
  forall done,
    of_kind todo -> of_kind done -> StronglySorted keyed_le done ->
    exists r,
      sort_keyed todo done = Ok r /\
      filter tied r = filter tied done ++ filter tied todo.
Proof.
  induction todo as [|[kx x] todo IH]; intros done Ht Hd Hs.
  - exists done. cbn. now rewrite app_nil_r.
  - inversion Ht as [|? ? Kx Ht']; subst. cbn in Kx.
    destruct (insert_by_key_stable kx x done Kx Hd Hs) as (r & Hr & Hkr & Hsr & Hfr).
    destruct (IH r Ht' Hkr Hsr) as (r' & Hr' & Hfr').
    exists r'. cbn [sort_keyed]. rewrite Hr. cbn [bind]. split; [exact Hr'|].
    rewrite Hfr', Hfr, <- app_assoc. f_equal.
    cbn [filter]. now destruct (tied (kx, x)).
Qed.

Variable key : A -> result pyval.

Lemma sort_by_stable (l : list A) :
  Forall (fun x => exists kx, key x = Ok kx /\ kind_of kx = Some k) l ->
  exists r,
    sort_by key l = Ok r /\
    filter (fun x => match key x with Ok kx => same_key t kx | Raise _ => false end) r
    = filter (fun x => match key x with Ok kx => same_key t kx | Raise _ => false end) l.
Proof.
  intros Hl. destruct (keyed_total k key l Hl) as (kl & Hkl & Hsnd & Hk & Hkey).
  destruct (sort_keyed_stable kl [] Hk (Forall_nil _) (SSorted_nil _)) as (r & Hr & Hfr).
  destruct (sort_keyed_sorts k kl [] Hk (Forall_nil _) (Sorted_nil _))
    as (r' & Hr' & Hperm & _).
  rewrite Hr in Hr'. injection Hr' as <-.
  exists (map snd r). unfold sort_by. rewrite Hkl. cbn [bind]. rewrite Hr. cbn [bind].
  split; [reflexivity|].
  assert (Hfilter : forall m : list (pyval * A),
             Forall (fun p => key (snd p) = Ok (fst p)) m ->
             filter (fun x => match key x with Ok kx => same_key t kx | Raise _ => false end)
                    (map snd m)
             = map snd (filter tied m)).
  { induction 1 as [|p m Hp _ IH]; [reflexivity|].
    simpl. rewrite Hp, IH. unfold tied.
    destruct (same_key t (fst p)); reflexivity. }
  assert (Hkeyr : Forall (fun p => key (snd p) = Ok (fst p)) r).
  { rewrite Forall_forall in *. intros p Hp. apply Hkey.
    eapply Permutation_in; [symmetry; exact Hperm | exact Hp]. }
  rewrite (Hfilter r Hkeyr), Hfr. cbn [filter app].
  rewrite <- (Hfilter kl Hkey), Hsnd. reflexivity.
Qed.
End StableSort.

(** X4.  Entries with tied timestamps keep the order they had before the sort:
    the notes first, in their order, then the conversations in theirs. *)
Theorem combine_keeps_ties_in_order :
  forall (k : key_kind) (notes convs : list dict) (t : pyval),
    Forall author_readable notes ->
    timeline_keys_of_kind k notes convs ->
    kind_of t = Some k ->
    exists timeline,
      combine_notes_and_conversations (map PDict notes) (map PDict convs) = Ok timeline /\
      filter (same_time t) timeline
      = filter (same_time t) (map note_fields notes ++ map conversation_fields convs).
Proof.
  intros k notes convs t Ha Hk Kt.
  destruct (sort_by_stable k t Kt (fun x => item x "time") _ (merged_keys_of_kind k _ _ Hk))
    as (merged & Hsort & Hfilter).
  unfold combine_notes_and_conversations.
  rewrite (map_r_notes notes Ha). cbn [bind].
  rewrite map_r_conversations. cbn [bind]. rewrite Hsort. cbn [bind].
  eexists. split; [reflexivity|].
  change (filter (same_time t) merged
          = filter (same_time t) (map note_fields notes ++ map conversation_fields convs))
    in Hfilter.
  destruct merged; [|exact Hfilter].
  rewrite <- Hfilter. reflexivity.
Qed.

Lemma combine_keeps_ties_in_order_witness :
  exists timeline,
    combine_notes_and_conversations
      (map PDict [[("content", PStr "first"); ("addedOn", PInt 5)];
                  [("content", PStr "second"); ("addedOn", PInt 5)]])
      (map PDict [[("type", PStr "TECH_REPLY"); ("content", PStr "third");
                   ("time", PInt 5)];
                  [("type", PStr "DESCRIPTION"); ("content", PStr "before");
                   ("time", PInt 1)]])
    = Ok timeline /\
    filter (same_time (PInt 5)) timeline
    = [PDict [("type", PStr "NOTE"); ("content", PStr "first");
              ("user", PStr "Unknown"); ("time", PInt 5)];
       PDict [("type", PStr "NOTE"); ("content", PStr "second");
              ("user", PStr "Unknown"); ("time", PInt 5)];
       PDict [("type", PStr "TECH_REPLY"); ("content", PStr "third");
              ("user", PStr "Unknown"); ("time", PInt 5)]].
Proof.
  apply (combine_keeps_ties_in_order Numeric
           [[("content", PStr "first"); ("addedOn", PInt 5)];
            [("content", PStr "second"); ("addedOn", PInt 5)]]
           [[("type", PStr "TECH_REPLY"); ("content", PStr "third"); ("time", PInt 5)];
            [("type", PStr "DESCRIPTION"); ("content", PStr "before"); ("time", PInt 1)]]
           (PInt 5)).
  - repeat constructor.
  - split; repeat constructor.
  - reflexivity.
Defined.

Lemma map_r_unreadable_note (notes : list dict) (note : dict) :
  In note notes -> is_dict (get note "addedBy" (PDict [])) = false ->
  map_r note_entry (map PDict notes) = Raise AttributeError.
Proof.
  intros Hin Hbad. induction notes as [|n notes IH]; [contradiction|].
  cbn [map map_r].
  assert (Hn : note_entry (PDict n) = Raise AttributeError \/
               exists e, note_entry (PDict n) = Ok e).
  { unfold note_entry. cbn [get_attr bind].
    destruct (get n "addedBy" (PDict [])); cbn; eauto. }
  destruct Hin as [->|Hin].
  - unfold note_entry. cbn [get_attr bind].
    destruct (get note "addedBy" (PDict [])); cbn in *; try reflexivity; discriminate.
  - destruct Hn as [->|[e ->]]; [reflexivity|]. cbn [bind]. now rewrite IH.
Qed.

(** X5.  A single note whose ['addedBy'] is present but not a dict (a name given
    as text, or [null]) makes the merger raise [AttributeError]: no timeline is
    returned, whatever the other notes and the conversations are. *)
Theorem unreadable_note_author_raises :
  forall (notes : list dict) (conversations : list pyval) (note : dict),
    In note notes ->
    is_dict (get note "addedBy" (PDict [])) = false ->
    combine_notes_and_conversations (map PDict notes) conversations
    = Raise AttributeError.
Proof.
  intros notes conversations note Hin Hbad. unfold combine_notes_and_conversations.
  now rewrite (map_r_unreadable_note notes note Hin Hbad).
Qed.

Lemma unreadable_note_author_raises_witness :
  combine_notes_and_conversations
    (map PDict (sample_notes ++ [[("content", PStr "x"); ("addedBy", PStr "Ann")]]))
    (map PDict sample_conversations)
  = Raise AttributeError.
Proof.
  apply (unreadable_note_author_raises _ _ [("content", PStr "x"); ("addedBy", PStr "Ann")]).
  - apply in_or_app. right. now left.
  - reflexivity.
Defined.

Lemma sort_keyed_app {A : Type} (l1 l2 : list (pyval * A)) :
  forall done, sort_keyed (l1 ++ l2) done = bind (sort_keyed l1 done) (sort_keyed l2).
Proof.
  induction l1 as [|[kx x] l1 IH]; intros done; [reflexivity|].
  cbn [app sort_keyed]. destruct (insert_by_key kx x done); cbn [bind]; auto.
Qed.

Lemma first_of_other_kind {A : Type} (k : key_kind) (l : list (pyval * A)) :
  Forall (fun p => exists k', kind_of (fst p) = Some k') l ->
  (exists q k', In q l /\ kind_of (fst q) = Some k' /\ k' <> k) ->
  exists l1 p l2 k',
    l = l1 ++ p :: l2 /\
    Forall (fun p => kind_of (fst p) = Some k) l1 /\
    kind_of (fst p) = Some k' /\ k' <> k.
Proof.
  induction 1 as [|p l [kp Hp] _ IH]; intros (q & kq & Hin & Hq & Hne);
    [contradiction|].
  destruct (key_kind_eq_dec kp k) as [->|Hpk].
  - destruct Hin as [->|Hin]; [congruence|].
    destruct IH as (l1 & p' & l2 & k' & -> & Hl1 & Hp' & Hk'); [eauto|].
    exists (p :: l1), p', l2, k'. repeat split; auto.
  - exists [], p, l, kp. repeat split; auto.
Qed.

Lemma sort_by_mixed_kinds {A : Type} (key : A -> result pyval) (l : list A) :
  Forall (fun x => exists t k, key x = Ok t /\ kind_of t = Some k) l ->
  (exists a t, In a l /\ key a = Ok t /\ kind_of t = Some Numeric) ->
  (exists b t, In b l /\ key b = Ok t /\ kind_of t = Some Text) ->
  sort_by key l = Raise TypeError.
Proof.
  intros Hl Hnum Htext.
  assert (Hkeyed : exists kl,
             keyed key l = Ok kl /\
             Forall (fun p => exists k', kind_of (fst p) = Some k') kl /\
             forall x t, In x l -> key x = Ok t -> In (t, x) kl).
  { clear Hnum Htext. induction Hl as [|x l (t & k & Hx & Kt) _ (kl & Hkl & Hk & Hin)].
    - exists []. repeat split; auto; contradiction.
    - exists ((t, x) :: kl). cbn [keyed]. rewrite Hx, Hkl. cbn [bind].
      split; [reflexivity|]. split; [constructor; eauto|].
      intros y u [<-|Hy] Hu; [left; congruence | right; auto]. }
  destruct Hkeyed as (kl & Hkl & Hk & Hin).
  unfold sort_by. rewrite Hkl. cbn [bind].
  destruct Hnum as (a & ta & Ha & Hta & Ka), Htext as (b & tb & Hb & Htb & Kb).
  destruct kl as [|[k0 x0] kl]; [destruct (Hin a ta Ha Hta)|].
  inversion Hk as [|? ? [kh Kh] Hk']; subst. cbn [fst] in Kh.
  destruct (first_of_other_kind kh kl Hk') as (l1 & [kx x] & l2 & k' & -> & Hl1 & Kx & Hne).
  { destruct kh.
    - exists (tb, b), Text. repeat split; auto; [|discriminate].
      destruct (Hin b tb Hb Htb) as [Heq|]; [|assumption].
      injection Heq as -> _. congruence.
    - exists (ta, a), Numeric. repeat split; auto; [|discriminate].
      destruct (Hin a ta Ha Hta) as [Heq|]; [|assumption].
      injection Heq as -> _. congruence. }
  change ((k0, x0) :: l1 ++ (kx, x) :: l2) with (((k0, x0) :: l1) ++ (kx, x) :: l2).
  rewrite sort_keyed_app.
  destruct (sort_keyed_sorts kh ((k0, x0) :: l1) [])
    as (r & Hr & Hperm & Hkr & _); [constructor; auto|constructor|constructor|].
  rewrite Hr. cbn [bind sort_keyed].
  destruct r as [|[ky y] r].
  - apply Permutation_sym, Permutation_nil in Hperm. discriminate.
  - inversion Hkr as [|? ? Ky _]; subst. cbn [fst] in Ky, Kx.
    cbn [insert_by_key]. now rewrite (py_lt_other_kind kx ky k' kh Kx Ky Hne).
Qed.

(** X6.  Numbers and text do not sort together: when the timestamps are numbers
    for some entries and text for others (an entry without timestamp gets
    the text ["Unknown Time"]), the sort raises [TypeError] and the merger
    returns no timeline. *)
Theorem mixed_timestamps_raise :
  forall (notes convs : list dict),
    Forall author_readable notes ->
    Forall (fun note => exists k,
              kind_of (get note "addedOn" (PStr "Unknown Time")) = Some k) notes ->
    Forall (fun conv => exists k,
              kind_of (get conv "time" (PStr "Unknown Time")) = Some k) convs ->
    has_time_of_kind Numeric notes convs ->
    has_time_of_kind Text notes convs ->
    combine_notes_and_conversations (map PDict notes) (map PDict convs)
    = Raise TypeError.
Proof.
  intros notes convs Ha Hn Hc Hnum Htext.
  unfold combine_notes_and_conversations.
  rewrite (map_r_notes notes Ha). cbn [bind].
  rewrite map_r_conversations. cbn [bind].
  assert (Hfind : forall k, has_time_of_kind k notes convs ->
             exists e t, In e (map note_fields notes ++ map conversation_fields convs) /\
                         item e "time" = Ok t /\ kind_of t = Some k).
  { intros k [(note & Hin & Hk)|(conv & Hin & Hk)].
    - exists (note_fields note), (get note "addedOn" (PStr "Unknown Time")).
      split; [apply in_or_app; left; now apply in_map | split; [reflexivity|exact Hk]].
    - exists (conversation_fields conv), (get conv "time" (PStr "Unknown Time")).
      split; [apply in_or_app; right; now apply in_map | split; [reflexivity|exact Hk]]. }
  rewrite (sort_by_mixed_kinds (fun x => item x "time")); [reflexivity| |auto|auto].
  apply Forall_app. split; apply Forall_map.
  - eapply Forall_impl; [|exact Hn]. intros n [k Hk]. eexists _, k. split; [reflexivity|exact Hk].
  - eapply Forall_impl; [|exact Hc]. intros c [k Hk]. eexists _, k. split; [reflexivity|exact Hk].
Qed.

Lemma mixed_timestamps_raise_witness :
  combine_notes_and_conversations
    (map PDict [[("content", PStr "a note without its date")]])
    (map PDict [[("type", PStr "TECH_REPLY"); ("time", PInt 1714550400)]])
  = Raise TypeError.
Proof.
  apply mixed_timestamps_raise.
  - repeat constructor.
  - repeat constructor. exists Text. reflexivity.
  - repeat constructor. exists Numeric. reflexivity.
  - right. eexists. split; [now left | reflexivity].
  - left. eexists. split; [now left | reflexivity].
Defined.

(** ** The orchestrator: what a run adds to the trace *)

Lemma destination_calls_app (tr1 tr2 : trace) :
  destination_calls (tr1 ++ tr2) = destination_calls tr1 ++ destination_calls tr2.
Proof. apply filter_app. Qed.

Lemma additive_no_calls : additive no_calls.
Proof.
  split; [reflexivity|]. unfold no_calls. intros a b Ha Hb.
  now rewrite destination_calls_app, Ha, Hb.
Qed.

Lemma additive_only_comments : additive only_comments.
Proof.
  split; [constructor|]. unfold only_comments. intros a b Ha Hb.
  rewrite destination_calls_app. apply Forall_app. auto.
Qed.

Lemma additive_anything : additive (fun _ => True).
Proof. split; auto. Qed.

Lemma no_calls_only_comments (new : list event) : no_calls new -> only_comments new.
Proof. unfold no_calls, only_comments. intros ->. constructor. Qed.

Section Appends.
Variable Q : list event -> Prop.
Hypothesis HQ : additive Q.

Lemma appends_ret {A : Type} (a : A) : appends Q (ret a).
Proof. intros tr. exists []. cbn. rewrite app_nil_r. split; [reflexivity|apply HQ]. Qed.

Lemma appends_raise {A : Type} (e : exn) : appends Q (@raise trace A e).
Proof. intros tr. exists []. cbn. rewrite app_nil_r. split; [reflexivity|apply HQ]. Qed.

Lemma appends_lift {A : Type} (r : result A) : appends Q (lift r).
Proof. intros tr. exists []. cbn. rewrite app_nil_r. split; [reflexivity|apply HQ]. Qed.

Lemma appends_emit (ev : event) : Q [ev] -> appends Q (emit ev).
Proof. intros Hev tr. exists [ev]. split; [reflexivity|exact Hev]. Qed.

Lemma appends_bind {A B : Type} (m : prog trace A) (k : A -> prog trace B) :
  appends Q m -> (forall a, appends Q (k a)) -> appends Q (pbind m k).
Proof.
  intros Hm Hk tr. unfold pbind. destruct (Hm tr) as (new & Hnew & Hq).
  destruct (m tr) as [tr' [a|e]]; cbn [fst] in *; [|eauto].
  destruct (Hk a tr') as (new' & Hnew' & Hq'). exists (new ++ new').
  rewrite Hnew', Hnew, app_assoc. split; [reflexivity|]. now apply HQ.
Qed.

Lemma appends_try {A : Type} (m : prog trace A) (h : exn -> prog trace A) :
  appends Q m -> (forall e, appends Q (h e)) -> appends Q (try_except m h).
Proof.
  intros Hm Hh tr. unfold try_except. destruct (Hm tr) as (new & Hnew & Hq).
  destruct (m tr) as [tr' [a|e]]; cbn [fst] in *; [eauto|].
  destruct (Hh e tr') as (new' & Hnew' & Hq'). exists (new ++ new').
  rewrite Hnew', Hnew, app_assoc. split; [reflexivity|]. now apply HQ.
Qed.

Lemma appends_for_each {A : Type} (l : list A) (body : A -> prog trace unit) :
  (forall x, appends Q (body x)) -> appends Q (for_each l body).
Proof.
  intros Hbody. induction l as [|x l IH]; cbn [for_each].
  - apply appends_ret.
  - apply appends_bind; auto.
Qed.
End Appends.

Lemma appends_weaken {A : Type} (Q Q' : list event -> Prop) (p : prog trace A) :
  (forall new, Q new -> Q' new) -> appends Q p -> appends Q' p.
Proof.
  intros Himp Hp tr. destruct (Hp tr) as (new & Hnew & Hq). eauto.
Qed.

(** A quiet step followed by any step adds what the second adds, as far as
    the calls go. *)
Lemma appends_after_quiet {A B : Type} (Q : list event -> Prop)
  (m : prog trace A) (k : A -> prog trace B) :
  (forall a b, no_calls a -> Q b -> Q (a ++ b)) ->
  (forall a, no_calls a -> Q a) ->
  appends no_calls m -> (forall a, appends Q (k a)) -> appends Q (pbind m k).
Proof.
  intros Happ Hquiet Hm Hk tr. unfold pbind. destruct (Hm tr) as (new & Hnew & Hq).
  destruct (m tr) as [tr' [a|e]]; cbn [fst] in *; [|eauto].
  destruct (Hk a tr') as (new' & Hnew' & Hq'). exists (new ++ new').
  rewrite Hnew', Hnew, app_assoc. split; [reflexivity|]. now apply Happ.
Qed.

Lemma appends_log (Q : list event -> Prop) (lvl : level) (msg : log_msg) :
  Q [Log lvl msg] -> appends Q (log lvl msg).
Proof. apply appends_emit. Qed.

(** Solves goals [appends Q p] for an additive [Q] that holds of every
    single event that is not a call. *)
Ltac appends_steps HQ Hsingle :=
  repeat first
    [ apply (appends_ret _ HQ)
    | apply (appends_raise _ HQ)
    | apply (appends_lift _ HQ)
    | apply appends_log; apply Hsingle; reflexivity
    | apply (appends_emit _); apply Hsingle; reflexivity
    | apply (appends_bind _ HQ); [|intros ?]
    | apply (appends_try _ HQ); [|intros ?]
    | apply (appends_for_each _ HQ); intros ?
    | match goal with
      | |- appends _ (match ?x with _ => _ end) => destruct x
      end ].

Lemma no_calls_single (ev : event) :
  destination_calls [ev] = [] -> no_calls [ev].
Proof. auto. Qed.

Lemma only_comments_single (ev : event) :
  destination_calls [ev] = [] -> only_comments [ev].
Proof. intros H. apply no_calls_only_comments. exact H. Qed.

Lemma anything_single (ev : event) :
  destination_calls [ev] = [] -> (fun _ : list event => True) [ev].
Proof. intros _. exact I. Qed.

Section CallFacts.
Variable E : externals.

Lemma extract_assigned_tech_quiet (Q : list event -> Prop) (ticket_id : pyval)
  (ticket_info : dict) :
  additive Q -> (forall ev, destination_calls [ev] = [] -> Q [ev]) ->
  appends Q (extract_assigned_tech ticket_id ticket_info).
Proof.
  intros HQ Hsingle. unfold extract_assigned_tech. appends_steps HQ Hsingle.
Qed.

Lemma extract_notes_and_conversations_quiet (Q : list event -> Prop)
  (ticket_id : pyval) (ticket_info : dict) :
  additive Q -> (forall ev, destination_calls [ev] = [] -> Q [ev]) ->
  appends Q (extract_notes_and_conversations ticket_id ticket_info).
Proof.
  intros HQ Hsingle. unfold extract_notes_and_conversations.
  appends_steps HQ Hsingle.
Qed.

Lemma replay_entry_only_comments (created_ticket_id entry : pyval) :
  appends only_comments (replay_entry E created_ticket_id entry).
Proof.
  unfold replay_entry.
  appends_steps additive_only_comments only_comments_single.
  apply appends_emit. repeat constructor. eexists _, _. reflexivity.
Qed.

Lemma after_creation_only_comments (response : pyval) (timeline : list pyval) :
  appends only_comments (after_creation E response timeline).
Proof.
  unfold after_creation, pauser_on. cbn [truthy].
  appends_steps additive_only_comments only_comments_single;
    apply appends_emit; repeat constructor; eexists _, _; reflexivity.
Qed.
End CallFacts.

Lemma one_creation_after_quiet (a b : list event) :
  no_calls a -> one_creation_then_comments b -> one_creation_then_comments (a ++ b).
Proof.
  unfold no_calls, one_creation_then_comments. intros Ha Hb.
  now rewrite destination_calls_app, Ha.
Qed.

Lemma one_creation_before_quiet (a b : list event) :
  one_creation_then_comments b -> no_calls a -> one_creation_then_comments (b ++ a).
Proof.
  unfold no_calls, one_creation_then_comments. intros Hb Ha.
  now rewrite destination_calls_app, Ha, app_nil_r.
Qed.

Lemma one_creation_of_quiet (a : list event) :
  no_calls a -> one_creation_then_comments a.
Proof. unfold no_calls, one_creation_then_comments. auto. Qed.

(** A [try] whose handler only writes a log line. *)
Lemma appends_try_log (Q : list event -> Prop) (body : prog trace unit)
  (lvl : level) (msg : exn -> log_msg) :
  (forall a b, Q b -> no_calls a -> Q (b ++ a)) ->
  appends Q body -> appends Q (try_except body (fun e => log lvl (msg e))).
Proof.
  intros Happ Hbody tr. unfold try_except. destruct (Hbody tr) as (new & Hnew & Hq).
  destruct (body tr) as [tr' [a|e]]; cbn [fst] in *; [eauto|].
  exists (new ++ [Log lvl (msg e)]). cbn. rewrite Hnew, app_assoc.
  split; [reflexivity|]. now apply Happ.
Qed.

Lemma try_log_returns (body : prog trace unit) (lvl : level) (msg : exn -> log_msg)
  (tr : trace) :
  snd (try_except body (fun e => log lvl (msg e)) tr) = Ok tt.
Proof.
  unfold try_except. destruct (body tr) as [tr' [[]|e]]; reflexivity.
Qed.

Section TicketCalls.
Variable E : externals.

Lemma create_unless_too_old_shape (ticket_id payload : pyval) (timeline : list pyval) :
  appends one_creation_then_comments (create_unless_too_old E ticket_id payload timeline).
Proof.
  intros tr. unfold create_unless_too_old.
  unfold pbind at 1, lift at 1.
  destruct (item payload "created_at") as [created_at|e];
    [|exists []; rewrite app_nil_r; split; [reflexivity | now left]].
  unfold pbind at 1, lift at 1.
  destruct (strptime E created_at) as [parsed|e];
    [|exists []; rewrite app_nil_r; split; [reflexivity | now left]].
  unfold pbind at 1, lift at 1.
  destruct (older_than_cutoff parsed) as [[|]|e];
    [| |exists []; rewrite app_nil_r; split; [reflexivity | now left]].
  - exists [Log INFO (TooOld ticket_id)]. split; [reflexivity | now left].
  - unfold pbind at 1. unfold pbind at 1, log at 1, emit at 1, modify at 1.
    unfold pbind at 1, emit at 1, modify at 1. unfold pbind at 1, lift at 1.
    destruct (syncro_create_ticket E payload) as [response|e].
    + cbn [ret].
      destruct (after_creation_only_comments E response timeline
                  ((tr ++ [Log INFO (AttemptingToCreate payload)])
                   ++ [CallCreateTicket payload]))
        as (new & Hnew & Hq).
      exists ([Log INFO (AttemptingToCreate payload); CallCreateTicket payload] ++ new).
      rewrite Hnew, <- !app_assoc. split; [reflexivity|].
      right. exists payload, (destination_calls new). split; [reflexivity | exact Hq].
    + exists [Log INFO (AttemptingToCreate payload); CallCreateTicket payload].
      rewrite <- app_assoc. split; [reflexivity|].
      right. exists payload, []. split; [reflexivity | constructor].
Qed.

(** Steps through a function whose calls, if any, are made by
    [create_unless_too_old] in tail position. *)
Ltac quiet_steps :=
  first
    [ apply extract_assigned_tech_quiet;
      [exact additive_no_calls | exact no_calls_single]
    | apply extract_notes_and_conversations_quiet;
      [exact additive_no_calls | exact no_calls_single]
    | appends_steps additive_no_calls no_calls_single ].

Ltac ticket_steps :=
  repeat first
    [ apply create_unless_too_old_shape
    | match goal with
      | |- appends _ (match ?x with _ => _ end) => destruct x
      end
    | apply (appends_after_quiet one_creation_then_comments);
      [ exact one_creation_after_quiet
      | exact one_creation_of_quiet
      | solve [quiet_steps]
      | intros ? ]
    | apply (appends_weaken no_calls one_creation_then_comments);
      [ exact one_creation_of_quiet
      | solve [quiet_steps] ] ].

Lemma process_individual_ticket_shape (client ticket_id : pyval) (ticket_info : dict)
  (matched_ticket_ids : list pyval) :
  appends one_creation_then_comments
          (process_individual_ticket E client ticket_id ticket_info matched_ticket_ids).
Proof.
  unfold process_individual_ticket.
  apply appends_try_log; [intros a b; apply one_creation_before_quiet|].
  cbv zeta. ticket_steps.
Qed.

Lemma process_individual_ticket_matched (client ticket_id : pyval) (ticket_info : dict)
  (matched_ticket_ids : list pyval) :
  list_contains (get ticket_info "displayId" PNone) matched_ticket_ids = true ->
  appends no_calls
          (process_individual_ticket E client ticket_id ticket_info matched_ticket_ids).
Proof.
  intros Hmatched. unfold process_individual_ticket.
  apply appends_try_log.
  { intros a b Hb Ha. now apply additive_no_calls. }
  cbv zeta.
  repeat first
    [ match goal with
      | |- appends _ (if list_contains _ _ then _ else _) => rewrite Hmatched
      | |- appends _ (match ?x with _ => _ end) => destruct x
      end
    | apply (appends_bind _ additive_no_calls); [solve [quiet_steps] | intros ?]
    | progress appends_steps additive_no_calls no_calls_single ].
Qed.
End TicketCalls.

(** ** What one ticket, one customer and one batch may do to the destination *)

(** X7.  A ticket whose display id is among the matched ids is left alone:
    [process_individual_ticket] returns without any call to the destination,
    neither a ticket creation nor a comment. *)
Theorem matched_ticket_is_left_alone :
  forall (E : externals) (client ticket_id : pyval) (ticket_info : dict)
         (matched_ticket_ids : list pyval) (tr : trace),
    list_contains (get ticket_info "displayId" PNone) matched_ticket_ids = true ->
    destination_calls
      (fst (process_individual_ticket E client ticket_id ticket_info
                                      matched_ticket_ids tr))
    = destination_calls tr /\
    snd (process_individual_ticket E client ticket_id ticket_info
                                   matched_ticket_ids tr) = Ok tt.
Proof.
  intros E client ticket_id ticket_info matched tr Hmatched. split.
  - destruct (process_individual_ticket_matched E client ticket_id ticket_info
                matched Hmatched tr) as (new & Hnew & Hq).
    rewrite Hnew, destination_calls_app, Hq. apply app_nil_r.
  - unfold process_individual_ticket. apply try_log_returns.
Qed.

Lemma matched_ticket_is_left_alone_witness :
  destination_calls
    (fst (process_individual_ticket (sample_externals acme_destination)
            (PStr "Acme") (PStr "t-77") acme_ticket [PInt 77] []))
  = destination_calls [] /\
  snd (process_individual_ticket (sample_externals acme_destination)
         (PStr "Acme") (PStr "t-77") acme_ticket [PInt 77] []) = Ok tt.
Proof.
  apply (matched_ticket_is_left_alone (sample_externals acme_destination)
           (PStr "Acme") (PStr "t-77") acme_ticket [PInt 77] []).
  reflexivity.
Defined.

(** X8.  Whatever the ticket, the matched ids and the answers of the destination,
    [process_individual_ticket] only adds to the trace, and the calls it
    adds are either none, or one ticket creation followed by comment calls
    only: a ticket is never submitted twice, and no comment is sent before
    the ticket it belongs to has been submitted. *)
Theorem ticket_creates_at_most_once :
  forall (E : externals) (client ticket_id : pyval) (ticket_info : dict)
         (matched_ticket_ids : list pyval) (tr : trace),
    exists new,
      fst (process_individual_ticket E client ticket_id ticket_info
                                     matched_ticket_ids tr) = tr ++ new /\
      (destination_calls new = [] \/
       exists payload comments,
         destination_calls new = CallCreateTicket payload :: comments /\
         Forall is_comment_call comments).
Proof.
  intros E client ticket_id ticket_info matched tr.
  exact (process_individual_ticket_shape E client ticket_id ticket_info matched tr).
Qed.

Lemma creation_calls_of_quiet (a : list event) : no_calls a -> creation_calls a = [].
Proof.
  unfold no_calls. induction a as [|ev a IH]; [reflexivity|].
  destruct ev; cbn; intros H; try discriminate; auto.
Qed.

Lemma creation_calls_of_comments (l : list event) :
  Forall is_comment_call l -> creation_calls l = [].
Proof.
  induction 1 as [|ev l (comment & ticket_id & ->) _ IH]; [reflexivity|exact IH].
Qed.

Lemma creation_of_destination_calls (l : list event) :
  creation_calls (destination_calls l) = creation_calls l.
Proof.
  induction l as [|ev l IH]; [reflexivity|].
  destruct ev; cbn [destination_calls creation_calls filter];
    fold (destination_calls l); fold (creation_calls l);
    fold (creation_calls (destination_calls l)); now rewrite ?IH.
Qed.

Lemma at_most_after_quiet (n : nat) (a b : list event) :
  no_calls a -> at_most_creations n b -> at_most_creations n (a ++ b).
Proof.
  unfold at_most_creations. intros Ha Hb.
  now rewrite creation_calls_app, (creation_calls_of_quiet a Ha).
Qed.

Lemma at_most_before_quiet (n : nat) (a b : list event) :
  at_most_creations n b -> no_calls a -> at_most_creations n (b ++ a).
Proof.
  unfold at_most_creations. intros Hb Ha.
  now rewrite creation_calls_app, (creation_calls_of_quiet a Ha), app_nil_r.
Qed.

Lemma at_most_of_quiet (n : nat) (a : list event) :
  no_calls a -> at_most_creations n a.
Proof.
  unfold at_most_creations. intros Ha. rewrite (creation_calls_of_quiet a Ha).
  cbn. lia.
Qed.

Lemma at_most_one_of_shape (new : list event) :
  one_creation_then_comments new -> at_most_creations 1 new.
Proof.
  unfold at_most_creations. rewrite <- creation_of_destination_calls.
  intros [->|(payload & comments & -> & Hc)]; [cbn; lia|].
  change (creation_calls (CallCreateTicket payload :: comments))
    with (CallCreateTicket payload :: creation_calls comments).
  rewrite (creation_calls_of_comments comments Hc). cbn. lia.
Qed.

Lemma appends_bind_count {A B : Type} (n m : nat) (p : prog trace A)
  (k : A -> prog trace B) :
  appends (at_most_creations n) p ->
  (forall a, appends (at_most_creations m) (k a)) ->
  appends (at_most_creations (n + m)) (pbind p k).
Proof.
  intros Hp Hk tr. unfold pbind. destruct (Hp tr) as (new & Hnew & Hq).
  unfold at_most_creations in *.
  destruct (p tr) as [tr' [a|e]]; cbn [fst] in *.
  - destruct (Hk a tr') as (new' & Hnew' & Hq'). exists (new ++ new').
    rewrite Hnew', Hnew, app_assoc. split; [reflexivity|].
    rewrite creation_calls_app, length_app. lia.
  - exists new. split; [assumption | lia].
Qed.

Lemma appends_for_each_count {A : Type} (w : A -> nat) (body : A -> prog trace unit)
  (l : list A) :
  (forall x, appends (at_most_creations (w x)) (body x)) ->
  appends (at_most_creations (list_sum (map w l))) (for_each l body).
Proof.
  intros Hbody. induction l as [|x l IH]; cbn [for_each map list_sum fold_right].
  - intros tr. exists []. rewrite app_nil_r. split; [reflexivity|].
    unfold at_most_creations. cbn. lia.
  - apply appends_bind_count; auto.
Qed.

Lemma list_sum_ones {A : Type} (l : list A) :
  list_sum (map (fun _ => 1%nat) l) = List.length l.
Proof. induction l as [|x l IH]; cbn; [reflexivity | now rewrite <- IH]. Qed.

Section CustomerCalls.
Variable E : externals.

Lemma process_customer_tickets_count (client : pyval) (tickets : list (pyval * dict)) :
  appends (at_most_creations (List.length tickets))
          (process_customer_tickets E client tickets).
Proof.
  unfold process_customer_tickets.
  apply appends_try_log; [intros a b; apply at_most_before_quiet|].
  cbv zeta.
  repeat first
    [ match goal with
      | |- appends _ (for_each _ _) =>
          rewrite <- list_sum_ones; apply appends_for_each_count;
          intros [ticket_id ticket_info];
          apply (appends_weaken one_creation_then_comments);
          [exact at_most_one_of_shape | apply process_individual_ticket_shape]
      | |- appends _ (if ?c then _ else _) => destruct c
      end
    | apply (appends_after_quiet (at_most_creations (List.length tickets)));
      [ apply at_most_after_quiet
      | apply at_most_of_quiet
      | solve [appends_steps additive_no_calls no_calls_single]
      | intros ? ]
    | apply (appends_weaken no_calls (at_most_creations (List.length tickets)));
      [ apply at_most_of_quiet
      | solve [appends_steps additive_no_calls no_calls_single] ] ].
Qed.

Lemma process_customer_tickets_unlisted (client : pyval) (tickets : list (pyval * dict)) :
  destination_listed E client = false ->
  appends no_calls (process_customer_tickets E client tickets).
Proof.
  unfold destination_listed, process_customer_tickets. intros Hno.
  apply appends_try_log.
  { intros a b Hb Ha. now apply additive_no_calls. }
  apply (appends_bind _ additive_no_calls);
    [appends_steps additive_no_calls no_calls_single | intros _].
  intros tr. unfold pbind at 1, lift at 1.
  destruct (get_customer_id_by_name E client) as [id|e];
    [|exists []; rewrite app_nil_r; split; reflexivity].
  destruct (truthy id); cbn [negb andb] in *;
    [|eexists [_]; split; reflexivity].
  unfold pbind at 1, lift at 1.
  destruct (get_all_tickets_for_customer E client) as [syncro_tickets|e];
    [|exists []; rewrite app_nil_r; split; reflexivity].
  unfold pbind at 1, lift at 1.
  destruct (extract_ticket_subjects_and_dates E syncro_tickets) as [subjects|e];
    [discriminate|exists []; rewrite app_nil_r; split; reflexivity].
Qed.
End CustomerCalls.

Lemma process_tickets_count (E : externals)
  (customers_tickets : list (pyval * list (pyval * dict))) :
  appends (at_most_creations (ticket_count customers_tickets))
          (process_tickets E customers_tickets).
Proof.
  unfold process_tickets, ticket_count.
  apply appends_try_log; [intros a b; apply at_most_before_quiet|].
  apply (appends_after_quiet (at_most_creations _));
    [ apply at_most_after_quiet
    | apply at_most_of_quiet
    | appends_steps additive_no_calls no_calls_single
    | intros _ ].
  apply appends_for_each_count. intros [client tickets].
  apply process_customer_tickets_count.
Qed.

(** X9.  A run creates at most one destination ticket for each source ticket:
    the creation calls that [process_customer_tickets] adds are at most as
    many as the customer has tickets, and those that [process_tickets] adds
    at most as many as the batch has, whatever the destination answers. *)
Theorem at_most_one_creation_per_ticket :
  (forall (E : externals) (client : pyval) (tickets : list (pyval * dict)) (tr : trace),
      (List.length (creation_calls (fst (process_customer_tickets E client tickets tr)))
       <= List.length (creation_calls tr) + List.length tickets)%nat) /\
  (forall (E : externals) (customers_tickets : list (pyval * list (pyval * dict)))
          (tr : trace),
      (List.length (creation_calls (fst (process_tickets E customers_tickets tr)))
       <= List.length (creation_calls tr) + ticket_count customers_tickets)%nat).
Proof.
  split.
  - intros E client tickets tr.
    destruct (process_customer_tickets_count E client tickets tr) as (new & -> & Hq).
    unfold at_most_creations in Hq. rewrite creation_calls_app, length_app. lia.
  - intros E customers_tickets tr.
    destruct (process_tickets_count E customers_tickets tr) as (new & -> & Hq).
    unfold at_most_creations in Hq. rewrite creation_calls_app, length_app. lia.
Qed.

(** X10.  When the destination side of a customer cannot be read (the customer
    lookup fails or finds nothing, or the listing of its tickets or their
    summary fails), [process_customer_tickets] makes no call to the
    destination, whatever tickets the customer has, and returns. *)
Theorem unlisted_customer_is_left_alone :
  forall (E : externals) (client : pyval) (tickets : list (pyval * dict)) (tr : trace),
    destination_listed E client = false ->
    destination_calls (fst (process_customer_tickets E client tickets tr))
    = destination_calls tr /\
    snd (process_customer_tickets E client tickets tr) = Ok tt.
Proof.
  intros E client tickets tr Hno. split.
  - destruct (process_customer_tickets_unlisted E client tickets Hno tr)
      as (new & -> & Hq).
    rewrite destination_calls_app, Hq. apply app_nil_r.
  - unfold process_customer_tickets. apply try_log_returns.
Qed.

Lemma unlisted_customer_is_left_alone_witness :
  destination_calls
    (fst (process_customer_tickets unknown_customer_externals (PStr "Acme")
            [(PStr "t-77", acme_ticket)] []))
  = destination_calls [] /\
  snd (process_customer_tickets unknown_customer_externals (PStr "Acme")
         [(PStr "t-77", acme_ticket)] []) = Ok tt.
Proof.
  apply (unlisted_customer_is_left_alone unknown_customer_externals (PStr "Acme")
           [(PStr "t-77", acme_ticket)] []).
  reflexivity.
Defined.

(** ** Failures are contained *)

Lemma try_except_after_log {A : Type} (lvl : level) (msg : log_msg)
  (k : unit -> prog trace A) (h : exn -> prog trace A) (tr : trace) :
  try_except (pbind (log lvl msg) k) h tr = try_except (k tt) h (tr ++ [Log lvl msg]).
Proof. reflexivity. Qed.

Lemma try_except_lift_ok {A B : Type} (a : A) (k : A -> prog trace B)
  (h : exn -> prog trace B) (tr : trace) :
  try_except (pbind (lift (Ok a)) k) h tr = try_except (k a) h tr.
Proof. reflexivity. Qed.

Lemma appends_for_each_marks {A : Type} (M : A -> event -> Prop)
  (body : A -> prog trace unit) (l : list A) :
  (forall x tr, snd (body x tr) = Ok tt) ->
  (forall x, appends (fun new => exists ev, In ev new /\ M x ev) (body x)) ->
  forall tr, exists new,
    for_each l body tr = (tr ++ new, Ok tt) /\
    forall x, In x l -> exists ev, In ev new /\ M x ev.
Proof.
  intros Hret Hbody. induction l as [|x l IH]; intros tr.
  - exists []. rewrite app_nil_r. split; [reflexivity | contradiction].
  - cbn [for_each]. unfold pbind.
    destruct (Hbody x tr) as (new & Hnew & ev & Hin & Hev).
    specialize (Hret x tr).
    destruct (body x tr) as [tr' r]. cbn [fst snd] in *. subst tr' r.
    destruct (IH (tr ++ new)) as (new' & Hrun & Hall).
    exists (new ++ new'). rewrite Hrun, app_assoc. split; [reflexivity|].
    intros y [<-|Hy].
    + exists ev. split; [apply in_or_app; now left | exact Hev].
    + destruct (Hall y Hy) as (ev' & Hin' & Hev').
      exists ev'. split; [apply in_or_app; now right | exact Hev'].
Qed.

Section Containment.
Variable E : externals.

Lemma process_individual_ticket_grows (client ticket_id : pyval) (ticket_info : dict)
  (matched_ticket_ids : list pyval) :
  appends (fun _ => True)
          (process_individual_ticket E client ticket_id ticket_info matched_ticket_ids).
Proof.
  apply (appends_weaken one_creation_then_comments); [intros; exact I|].
  apply process_individual_ticket_shape.
Qed.

Lemma create_unless_too_old_grows (ticket_id payload : pyval) (timeline : list pyval) :
  appends (fun _ => True) (create_unless_too_old E ticket_id payload timeline).
Proof.
  apply (appends_weaken one_creation_then_comments); [intros; exact I|].
  apply create_unless_too_old_shape.
Qed.

(** Steps through an orchestrator function that only adds to the trace. *)
Ltac grow_steps :=
  repeat first
    [ apply process_individual_ticket_grows
    | apply create_unless_too_old_grows
    | apply extract_assigned_tech_quiet; [exact additive_anything | exact anything_single]
    | apply extract_notes_and_conversations_quiet;
      [exact additive_anything | exact anything_single]
    | match goal with
      | |- appends _ (match ?x with _ => _ end) => destruct x
      end
    | apply (appends_ret _ additive_anything)
    | apply (appends_raise _ additive_anything)
    | apply (appends_lift _ additive_anything)
    | apply appends_log; exact I
    | apply (appends_bind _ additive_anything); [|intros ?]
    | apply (appends_for_each _ additive_anything); intros ? ].

Lemma process_individual_ticket_taken_up (client ticket_id : pyval)
  (ticket_info : dict) (matched_ticket_ids : list pyval) :
  appends (fun new => exists ev, In ev new /\ ticket_taken_up (ticket_id, ticket_info) ev)
          (process_individual_ticket E client ticket_id ticket_info matched_ticket_ids).
Proof.
  intros tr. unfold process_individual_ticket. cbv zeta.
  destruct (add_str (get ticket_info "subject" (PStr ""))
              (" " ++ py_str (repr_container E) (get ticket_info "displayId" PNone)))
    as [subject|e] eqn:Hsubject.
  - rewrite try_except_lift_ok, try_except_after_log.
    match goal with
    | |- context [fst (?p (tr ++ [?ev]))] =>
        assert (Hrest : appends (fun _ => True) p)
    end.
    { apply appends_try_log; [intros; exact I|]. cbv beta. grow_steps. }
    match type of Hrest with
    | appends _ ?p =>
        match goal with
        | |- context [fst (p ?t)] => destruct (Hrest t) as (new & Hnew & _)
        end
    end.
    eexists (_ :: new). rewrite Hnew, <- app_assoc. split; [reflexivity|].
    eexists. split; [now left | now left].
  - exists [Log ERROR (TicketFailure ticket_id e)].
    unfold try_except, pbind at 1, lift at 1.
    split; [reflexivity|].
    eexists. split; [now left | right; now exists e].
Qed.

Lemma process_customer_tickets_grows (client : pyval) (tickets : list (pyval * dict)) :
  appends (fun _ => True) (process_customer_tickets E client tickets).
Proof.
  apply (appends_weaken (at_most_creations (List.length tickets))); [intros; exact I|].
  apply process_customer_tickets_count.
Qed.

Lemma process_customer_tickets_taken_up (client : pyval) (tickets : list (pyval * dict)) :
  appends (fun new => exists ev, In ev new /\ customer_taken_up (client, tickets) ev)
          (process_customer_tickets E client tickets).
Proof.
  intros tr. unfold process_customer_tickets.
  rewrite try_except_after_log.
  match goal with
  | |- context [fst (?p (tr ++ [?ev]))] =>
      assert (Hrest : appends (fun _ => True) p)
  end.
  { apply appends_try_log; [intros; exact I|]. cbv beta zeta. grow_steps. }
  match type of Hrest with
  | appends _ ?p =>
      match goal with
      | |- context [fst (p ?t)] => destruct (Hrest t) as (new & Hnew & _)
      end
  end.
  eexists (_ :: new). rewrite Hnew, <- app_assoc. split; [reflexivity|].
  eexists. split; [now left | reflexivity].
Qed.
End Containment.

Lemma process_tickets_runs (E : externals)
  (customers_tickets : list (pyval * list (pyval * dict))) (tr : trace) :
  exists new,
    process_tickets E customers_tickets tr
    = ((tr ++ [Log INFO (ProcessingCustomers (List.length customers_tickets))]) ++ new,
       Ok tt) /\
    forall customer, In customer customers_tickets ->
                     exists ev, In ev new /\ customer_taken_up customer ev.
Proof.
  unfold process_tickets. rewrite try_except_after_log.
  destruct (appends_for_each_marks customer_taken_up
              (fun '(client, tickets) => process_customer_tickets E client tickets)
              customers_tickets) with
    (tr := tr ++ [Log INFO (ProcessingCustomers (List.length customers_tickets))])
    as (new & Hrun & Hall).
  - intros [client tickets] tr'. unfold process_customer_tickets. apply try_log_returns.
  - intros [client tickets]. apply process_customer_tickets_taken_up.
  - exists new. unfold try_except. rewrite Hrun. split; [reflexivity | exact Hall].
Qed.

Lemma process_customer_tickets_runs (E : externals) (client : pyval)
  (tickets : list (pyval * dict)) (tr : trace) :
  destination_listed E client = true ->
  exists new,
    fst (process_customer_tickets E client tickets tr) = tr ++ new /\
    forall ticket, In ticket tickets -> exists ev, In ev new /\ ticket_taken_up ticket ev.
Proof.
  unfold destination_listed, process_customer_tickets. intros Hlisted.
  rewrite try_except_after_log.
  destruct (get_customer_id_by_name E client) as [id|e]; [|discriminate].
  rewrite try_except_lift_ok.
  destruct (truthy id); [|discriminate]. cbn [negb andb] in *.
  destruct (get_all_tickets_for_customer E client) as [syncro_tickets|e]; [|discriminate].
  rewrite try_except_lift_ok.
  destruct (extract_ticket_subjects_and_dates E syncro_tickets) as [subjects|e];
    [|discriminate].
  rewrite try_except_lift_ok. cbv zeta.
  rewrite !try_except_after_log.
  set (matched := compare_tickets_by_subject (repr_container E) tickets subjects).
  assert (Hfirst : exists ev, forall t,
             (match tickets with
              | (first_ticket_id, _) :: _ => log INFO (FirstTicket first_ticket_id)
              | [] => log INFO NoTicketsFound
              end) t = (t ++ [ev], Ok tt)).
  { destruct tickets as [|[first_ticket_id first_ticket_info] rest];
      eexists; intros t; reflexivity. }
  destruct Hfirst as (first_line & Hfirst).
  unfold try_except, pbind at 1. rewrite Hfirst.
  match goal with
  | |- context [for_each tickets ?body ?t] =>
      destruct (appends_for_each_marks ticket_taken_up body tickets) with (tr := t)
        as (new & Hrun & Hall)
  end.
  - intros [ticket_id ticket_info] tr'. unfold process_individual_ticket.
    apply try_log_returns.
  - intros [ticket_id ticket_info]. apply process_individual_ticket_taken_up.
  - rewrite Hrun. cbn [fst]. rewrite <- !app_assoc.
    eexists. split; [reflexivity|].
    intros ticket Hin. destruct (Hall ticket Hin) as (ev & Hev & Hup).
    exists ev. split; [|exact Hup].
    apply in_or_app. right. cbn [app]. do 3 right. exact Hev.
Qed.

(** X11.  A failure does not stop the run.  [process_tickets] returns whatever
    happens, and takes up every customer of the batch: each one's
    fetching line is in the log, also after a customer that failed.
    Likewise [process_customer_tickets] returns, and for a customer whose
    destination side can be read it takes up every ticket: each ticket
    leaves its processing line or the error line of its own failure. *)
Theorem failures_do_not_stop_the_run :
  (forall (E : externals) (customers_tickets : list (pyval * list (pyval * dict)))
          (tr : trace),
      snd (process_tickets E customers_tickets tr) = Ok tt /\
      forall client tickets,
        In (client, tickets) customers_tickets ->
        In (Log INFO (FetchingSyncroTickets client))
           (fst (process_tickets E customers_tickets tr))) /\
  (forall (E : externals) (client : pyval) (tickets : list (pyval * dict)) (tr : trace),
      destination_listed E client = true ->
      snd (process_customer_tickets E client tickets tr) = Ok tt /\
      forall ticket_id ticket_info,
        In (ticket_id, ticket_info) tickets ->
        In (Log INFO (ProcessingTicket (get ticket_info "displayId" PNone)))
           (fst (process_customer_tickets E client tickets tr)) \/
        exists e, In (Log ERROR (TicketFailure ticket_id e))
                     (fst (process_customer_tickets E client tickets tr))).
Proof.
  split.
  - intros E customers_tickets tr.
    destruct (process_tickets_runs E customers_tickets tr) as (new & Hrun & Hall).
    rewrite Hrun. split; [reflexivity|].
    intros client tickets Hin. destruct (Hall _ Hin) as (ev & Hev & ->).
    cbn [fst]. apply in_or_app. now right.
  - intros E client tickets tr Hlisted. split.
    + unfold process_customer_tickets. apply try_log_returns.
    + intros ticket_id ticket_info Hin.
      destruct (process_customer_tickets_runs E client tickets tr Hlisted)
        as (new & Hrun & Hall).
      rewrite Hrun. destruct (Hall _ Hin) as (ev & Hev & [->|(e & ->)]).
      * left. apply in_or_app. now right.
      * right. exists e. apply in_or_app. now right.
Qed.

Lemma failures_do_not_stop_the_run_witness :
  destination_listed (sample_externals []) (PStr "Acme") = true /\
  snd (process_customer_tickets (sample_externals []) (PStr "Acme")
         [(PStr "t-1", [("subject", PNone)]); (PStr "t-77", acme_ticket)] []) = Ok tt /\
  forall ticket_id ticket_info,
    In (ticket_id, ticket_info)
       [(PStr "t-1", [("subject", PNone)]); (PStr "t-77", acme_ticket)] ->
    In (Log INFO (ProcessingTicket (get ticket_info "displayId" PNone)))
       (fst (process_customer_tickets (sample_externals []) (PStr "Acme")
               [(PStr "t-1", [("subject", PNone)]); (PStr "t-77", acme_ticket)] [])) \/
    exists e, In (Log ERROR (TicketFailure ticket_id e))
                 (fst (process_customer_tickets (sample_externals []) (PStr "Acme")
                         [(PStr "t-1", [("subject", PNone)]); (PStr "t-77", acme_ticket)]
                         [])).
Proof.
  split; [reflexivity|].
  apply (proj2 failures_do_not_stop_the_run (sample_externals []) (PStr "Acme")
           [(PStr "t-1", [("subject", PNone)]); (PStr "t-77", acme_ticket)] []).
  reflexivity.
Defined.

(** On a batch whose first customer holds a ticket that cannot be processed,
    the failure is logged and the tickets after it, and the next customer,
    are still handled. *)
Example failing_ticket_in_sample_batch :
  let tr := fst (process_tickets (sample_externals []) sample_batch []) in
  In (Log ERROR (TicketFailure (PStr "t-1") TypeError)) tr /\
  In (Log INFO (ProcessingTicket (PInt 77))) tr /\
  In (Log INFO (FetchingSyncroTickets (PStr "Bolt"))) tr /\
  List.length (creation_calls tr) = 1%nat.
Proof. vm_compute. intuition. Qed.

(** ** A ticket held back by the cutoff *)

Lemma no_too_old_line_app (a b : list event) :
  no_too_old_line a -> no_too_old_line b -> no_too_old_line (a ++ b).
Proof.
  unfold no_too_old_line. intros Ha Hb. now rewrite existsb_app, Ha, Hb.
Qed.

Lemma additive_no_too_old_line : additive no_too_old_line.
Proof. split; [reflexivity | exact no_too_old_line_app]. Qed.

Lemma additive_plain_lines : additive plain_lines.
Proof.
  split; [split; reflexivity|].
  intros a b [Ha Ha'] [Hb Hb']. split.
  - now apply additive_no_calls.
  - now apply no_too_old_line_app.
Qed.

Lemma no_too_old_line_single (ev : event) :
  is_too_old_line ev = false -> no_too_old_line [ev].
Proof. unfold no_too_old_line. cbn. now intros ->. Qed.

Lemma plain_lines_single (ev : event) :
  is_plain_line ev = true -> plain_lines [ev].
Proof.
  unfold plain_lines, no_calls, no_too_old_line.
  destruct ev as [lvl msg| | | |]; cbn; try discriminate; try (split; reflexivity).
  intros H. apply negb_true_iff in H. rewrite H. split; reflexivity.
Qed.

Lemma held_back_of_plain {A : Type} (ticket_id : pyval) (p : prog trace A) :
  appends plain_lines p -> held_back_raises ticket_id p.
Proof.
  intros Hp tr. destruct (Hp tr) as (new & Hnew & _ & Hq).
  exists new, (snd (p tr)). rewrite <- Hnew. split; [apply surjective_pairing | auto].
Qed.

Lemma held_back_of_no_too_old {A : Type} (ticket_id : pyval) (p : prog trace A) :
  appends no_too_old_line p -> held_back_raises ticket_id p.
Proof.
  intros Hp tr. destruct (Hp tr) as (new & Hnew & Hq).
  exists new, (snd (p tr)). rewrite <- Hnew. split; [apply surjective_pairing | auto].
Qed.

Lemma held_back_after_plain {A B : Type} (ticket_id : pyval) (m : prog trace A)
  (k : A -> prog trace B) :
  appends plain_lines m -> (forall a, held_back_raises ticket_id (k a)) ->
  held_back_raises ticket_id (pbind m k).
Proof.
  intros Hm Hk tr. unfold pbind. destruct (Hm tr) as (new & Hnew & Hcalls & Hlines).
  destruct (m tr) as [tr' [a|e]]; cbn [fst] in *; subst tr';
    [|exists new, (Raise e); auto].
  destruct (Hk a (tr ++ new)) as (new' & r & Hnew' & Hcase).
  exists (new ++ new'), r. rewrite Hnew', app_assoc. split; [reflexivity|].
  destruct Hcase as [Hq|(before & -> & Hbefore & Hraise)].
  - left. now apply no_too_old_line_app.
  - right. exists (new ++ before). rewrite app_assoc.
    split; [reflexivity|]. split; [|exact Hraise].
    apply additive_plain_lines; [split|]; assumption.
Qed.

Section HeldBack.
Variable E : externals.

Lemma after_creation_no_too_old_line (response : pyval) (timeline : list pyval) :
  appends no_too_old_line (after_creation E response timeline).
Proof.
  unfold after_creation, pauser_on. cbn [truthy].
  appends_steps additive_no_too_old_line no_too_old_line_single.
Qed.

Lemma create_unless_too_old_held_back (ticket_id payload : pyval)
  (timeline : list pyval) :
  held_back_raises ticket_id (create_unless_too_old E ticket_id payload timeline).
Proof.
  intros tr. unfold create_unless_too_old.
  unfold pbind at 1, lift at 1.
  destruct (item payload "created_at") as [created_at|e];
    [|exists [], (Raise e); rewrite app_nil_r; split; [reflexivity | now left]].
  unfold pbind at 1, lift at 1.
  destruct (strptime E created_at) as [parsed|e];
    [|exists [], (Raise e); rewrite app_nil_r; split; [reflexivity | now left]].
  unfold pbind at 1, lift at 1.
  destruct (older_than_cutoff parsed) as [[|]|e];
    [| |exists [], (Raise e); rewrite app_nil_r; split; [reflexivity | now left]].
  - exists [Log INFO (TooOld ticket_id)], (Raise UnboundLocalError).
    split; [reflexivity|].
    right. exists []. repeat split.
  - unfold pbind at 1. unfold pbind at 1, log at 1, emit at 1, modify at 1.
    unfold pbind at 1, emit at 1, modify at 1. unfold pbind at 1, lift at 1.
    destruct (syncro_create_ticket E payload) as [response|e].
    + cbn [ret].
      destruct (after_creation_no_too_old_line response timeline
                  ((tr ++ [Log INFO (AttemptingToCreate payload)])
                   ++ [CallCreateTicket payload]))
        as (new & Hnew & Hq).
      exists ([Log INFO (AttemptingToCreate payload); CallCreateTicket payload] ++ new),
             (snd (after_creation E response timeline
                     ((tr ++ [Log INFO (AttemptingToCreate payload)])
                      ++ [CallCreateTicket payload]))).
      split.
      * rewrite (surjective_pairing (after_creation E response timeline _)).
        rewrite Hnew, <- !app_assoc. reflexivity.
      * left. apply no_too_old_line_app; [reflexivity | exact Hq].
    + exists [Log INFO (AttemptingToCreate payload); CallCreateTicket payload],
             (Raise e).
      rewrite <- app_assoc. split; [reflexivity | now left].
Qed.

Ltac plain_steps :=
  first
    [ unfold extract_assigned_tech, extract_notes_and_conversations;
      solve [appends_steps additive_plain_lines plain_lines_single] ].

Lemma process_individual_ticket_body_held_back (client ticket_id : pyval)
  (ticket_info : dict) (matched_ticket_ids : list pyval) :
  exists body,
    process_individual_ticket E client ticket_id ticket_info matched_ticket_ids
    = try_except body (fun e => log ERROR (TicketFailure ticket_id e)) /\
    held_back_raises ticket_id body.
Proof.
  eexists. split; [reflexivity|]. cbv zeta.
  repeat first
    [ apply create_unless_too_old_held_back
    | match goal with
      | |- held_back_raises _ (match ?x with _ => _ end) => destruct x
      end
    | apply held_back_after_plain; [plain_steps | intros ?]
    | apply held_back_of_plain; plain_steps ].
Qed.
End HeldBack.

(** X12.  The cutoff does not skip a ticket cleanly.  Whenever
    [process_individual_ticket] writes the line that a ticket is too old, it
    has made no call for the ticket, and the very next line, which is also
    the last one, is the error line of the ticket with [UnboundLocalError]:
    the variable holding the creation response is read without having been
    assigned.  The function still returns. *)
Theorem held_back_ticket_is_logged_as_failed :
  forall (E : externals) (client ticket_id : pyval) (ticket_info : dict)
         (matched_ticket_ids : list pyval) (tr : trace),
    exists new,
      process_individual_ticket E client ticket_id ticket_info matched_ticket_ids tr
      = (tr ++ new, Ok tt) /\
      (existsb is_too_old_line new = false \/
       exists before,
         new = before ++ [Log INFO (TooOld ticket_id);
                          Log ERROR (TicketFailure ticket_id UnboundLocalError)] /\
         destination_calls before = [] /\
         existsb is_too_old_line before = false).
Proof.
  intros E client ticket_id ticket_info matched tr.
  destruct (process_individual_ticket_body_held_back E client ticket_id ticket_info
              matched) as (body & -> & Hbody).
  destruct (Hbody tr) as (new & r & Hnew & Hcase).
  unfold try_except. rewrite Hnew. destruct r as [[]|e].
  - exists new. split; [reflexivity|].
    destruct Hcase as [Hq|(before & _ & _ & Hraise)]; [now left | discriminate].
  - exists (new ++ [Log ERROR (TicketFailure ticket_id e)]).
    cbn. rewrite app_assoc. split; [reflexivity|].
    destruct Hcase as [Hq|(before & -> & [Hcalls Hlines] & Hraise)].
    + left. apply no_too_old_line_app; [exact Hq | reflexivity].
    + right. exists before. injection Hraise as ->.
      rewrite <- app_assoc. repeat split; assumption.
Qed.

(** The ticket of 31 March 2024 is held back and logged as failed. *)
Example held_back_sample_ticket :
  process_individual_ticket (sample_externals []) (PStr "Acme") (PStr "t-78")
    acme_ticket_march [] []
  = ([Log INFO (ProcessingTicket (PInt 78));
      Log WARNING (AssignedTechInvalid (PStr "t-78"));
      Log INFO (NoNotesOrConversations (PInt 78));
      Log INFO (LookingForTicket (PInt 78) []);
      Log INFO (NotFoundInSyncro (PStr "t-78"));
      Log INFO (AttemptingToCreate
                  (PDict [("subject", PStr "Scanner jammed 78");
                          ("created_at", PStr "2024-03-31T23:59:59+0000")]));
      Log INFO (TooOld (PStr "t-78"));
      Log ERROR (TicketFailure (PStr "t-78") UnboundLocalError)], Ok tt).
Proof. reflexivity. Qed.

(** ** Strategy B on arbitrary data *)

Lemma for_each_invariant {S A : Type} (P : S -> Prop) (body : A -> prog S unit)
  (l : list A) :
  (forall x s, In x l -> P s -> P (fst (body x s))) ->
  forall s, P s -> P (fst (for_each l body s)).
Proof.
  induction l as [|x l IH]; intros Hbody s Hs; [exact Hs|].
  cbn [for_each]. unfold pbind.
  assert (Hx := Hbody x s (or_introl eq_refl) Hs).
  destruct (body x s) as [s' [[]|e]]; cbn [fst] in *; [|exact Hx].
  apply IH; [|exact Hx]. intros y s0 Hy. apply Hbody. now right.
Qed.

Lemma for_each_ext {S A : Type} (body1 body2 : A -> prog S unit) (l : list A) :
  (forall x s, body1 x s = body2 x s) ->
  forall s, for_each l body1 s = for_each l body2 s.
Proof.
  intros Hext. induction l as [|x l IH]; intros s; [reflexivity|].
  cbn [for_each]. unfold pbind. rewrite Hext.
  destruct (body2 x s) as [s' [[]|e]]; [apply IH | reflexivity].
Qed.

Lemma for_each_stops {S A : Type} (body : A -> prog S unit) (l1 l2 : list A) (bad : A) :
  (forall s, exists e, body bad s = (s, Raise e)) ->
  forall s, fst (for_each (l1 ++ bad :: l2) body s) = fst (for_each l1 body s).
Proof.
  intros Hbad. induction l1 as [|x l1 IH]; intros s; cbn [for_each app]; unfold pbind.
  - destruct (Hbad s) as (e & ->). reflexivity.
  - destruct (body x s) as [s' [[]|e]]; [apply IH | reflexivity].
Qed.

Lemma string_app_assoc (a b c : string) : ((a ++ b) ++ c = a ++ (b ++ c))%string.
Proof. induction a as [|x a IH]; cbn; [reflexivity | now rewrite IH]. Qed.

Lemma string_app_nil_r (a : string) : (a ++ "" = a)%string.
Proof. induction a as [|x a IH]; cbn; [reflexivity | now rewrite IH]. Qed.

Lemma get_text_whatever_default (d : dict) (k s : string) (default : pyval) :
  get d k PNone = PStr s -> get d k default = PStr s.
Proof. unfold get. destruct (lookup k d); [auto | discriminate]. Qed.

(** X13.  Whatever the tickets of either side look like, Strategy B reports only
    display ids of source tickets: an item of the result is the display id
    of a source ticket with a non-empty subject, it is itself truthy, and
    its string form was found by [in] in the truthy subject of some
    destination ticket. *)
Theorem compare_tickets_by_subject_sound :
  forall (repr : pyval -> string) (superops_tickets : list (pyval * dict))
         (syncro_tickets : list dict) (t : pyval),
    In t (compare_tickets_by_subject repr superops_tickets syncro_tickets) ->
    exists ticket_id ticket_info dst,
      In (ticket_id, ticket_info) superops_tickets /\ In dst syncro_tickets /\
      t = get ticket_info "displayId" PNone /\
      truthy (get ticket_info "subject" PNone) = true /\
      truthy t = true /\
      truthy (get dst "subject" PNone) = true /\
      contains (py_str repr t) (get dst "subject" PNone) = Ok true.
Proof.
  intros repr S D t.
  set (P := fun m : list pyval =>
              forall t, In t m ->
                exists ticket_id ticket_info dst,
                  In (ticket_id, ticket_info) S /\ In dst D /\
                  t = get ticket_info "displayId" PNone /\
                  truthy (get ticket_info "subject" PNone) = true /\
                  truthy t = true /\
                  truthy (get dst "subject" PNone) = true /\
                  contains (py_str repr t) (get dst "subject" PNone) = Ok true).
  enough (HP : P (compare_tickets_by_subject repr S D)) by (apply HP).
  unfold compare_tickets_by_subject. rewrite try_except_pass. cbn [fst].
  apply for_each_invariant; [|intros x []].
  intros [ticket_id ticket_info] m Hin Hm. rewrite try_except_pass. cbn [fst].
  unfold match_by_subject.
  destruct (truthy (get ticket_info "subject" PNone)) eqn:Hsubject;
    cbn [negb]; [|exact Hm].
  destruct (truthy (get ticket_info "displayId" PNone)) eqn:Hid;
    cbn [negb]; [|exact Hm].
  apply for_each_invariant; [|exact Hm].
  intros dst m' Hdst Hm'. cbv zeta.
  destruct (truthy (get dst "subject" PNone)) eqn:Hdsubject; cbn [negb]; [|exact Hm'].
  unfold pbind, lift.
  destruct (contains (py_str repr (get ticket_info "displayId" PNone))
              (get dst "subject" PNone)) as [[|]|e] eqn:Hfound;
    cbn [fst ret]; try exact Hm'.
  rewrite append_if_new_run. cbn [fst]. unfold add_new.
  destruct (list_contains (get ticket_info "displayId" PNone) m'); [exact Hm'|].
  intros t' Ht'. apply in_app_or in Ht'. destruct Ht' as [Ht'|[<-|[]]]; [now apply Hm'|].
  exists ticket_id, ticket_info, dst. repeat split; assumption.
Qed.

Lemma compare_tickets_by_subject_sound_witness :
  exists ticket_id ticket_info dst,
    In (ticket_id, ticket_info) sample_superops_tickets /\
    In dst sample_syncro_tickets /\
    PStr "45" = get ticket_info "displayId" PNone /\
    truthy (get ticket_info "subject" PNone) = true /\
    truthy (PStr "45") = true /\
    truthy (get dst "subject" PNone) = true /\
    contains (py_str sample_repr (PStr "45")) (get dst "subject" PNone) = Ok true.
Proof.
  apply (compare_tickets_by_subject_sound sample_repr sample_superops_tickets
           sample_syncro_tickets (PStr "45")).
  simpl. now left.
Defined.

(** X14.  Strategy B reads the destination list only up to the first ticket whose
    subject is a non-zero number or [True]: [in] raises on it, which ends
    the scan of every source ticket there, so the result is the one for the
    tickets before it and matches after it are missed. *)
Theorem compare_tickets_by_subject_stops_at_number :
  forall (repr : pyval -> string) (superops_tickets : list (pyval * dict))
         (before after : list dict) (bad : dict),
    number_subject bad ->
    compare_tickets_by_subject repr superops_tickets (before ++ bad :: after)
    = compare_tickets_by_subject repr superops_tickets before.
Proof.
  intros repr S D1 D2 bad Hbad. unfold compare_tickets_by_subject.
  rewrite !try_except_pass. cbn [fst]. f_equal. apply for_each_ext.
  intros [ticket_id ticket_info] m. rewrite !try_except_pass. f_equal.
  unfold match_by_subject.
  destruct (truthy (get ticket_info "subject" PNone)); cbn [negb]; [|reflexivity].
  destruct (truthy (get ticket_info "displayId" PNone)); cbn [negb]; [|reflexivity].
  apply for_each_stops. intros s. cbv zeta. unfold number_subject in Hbad.
  destruct (get bad "subject" PNone) as [|b|z| | |]; try contradiction.
  - subst b. exists TypeError. reflexivity.
  - cbn [truthy]. apply Z.eqb_neq in Hbad. rewrite Hbad. exists TypeError. reflexivity.
Qed.

Lemma compare_tickets_by_subject_stops_at_number_witness :
  compare_tickets_by_subject sample_repr sample_superops_tickets
    ([] ++ [("ticket_id", PInt 899); ("subject", PInt 4521)] :: sample_syncro_tickets)
  = compare_tickets_by_subject sample_repr sample_superops_tickets [].
Proof.
  apply (compare_tickets_by_subject_stops_at_number sample_repr sample_superops_tickets
           [] sample_syncro_tickets [("ticket_id", PInt 899); ("subject", PInt 4521)]).
  simpl. discriminate.
Defined.

(** With the number in front, the match of display id ["45"] is lost. *)
Example compare_tickets_by_subject_on_numbered_destination :
  compare_tickets_by_subject sample_repr sample_superops_tickets numbered_destination = [] /\
  compare_tickets_by_subject sample_repr sample_superops_tickets sample_syncro_tickets
  = [PStr "45"].
Proof. split; reflexivity. Qed.

(** X15.  A second run recognises what a first run created.  The subject
    [process_individual_ticket] hands to the payload builder is the source
    subject followed by a blank and the display id; when a destination
    ticket carries that subject and the source ticket has a non-empty
    subject and a truthy display id, Strategy B reports the display id as
    matched. *)
Theorem created_subject_is_recognised :
  forall (repr : pyval -> string) (superops_tickets : list (pyval * dict))
         (syncro_tickets : list dict) (ticket_id : pyval) (ticket_info dst : dict),
    Forall (fun c => is_scalar (get (snd c) "displayId" PNone) = true) superops_tickets ->
    Forall subject_is_text syncro_tickets ->
    In (ticket_id, ticket_info) superops_tickets -> In dst syncro_tickets ->
    truthy (get ticket_info "subject" PNone) = true ->
    truthy (get ticket_info "displayId" PNone) = true ->
    add_str (get ticket_info "subject" (PStr ""))
            (" " ++ py_str repr (get ticket_info "displayId" PNone))
    = Ok (get dst "subject" PNone) ->
    list_contains (get ticket_info "displayId" PNone)
      (compare_tickets_by_subject repr superops_tickets syncro_tickets) = true.
Proof.
  intros repr S D ticket_id ticket_info dst Hs Hd Hin Hdst Hsubject Hid Hcreated.
  assert (Hscalar : is_scalar (get ticket_info "displayId" PNone) = true).
  { rewrite Forall_forall in Hs. exact (Hs _ Hin). }
  rewrite (compare_tickets_by_subject_run repr S D Hs Hd).
  apply (record_hits_contains _ _ Hscalar). right.
  exists (get ticket_info "displayId" PNone).
  split; [|now apply py_eq_refl_scalar].
  apply in_map_iff. exists (ticket_id, ticket_info). split; [|exact Hin].
  cbn [snd]. f_equal. unfold source_matches_B. rewrite Hsubject, Hid. cbn [andb].
  apply existsb_exists. exists dst. split; [exact Hdst|].
  apply pair_matches_B_iff. unfold subject_mentions.
  unfold add_str in Hcreated.
  destruct (get ticket_info "subject" (PStr "")) as [| | |subject| |];
    try discriminate.
  injection Hcreated as Hcreated.
  exists (subject ++ " " ++ py_str repr (get ticket_info "displayId" PNone))%string.
  split; [now symmetry|]. split.
  - destruct subject; discriminate.
  - exists (subject ++ " ")%string, ""%string.
    now rewrite string_app_nil_r, string_app_assoc.
Qed.

Lemma created_subject_is_recognised_witness :
  list_contains (get acme_ticket "displayId" PNone)
    (compare_tickets_by_subject sample_repr [(PStr "t-77", acme_ticket)]
                                migrated_destination) = true.
Proof.
  apply (created_subject_is_recognised sample_repr [(PStr "t-77", acme_ticket)]
           migrated_destination (PStr "t-77") acme_ticket
           [("ticket_id", PInt 500); ("subject", PStr "Printer broken 77");
            ("created_at", PStr "2024-05-01T00:00:00+0000")]).
  - repeat constructor.
  - repeat constructor.
  - now left.
  - now left.
  - reflexivity.
  - reflexivity.
  - reflexivity.
Defined.

(** ** The paging loop: what is collected, and what a failed page costs *)

Section PagingOutcome.
Variable src : source.

Lemma collect_tickets_complete (page_tickets : list pyval) :
  forall tickets collected,
    Forall complete_ticket tickets ->
    collect_tickets src page_tickets tickets = Ok collected ->
    Forall complete_ticket collected.
Proof.
  induction page_tickets as [|ticket rest IH]; intros tickets collected Hall Hrun.
  - cbn in Hrun. injection Hrun as <-. exact Hall.
  - cbn [collect_tickets] in Hrun.
    destruct ticket as [| | | | |d]; try discriminate. cbn [get_attr bind] in Hrun.
    destruct (truthy (get d "ticketId" PNone)) eqn:Hid; cbn [negb] in Hrun;
      [|exact (IH _ _ Hall Hrun)].
    destruct (get_ticket_conversations src (get d "ticketId" PNone))
      as [conversations|e]; [|discriminate].
    cbn [bind] in Hrun.
    destruct (get_ticket_notes src (get d "ticketId" PNone)) as [notes|e];
      [|discriminate].
    cbn [bind] in Hrun.
    refine (IH _ _ _ Hrun). apply Forall_app. split; [exact Hall|].
    constructor; [|constructor].
    eexists. split; [reflexivity|]. split; [|split].
    + unfold get in *.
      rewrite !lookup_set_item_other by discriminate. exact Hid.
    + rewrite lookup_set_item_other by discriminate.
      rewrite lookup_set_item_same. discriminate.
    + rewrite lookup_set_item_same. discriminate.
Qed.

Lemma fetch_page_outcome (account_id : pyval) (page : Z) (tickets : list pyval)
  (outcome : page_outcome) :
  fetch_page src account_id page tickets = Ok outcome ->
  outcome = ReturnEmpty \/
  exists page_tickets collected,
    collect_tickets src page_tickets tickets = Ok collected /\
    (outcome = Break collected \/ outcome = NextPage collected).
Proof.
  unfold fetch_page. cbv zeta.
  destruct (response_field _ "getTicketList") as [[ticket_data|]|e];
    cbn [bind]; [| |discriminate].
  2: { intros H. injection H as <-. now left. }
  destruct (contains "tickets" ticket_data) as [[|]|e]; cbn [bind negb];
    [| |discriminate].
  2: { intros H. injection H as <-. now left. }
  destruct (item ticket_data "tickets") as [page_value|e]; cbn [bind]; [|discriminate].
  destruct (iterate page_value) as [page_tickets|e]; cbn [bind]; [|discriminate].
  destruct (collect_tickets src page_tickets tickets) as [collected|e] eqn:Hcollect;
    cbn [bind]; [|discriminate].
  destruct (get_attr ticket_data "listInfo" (PDict [])) as [list_info|e];
    cbn [bind]; [|discriminate].
  destruct (get_attr list_info "hasMore" (PBool false)) as [has_more|e];
    cbn [bind]; [|discriminate].
  intros H. right. exists page_tickets, collected. split; [exact Hcollect|].
  destruct (negb (truthy has_more)); injection H as <-; auto.
Qed.

Lemma tickets_from_page_complete (fuel : nat) (account_id : pyval) :
  forall (page : Z) (tickets collected : list pyval),
    Forall complete_ticket tickets ->
    tickets_from_page src fuel account_id page tickets = Some (Ok collected) ->
    Forall complete_ticket collected.
Proof.
  induction fuel as [|fuel IH]; intros page tickets collected Hall Hrun;
    [discriminate|].
  cbn [tickets_from_page] in Hrun.
  destruct (fetch_page src account_id page tickets) as [outcome|e] eqn:Hpage;
    [|discriminate].
  destruct (fetch_page_outcome _ _ _ _ Hpage)
    as [->|(page_tickets & more & Hcollect & [->| ->])].
  - injection Hrun as <-. constructor.
  - injection Hrun as <-. exact (collect_tickets_complete _ _ _ Hall Hcollect).
  - exact (IH _ _ _ (collect_tickets_complete _ _ _ Hall Hcollect) Hrun).
Qed.

Lemma fetch_page_failed (account_id : pyval) (page : Z) (tickets : list pyval) :
  post src QUERY_GET_TICKETS (ticket_list_variables account_id page) = None ->
  fetch_page src account_id page tickets = Ok ReturnEmpty.
Proof.
  intros Hpost. unfold fetch_page, make_api_call.
  change (truthy (ticket_list_variables account_id page)) with true. cbv iota zeta.
  now rewrite Hpost.
Qed.

Lemma tickets_from_page_fails_after (account_id : pyval) (rest : list (list dict)) :
  forall (i fuel : nat) (tickets : list pyval),
    (forall j page,
        nth_error rest j = Some page ->
        exists response,
          post src QUERY_GET_TICKETS
               (ticket_list_variables account_id (Z.of_nat (i + j) + 1))
          = Some response /\
          is_ticket_page response (map PDict page) true) ->
    post src QUERY_GET_TICKETS
         (ticket_list_variables account_id (Z.of_nat (i + List.length rest) + 1))
    = None ->
    Forall (fetchable src) (List.concat rest) ->
    (List.length rest < fuel)%nat ->
    tickets_from_page src fuel account_id (Z.of_nat i + 1) tickets = Some (Ok []).
Proof.
  induction rest as [|page rest IH]; intros i fuel tickets Hserved Hfail Hfetch Hfuel;
    (destruct fuel as [|fuel]; [cbn in Hfuel; lia|]); cbn [tickets_from_page].
  - cbn [List.length] in Hfail. rewrite Nat.add_0_r in Hfail.
    now rewrite (fetch_page_failed _ _ _ Hfail).
  - destruct (Hserved 0%nat page eq_refl) as (response & Hpost & Hpage).
    rewrite Nat.add_0_r in Hpost.
    rewrite (fetch_page_served src _ _ _ _ _ tickets Hpost Hpage).
    cbn [List.concat] in Hfetch. apply Forall_app in Hfetch.
    destruct Hfetch as [Hfetch_page Hfetch_rest].
    rewrite (collect_tickets_fetchable src page Hfetch_page). cbn [bind].
    replace (Z.of_nat i + 1 + 1)%Z with (Z.of_nat (S i) + 1)%Z by lia.
    apply IH.
    + intros j page' Hj. destruct (Hserved (S j) page' Hj) as (response' & H' & Hp').
      exists response'. split; [|exact Hp'].
      now replace (S i + j)%nat with (i + S j)%nat by lia.
    + cbn [List.length] in Hfail.
      now replace (S i + List.length rest)%nat with (i + S (List.length rest))%nat by lia.
    + exact Hfetch_rest.
    + cbn [List.length] in Hfuel. lia.
Qed.
End PagingOutcome.

(** X16.  Every ticket [get_tickets_for_client] returns is complete: it is a dict
    with a truthy id, and it carries a ["conversations"] and a ["notes"]
    entry, whatever the source platform answered. *)
Theorem collected_tickets_are_complete :
  forall (src : source) (fuel : nat) (account_id : pyval) (tickets : list pyval),
    get_tickets_for_client src fuel account_id = Some (Ok tickets) ->
    Forall complete_ticket tickets.
Proof.
  intros src fuel account_id tickets Hrun.
  exact (tickets_from_page_complete src fuel account_id 1 [] tickets
           (Forall_nil _) Hrun).
Qed.

Lemma collected_tickets_are_complete_witness :
  exists tickets,
    get_tickets_for_client two_client_source 3 (PInt 1) = Some (Ok tickets) /\
    List.length tickets = 3%nat /\
    Forall complete_ticket tickets.
Proof.
  eexists. split; [reflexivity|]. split; [reflexivity|].
  apply (collected_tickets_are_complete two_client_source 3 (PInt 1)).
  reflexivity.
Defined.

(** X17.  A failed request in the middle of the paging loses what was collected:
    when the first pages of a client are served and report more, and the
    request for the next page fails, [get_tickets_for_client] returns the
    empty list, not the tickets of the pages it has read. *)
Theorem failed_page_drops_collected_tickets :
  forall (src : source) (fuel : nat) (account_id : pyval) (pages : list (list dict)),
    fails_after src account_id pages ->
    Forall (fetchable src) (List.concat pages) ->
    (List.length pages < fuel)%nat ->
    get_tickets_for_client src fuel account_id = Some (Ok []).
Proof.
  intros src fuel account_id pages [Hserved Hfail] Hfetch Hfuel.
  exact (tickets_from_page_fails_after src account_id pages 0 fuel []
           Hserved Hfail Hfetch Hfuel).
Qed.

Lemma failed_page_drops_collected_tickets_witness :
  fails_after flaky_source (PInt 1) [flaky_page] /\
  get_tickets_for_client flaky_source 2 (PInt 1) = Some (Ok []).
Proof.
  assert (Hfails : fails_after flaky_source (PInt 1) [flaky_page]).
  { split; [|reflexivity].
    intros [|[|i]] page Hpage; cbn in Hpage; try discriminate.
    injection Hpage as <-. eexists. split; [reflexivity|].
    apply ticket_page_is_ticket_page. }
  split; [exact Hfails|].
  apply (failed_page_drops_collected_tickets flaky_source 2 (PInt 1) [flaky_page] Hfails).
  - repeat constructor; eexists; reflexivity.
  - cbn. lia.
Defined.

(** ** The cutoff as a calendar test *)

(** X18.  The cutoff holds back exactly the tickets of a month before April 2024,
    read off the ticket's own wall clock: the test never raises, and the
    offset of the creation time plays no part in it. *)
Theorem cutoff_is_a_calendar_test :
  (forall d : datetime,
      fields_in_range d -> older_than_cutoff d = Ok (before_april_2024 d)) /\
  (forall (d : datetime) (tz : option Z),
      older_than_cutoff (replace_tzinfo d tz) = older_than_cutoff d).
Proof.
  split.
  - intros d (Hday & Hhour & Hminute & Hsecond & Hmicro).
    rewrite older_than_cutoff_fields. f_equal.
    unfold fields, cutoff_date, before_april_2024.
    cbn [lex_ltb year month day hour minute second microsecond].
    replace (day d <? 1)%Z with false by (symmetry; apply Z.ltb_ge; lia).
    replace (hour d <? 0)%Z with false by (symmetry; apply Z.ltb_ge; lia).
    replace (minute d <? 0)%Z with false by (symmetry; apply Z.ltb_ge; lia).
    replace (second d <? 0)%Z with false by (symmetry; apply Z.ltb_ge; lia).
    replace (microsecond d <? 0)%Z with false by (symmetry; apply Z.ltb_ge; lia).
    cbn [orb]. now rewrite !andb_false_r, !orb_false_r.
  - intros d tz. now rewrite !older_than_cutoff_fields.
Qed.

Lemma cutoff_is_a_calendar_test_witness :
  older_than_cutoff march_last_2024 = Ok (before_april_2024 march_last_2024).
Proof.
  apply (proj1 cutoff_is_a_calendar_test march_last_2024).
  unfold fields_in_range. cbn. lia.
Defined.

(** ** A ticket without notes and conversations *)

Lemma comment_calls_of_quiet (a : list event) : no_calls a -> comment_calls a = [].
Proof.
  unfold no_calls. induction a as [|ev a IH]; [reflexivity|].
  destruct ev; cbn; intros H; try discriminate; auto.
Qed.

Lemma uncommented_app (a b : list event) :
  uncommented a -> uncommented b -> uncommented (a ++ b).
Proof.
  unfold uncommented. intros [Ha Ha'] [Hb Hb'].
  now rewrite comment_calls_app, Ha, Hb, existsb_app, Ha', Hb'.
Qed.

Lemma uncommented_of_quiet (a : list event) : quiet_lines a -> uncommented a.
Proof. intros [Ha Ha']. split; [now apply comment_calls_of_quiet | exact Ha']. Qed.

Lemma additive_quiet_lines : additive quiet_lines.
Proof.
  split; [split; reflexivity|].
  intros a b [Ha Ha'] [Hb Hb']. split.
  - now apply additive_no_calls.
  - now rewrite existsb_app, Ha', Hb'.
Qed.

Lemma quiet_lines_single (ev : event) :
  is_quiet_line ev = true -> quiet_lines [ev].
Proof.
  unfold quiet_lines, no_calls.
  destruct ev as [lvl msg| | | |]; cbn; try discriminate; try (split; reflexivity).
  intros H. apply negb_true_iff in H. rewrite H. split; reflexivity.
Qed.

Lemma fails_once_created_of_quiet {A : Type} (p : prog trace A) :
  appends quiet_lines p -> fails_once_created p.
Proof.
  intros Hp tr. destruct (Hp tr) as (new & Hnew & Hq).
  exists new, (snd (p tr)). rewrite <- Hnew.
  split; [apply surjective_pairing | left; now apply uncommented_of_quiet].
Qed.

Lemma fails_once_created_after {A B : Type} (m : prog trace A) (k : A -> prog trace B) :
  appends quiet_lines m -> (forall a, fails_once_created (k a)) ->
  fails_once_created (pbind m k).
Proof.
  intros Hm Hk tr. unfold pbind. destruct (Hm tr) as (new & Hnew & Hq).
  apply uncommented_of_quiet in Hq.
  destruct (m tr) as [tr' [a|e]]; cbn [fst] in *; subst tr';
    [|exists new, (Raise e); auto].
  destruct (Hk a (tr ++ new)) as (new' & r & Hnew' & Hcase).
  exists (new ++ new'), r. rewrite Hnew', app_assoc. split; [reflexivity|].
  destruct Hcase as [Hq'|(before & number & id & -> & Hbefore & Hraise)].
  - left. now apply uncommented_app.
  - right. exists (new ++ before), number, id. rewrite app_assoc.
    split; [reflexivity|]. split; [now apply uncommented_app | exact Hraise].
Qed.

Lemma fails_once_created_after_known {A B : Type} (m : prog trace A)
  (k : A -> prog trace B) (new : list event) (a : A) :
  quiet_lines new -> (forall tr, m tr = (tr ++ new, Ok a)) ->
  fails_once_created (k a) -> fails_once_created (pbind m k).
Proof.
  intros Hq Hm Hk tr. unfold pbind. rewrite Hm.
  apply uncommented_of_quiet in Hq.
  destruct (Hk (tr ++ new)) as (new' & r & Hnew' & Hcase).
  exists (new ++ new'), r. rewrite Hnew', app_assoc. split; [reflexivity|].
  destruct Hcase as [Hq'|(before & number & id & -> & Hbefore & Hraise)].
  - left. now apply uncommented_app.
  - right. exists (new ++ before), number, id. rewrite app_assoc.
    split; [reflexivity|]. split; [now apply uncommented_app | exact Hraise].
Qed.

Lemma extract_notes_and_conversations_known (ticket_id : pyval) (ticket_info : dict) :
  exists new,
    quiet_lines new /\
    forall tr,
      extract_notes_and_conversations ticket_id ticket_info tr
      = (tr ++ new, Ok (notes_of ticket_info, conversations_of ticket_info)).
Proof.
  unfold extract_notes_and_conversations, notes_of, conversations_of.
  destruct (get ticket_info "notes" PNone), (get ticket_info "conversations" PNone);
    first
      [ exists []; split; [split; reflexivity|];
        intros tr; rewrite app_nil_r; reflexivity
      | eexists [_]; (split; [|intros tr; reflexivity]); split; reflexivity
      | eexists [_; _];
        (split; [|intros tr; cbn; rewrite <- app_assoc; reflexivity]);
        split; reflexivity ].
Qed.

Section WithoutHistory.
Variable E : externals.

Lemma after_creation_without_history (response : pyval) :
  fails_once_created (after_creation E response [no_history]).
Proof.
  intros tr. unfold after_creation, pauser_on. cbn [truthy].
  assert (Hnothing : forall r : result unit,
             exists new r', (tr, r) = (tr ++ new, r') /\
               (uncommented new \/
                exists before number id,
                  new = before ++ [Log INFO (TicketCreated number id); Log INFO NoPause] /\
                  uncommented before /\ r' = Raise AttributeError)).
  { intros r. exists [], r. rewrite app_nil_r. split; [reflexivity|].
    left. split; reflexivity. }
  unfold pbind at 1.
  destruct (truthy response).
  - unfold lift at 1. destruct (contains "ticket" response) as [[|]|e];
      [| apply Hnothing | apply Hnothing].
    unfold pbind at 1, lift at 1.
    destruct (item response "ticket") as [ticket|e]; [|apply Hnothing].
    unfold pbind at 1, lift at 1.
    destruct (get_attr ticket "id" PNone) as [id|e]; [|apply Hnothing].
    unfold pbind at 1, lift at 1.
    destruct (get_attr ticket "number" PNone) as [number|e]; [|apply Hnothing].
    exists [Log INFO (TicketCreated number id); Log INFO NoPause], (Raise AttributeError).
    split; [cbn; now rewrite <- app_assoc|].
    right. exists [], number, id. repeat split.
  - apply Hnothing.
Qed.

Lemma create_unless_too_old_without_history (ticket_id payload : pyval) :
  fails_once_created (create_unless_too_old E ticket_id payload [no_history]).
Proof.
  intros tr. unfold create_unless_too_old.
  assert (Hnothing : forall r : result unit,
             exists new r', (tr, r) = (tr ++ new, r') /\
               (uncommented new \/
                exists before number id,
                  new = before ++ [Log INFO (TicketCreated number id); Log INFO NoPause] /\
                  uncommented before /\ r' = Raise AttributeError)).
  { intros r. exists [], r. rewrite app_nil_r. split; [reflexivity|].
    left. split; reflexivity. }
  unfold pbind at 1, lift at 1.
  destruct (item payload "created_at") as [created_at|e]; [|apply Hnothing].
  unfold pbind at 1, lift at 1.
  destruct (strptime E created_at) as [parsed|e]; [|apply Hnothing].
  unfold pbind at 1, lift at 1.
  destruct (older_than_cutoff parsed) as [[|]|e]; [| |apply Hnothing].
  - exists [Log INFO (TooOld ticket_id)], (Raise UnboundLocalError).
    split; [reflexivity|]. left. split; reflexivity.
  - unfold pbind at 1. unfold pbind at 1, log at 1, emit at 1, modify at 1.
    unfold pbind at 1, emit at 1, modify at 1. unfold pbind at 1, lift at 1.
    destruct (syncro_create_ticket E payload) as [response|e].
    + cbn [ret].
      destruct (after_creation_without_history response
                  ((tr ++ [Log INFO (AttemptingToCreate payload)])
                   ++ [CallCreateTicket payload]))
        as (new & r & Hnew & Hcase).
      exists ([Log INFO (AttemptingToCreate payload); CallCreateTicket payload] ++ new), r.
      rewrite Hnew, <- !app_assoc. split; [reflexivity|].
      assert (Hfirst : uncommented [Log INFO (AttemptingToCreate payload);
                                    CallCreateTicket payload])
        by (split; reflexivity).
      destruct Hcase as [Hq|(before & number & id & -> & Hbefore & Hraise)].
      * left. now apply uncommented_app.
      * right. eexists (_ ++ before), number, id. rewrite <- app_assoc.
        split; [reflexivity|]. split; [now apply uncommented_app | exact Hraise].
    + exists [Log INFO (AttemptingToCreate payload); CallCreateTicket payload],
             (Raise e).
      rewrite <- app_assoc. split; [reflexivity|]. left. split; reflexivity.
Qed.

Ltac quiet_line_steps :=
  unfold extract_assigned_tech;
  solve [appends_steps additive_quiet_lines quiet_lines_single].

Lemma process_individual_ticket_body_without_history (client ticket_id : pyval)
  (ticket_info : dict) (matched_ticket_ids : list pyval) :
  notes_of ticket_info = [] -> conversations_of ticket_info = [] ->
  exists body,
    process_individual_ticket E client ticket_id ticket_info matched_ticket_ids
    = try_except body (fun e => log ERROR (TicketFailure ticket_id e)) /\
    fails_once_created body.
Proof.
  intros Hnotes Hconversations.
  destruct (extract_notes_and_conversations_known ticket_id ticket_info)
    as (lines & Hlines & Hknown).
  eexists. split; [reflexivity|]. cbv zeta.
  apply fails_once_created_after; [quiet_line_steps | intros subject].
  apply fails_once_created_after; [quiet_line_steps | intros _].
  match goal with
  | |- fails_once_created (if ?c then _ else _) =>
      destruct c; [apply fails_once_created_of_quiet; quiet_line_steps|]
  end.
  apply fails_once_created_after; [quiet_line_steps | intros converted].
  apply fails_once_created_after; [quiet_line_steps | intros assigned_tech].
  apply (fails_once_created_after_known _ _ lines _ Hlines Hknown).
  cbv beta iota. rewrite Hnotes, Hconversations.
  apply (fails_once_created_after_known _ _
           [Log INFO (NoNotesOrConversations (get ticket_info "displayId" PNone))]
           [no_history]);
    [split; reflexivity | intros tr; reflexivity |].
  apply fails_once_created_after; [quiet_line_steps | intros _].
  match goal with
  | |- fails_once_created (if ?c then _ else _) =>
      destruct c; [apply fails_once_created_of_quiet; quiet_line_steps|]
  end.
  apply fails_once_created_after; [quiet_line_steps | intros _].
  apply fails_once_created_after; [quiet_line_steps | intros payload].
  apply fails_once_created_after; [quiet_line_steps | intros _].
  apply create_unless_too_old_without_history.
Qed.
End WithoutHistory.

(** X19.  A ticket without notes and conversations gets no comment, and its
    creation is logged as a failure: the timeline of such a ticket is the
    list holding the sentinel string, and the replay reads [entry.get] on
    that string.  Whenever [process_individual_ticket] writes the creation
    line of such a ticket, the no-pause line and the error line of the
    ticket with [AttributeError] follow and end its processing. *)
Theorem ticket_without_history_is_logged_as_failed :
  forall (E : externals) (client ticket_id : pyval) (ticket_info : dict)
         (matched_ticket_ids : list pyval) (tr : trace),
    notes_of ticket_info = [] -> conversations_of ticket_info = [] ->
    exists new,
      process_individual_ticket E client ticket_id ticket_info matched_ticket_ids tr
      = (tr ++ new, Ok tt) /\
      comment_calls new = [] /\
      (existsb is_created_line new = false \/
       exists before number id,
         new = before ++ [Log INFO (TicketCreated number id); Log INFO NoPause;
                          Log ERROR (TicketFailure ticket_id AttributeError)] /\
         existsb is_created_line before = false).
Proof.
  intros E client ticket_id ticket_info matched tr Hnotes Hconversations.
  destruct (process_individual_ticket_body_without_history E client ticket_id
              ticket_info matched Hnotes Hconversations) as (body & -> & Hbody).
  destruct (Hbody tr) as (new & r & Hnew & Hcase).
  unfold try_except. rewrite Hnew. destruct r as [[]|e].
  - exists new. split; [reflexivity|].
    destruct Hcase as [[Hc Hl]|(before & number & id & _ & _ & Hraise)];
      [auto | discriminate].
  - exists (new ++ [Log ERROR (TicketFailure ticket_id e)]).
    cbn. rewrite app_assoc. split; [reflexivity|].
    destruct Hcase as [[Hc Hl]|(before & number & id & -> & [Hc Hl] & Hraise)].
    + split; [now rewrite comment_calls_app, Hc|].
      left. now rewrite existsb_app, Hl.
    + injection Hraise as ->. split.
      * rewrite !comment_calls_app, Hc. reflexivity.
      * right. exists before, number, id. rewrite <- app_assoc.
        split; [reflexivity | exact Hl].
Qed.

Lemma ticket_without_history_is_logged_as_failed_witness :
  exists new,
    process_individual_ticket (sample_externals []) (PStr "Acme") (PStr "t-77")
      acme_ticket [] []
    = ([] ++ new, Ok tt) /\
    comment_calls new = [] /\
    (existsb is_created_line new = false \/
     exists before number id,
       new = before ++ [Log INFO (TicketCreated number id); Log INFO NoPause;
                        Log ERROR (TicketFailure (PStr "t-77") AttributeError)] /\
       existsb is_created_line before = false).
Proof.
  apply (ticket_without_history_is_logged_as_failed (sample_externals [])
           (PStr "Acme") (PStr "t-77") acme_ticket [] []); reflexivity.
Defined.

(** The scenario ticket has no history: it is created, and then reported as
    failed. *)
Example scenario_ticket_is_created_and_logged_as_failed :
  process_individual_ticket (sample_externals []) (PStr "Acme") (PStr "t-77")
    acme_ticket [] []
  = ([Log INFO (ProcessingTicket (PInt 77));
      Log WARNING (AssignedTechInvalid (PStr "t-77"));
      Log INFO (NoNotesOrConversations (PInt 77));
      Log INFO (LookingForTicket (PInt 77) []);
      Log INFO (NotFoundInSyncro (PStr "t-77"));
      Log INFO (AttemptingToCreate
                  (PDict [("subject", PStr "Printer broken 77");
                          ("created_at", PStr "2024-05-01T00:00:00+0000")]));
      Log INFO (AttemptingToCreate
                  (PDict [("subject", PStr "Printer broken 77");
                          ("created_at", PStr "2024-05-01T00:00:00+0000")]));
      CallCreateTicket (PDict [("subject", PStr "Printer broken 77");
                               ("created_at", PStr "2024-05-01T00:00:00+0000")]);
      Log INFO (TicketCreated (PInt 1001) (PInt 500));
      Log INFO NoPause;
      Log ERROR (TicketFailure (PStr "t-77") AttributeError)], Ok tt).
Proof. reflexivity. Qed.

(** ** Clients of one name *)

Lemma same_name_clients_served :
  client_served same_name_source 3 two_client_pages
    [("accountId", PInt 1); ("name", PStr "Acme")] /\
  client_served same_name_source 3 two_client_pages
    [("accountId", PInt 2); ("name", PStr "Acme")].
Proof.
  split.
  - exists (PInt 1), (PStr "Acme").
    split; [reflexivity|]. split; [reflexivity|]. split; [reflexivity|].
    change (two_client_pages (PInt 1)) with acme_pages.
    split; [exact two_client_source_serves_acme|]. split; [cbn; lia|].
    cbn [List.concat acme_pages app].
    repeat apply Forall_cons; try apply Forall_nil;
      intros H; try discriminate H;
      (split; [reflexivity | split; eexists; reflexivity]).
  - exists (PInt 2), (PStr "Acme").
    split; [reflexivity|]. split; [reflexivity|]. split; [reflexivity|].
    change (two_client_pages (PInt 2)) with [@nil dict].
    split; [exact two_client_source_serves_bolt|]. split; [cbn; lia|].
    apply Forall_nil.
Qed.

(** X20.  Clients are stored under their name, so two clients of one name
    share one entry and the later one wins: when the client page holds two
    clients with the same name, the result has a single entry, and its
    tickets are those of the second client alone; the tickets of the first
    are gone. *)
Theorem clients_of_one_name_share_one_entry :
  forall (src : source) (fuel : nat) (pages : pyval -> list (list dict))
         (response : pyval) (first second : dict),
    post src QUERY_GET_CLIENT_LIST
         (PDict [("input", PDict [("page", PInt 1); ("pageSize", PInt 100)])])
    = Some response ->
    is_client_page response [PDict first; PDict second] ->
    client_served src fuel pages first ->
    client_served src fuel pages second ->
    get first "name" PNone = get second "name" PNone ->
    exists info,
      structure_tickets
        (map (attach src)
             (filter has_id (List.concat (pages (get second "accountId" PNone))))) []
      = Ok info /\
      get_all_clients_with_tickets src fuel
      = Some (Ok [(get second "name" PNone, info)]).
Proof.
  intros src fuel pages response first second Hpost Hpage
         (account1 & name1 & Ha1 & Hn1 & Hscalar1 & Hserved1 & Hfuel1 & Hfetch1)
         (account2 & name2 & Ha2 & Hn2 & Hscalar2 & Hserved2 & Hfuel2 & Hfetch2)
         Hsame.
  assert (Hname1 : get first "name" PNone = name1) by (unfold get; now rewrite Hn1).
  assert (Hname2 : get second "name" PNone = name2) by (unfold get; now rewrite Hn2).
  assert (Hacc2 : get second "accountId" PNone = account2)
    by (unfold get; now rewrite Ha2).
  assert (Hnames : name1 = name2) by congruence.
  clear Hname1 Hsame. subst name1.
  destruct (structure_tickets_stores src _ Hfetch1 []) as (info1 & Hrun1 & _).
  destruct (structure_tickets_stores src _ Hfetch2 []) as (info2 & Hrun2 & _).
  exists info2. rewrite Hacc2, Hname2. split; [exact Hrun2|].
  rewrite (get_all_clients_with_tickets_served src fuel _ _ Hpost Hpage).
  cbn [collect_clients item]. unfold subscript. rewrite Ha1, Hn1. cbn [bind].
  rewrite (get_tickets_for_client_all_pages src account1 _ fuel Hserved1 Hfuel1).
  rewrite (collect_tickets_fetchable src _ Hfetch1). cbn [app].
  rewrite Hrun1. cbn [bind].
  rewrite (store_scalar _ _ _ Hscalar2). cbn [update_item].
  rewrite Ha2, Hn2. cbn [bind].
  rewrite (get_tickets_for_client_all_pages src account2 _ fuel Hserved2 Hfuel2).
  rewrite (collect_tickets_fetchable src _ Hfetch2). cbn [app].
  rewrite Hrun2. cbn [bind].
  rewrite (store_scalar _ _ _ Hscalar2). cbn [update_item].
  rewrite (py_eq_refl_scalar _ Hscalar2). reflexivity.
Qed.

Lemma clients_of_one_name_share_one_entry_witness :
  exists info,
    structure_tickets
      (map (attach same_name_source)
           (filter has_id
              (List.concat
                 (two_client_pages
                    (get [("accountId", PInt 2); ("name", PStr "Acme")]
                         "accountId" PNone))))) []
    = Ok info /\
    get_all_clients_with_tickets same_name_source 3
    = Some (Ok [(get [("accountId", PInt 2); ("name", PStr "Acme")] "name" PNone, info)]).
Proof.
  apply (clients_of_one_name_share_one_entry same_name_source 3 two_client_pages
           (client_page (map PDict same_name_clients))
           [("accountId", PInt 1); ("name", PStr "Acme")]
           [("accountId", PInt 2); ("name", PStr "Acme")]).
  - reflexivity.
  - apply client_page_is_client_page.
  - exact (proj1 same_name_clients_served).
  - exact (proj2 same_name_clients_served).
  - reflexivity.
Defined.

(** With both clients named Acme, the three tickets of the first are not in
    the result. *)
Example aggregator_on_clients_of_one_name :
  get_all_clients_with_tickets same_name_source 3 = Some (Ok [(PStr "Acme", [])]).
Proof. reflexivity. Qed.
